(** * PCF85263 real-time-clock library: calendar engine

    A shallow embedding of the [DateTime] and [TimeSpan] classes of
    [src/PCF85263.cpp] and [include/PCF85263.h].  Machine integers are
    modelled as [Z] with every conversion to a fixed-width type written
    out; C strings are lists of characters read up to the first NUL. *)

From Stdlib Require Import ZArith Bool Ascii String List Lia.
From Equations Require Import Equations.
Import ListNotations.
Local Open Scope Z_scope.
Set Default Proof Using "Type".

(** ** Fixed-width integers *)

(** Conversion to [uint8_t], [uint16_t] and [uint32_t]: reduction modulo
    the width. *)
Definition to_uint8 (x : Z) : Z := x mod 256.
Definition to_uint16 (x : Z) : Z := x mod 65536.
Definition to_uint32 (x : Z) : Z := x mod 4294967296.

(** Conversion to [int8_t], [int16_t] and [int32_t] (two's complement). *)
Definition to_int8 (x : Z) : Z := (x + 128) mod 256 - 128.
Definition to_int16 (x : Z) : Z := (x + 32768) mod 65536 - 32768.
Definition to_int32 (x : Z) : Z := (x + 2147483648) mod 4294967296 - 2147483648.

(** Width of [int] on the target.  The sources name both AVR boards
    (16-bit [int]) and ESP8266 / SAMD boards (32-bit [int]).  The width only
    shows in [dayOfTheWeek], the one place where a sum is formed in [int]
    and not brought back to a fixed-width type before it is used. *)
Inductive target : Type := Int16 | Int32.

(** [uint16_t + int] under the usual arithmetic conversions. *)
Definition add_promoted (t : target) (a b : Z) : Z :=
  match t with
  | Int16 => to_uint16 (a + b)
  | Int32 => a + b
  end.

Definition SECONDS_PER_DAY : Z := 86400.
Definition SECONDS_FROM_1970_TO_2000 : Z := 946684800.

(** ** Data *)

Record DateTime : Type := mkDateTime {
  yOff : Z;  (* uint8_t, year offset from 2000 *)
  m : Z;     (* uint8_t, month 1-12 *)
  d : Z;     (* uint8_t, day 1-31 *)
  hh : Z;    (* uint8_t, hours 0-23 *)
  mm : Z;    (* uint8_t, minutes 0-59 *)
  ss : Z     (* uint8_t, seconds 0-59 *)
}.

Record TimeSpan : Type := mkTimeSpan {
  _seconds : Z  (* int32_t *)
}.
(** ** C strings

    A buffer is the list of the characters of the caller's array; the
    string it holds ends at the first NUL, or at the end of the list, which
    stands for the terminator. *)
Definition NUL : ascii := "000"%char.
(** A character as an integer, and an integer stored into a [char]. *)
Definition char_code (c : ascii) : Z := Z.of_N (N_of_ascii c).
Definition char_of (x : Z) : ascii := ascii_of_N (Z.to_N (to_uint8 x)).

Fixpoint strlen (s : list ascii) : nat :=
  match s with
  | [] => O
  | c :: s' => if (c =? NUL)%char then O else S (strlen s')
  end.

(** [buffer[i]] read and [buffer[i] = c]; an index past the list reads the
    terminator, and nothing is written there. *)
Definition rd (buffer : list ascii) (i : nat) : ascii := nth i buffer NUL.

Fixpoint wr (buffer : list ascii) (i : nat) (c : ascii) : list ascii :=
  match buffer, i with
  | [], _ => []
  | _ :: rest, O => c :: rest
  | x :: rest, S i' => x :: wr rest i' c
  end.

(** [memcpy(dest, src, n)] for [n] no larger than either array. *)
Definition memcpy (dest src : list ascii) (n : nat) : list ascii :=
  firstn n src ++ skipn n dest.

(** [strstr(s, needle) != nullptr]. *)
Fixpoint starts_with (needle s : list ascii) : bool :=
  match needle, s with
  | [], _ => true
  | _ :: _, [] => false
  | c :: needle', x :: s' => (c =? x)%char && starts_with needle' s'
  end.

Fixpoint strstr_found (s needle : list ascii) : bool :=
  match s with
  | [] => match needle with [] => true | _ => false end
  | x :: s' =>
      starts_with needle s ||
      (if (x =? NUL)%char then false else strstr_found s' needle)
  end.

(** [static uint8_t conv2d(const char *p)]; [p] is the text from the
    pointer on.  The sum is formed in [int] and returned as [uint8_t], so a
    [char] enters it modulo 256 whether [char] is signed or not. *)
Definition conv2d (p : list ascii) : Z :=
  let v := 0 in
  let v :=
    if (char_code "0"%char <=? char_code (rd p 0)) && (char_code (rd p 0) <=? char_code "9"%char)
    then to_uint8 (char_code (rd p 0) - char_code "0"%char)
    else v in
  to_uint8 (10 * v + char_code (rd p 1) - char_code "0"%char).

Definition iso8601_ref : list ascii := list_ascii_of_string "2000-01-01T00:00:00".

(** [DateTime::DateTime(const char *iso8601dateTime)]; [ref + k] is the
    text of [ref] from offset [k] on. *)
Definition DateTime_of_iso8601 (iso8601dateTime : list ascii) : DateTime :=
  let ref := iso8601_ref in
  let ref := memcpy ref iso8601dateTime (Nat.min (strlen ref) (strlen iso8601dateTime)) in
  mkDateTime (conv2d (skipn 2 ref)) (conv2d (skipn 5 ref)) (conv2d (skipn 8 ref))
             (conv2d (skipn 11 ref)) (conv2d (skipn 14 ref)) (conv2d (skipn 17 ref)).


Lemma strlen_le_length s : (strlen s <= length s)%nat.
Proof.
  induction s as [| c s IH]; cbn; [lia |].
  destruct (c =? NUL)%char; lia.
Qed.

Lemma length_wr buffer i c : length (wr buffer i c) = length buffer.
Proof.
  revert i; induction buffer as [| x rest IH]; intros [| i]; cbn; try reflexivity.
  rewrite IH. reflexivity.
Qed.


(** The name tables of [toString]. *)
Definition day_names : list ascii := list_ascii_of_string "SunMonTueWedThuFriSat".
Definition month_names : list ascii :=
  list_ascii_of_string "JanFebMarAprMayJunJulAugSepOctNovDec".

(** ** Calendar conversion *)

(** The table holds January to November only. *)
Definition daysInMonth : list Z := [31; 28; 31; 30; 31; 30; 31; 31; 30; 31; 30].

(** [uint8_t leap = yOff % 4 == 0]. *)
Definition leap_of (y : Z) : Z := if y mod 4 =? 0 then 1 else 0.

(** [365 + leap], the length of the year block the year loop removes. *)
Definition year_length (y : Z) : Z := 365 + leap_of y.

Lemma year_loop_decreases (y days : Z) :
  ~ days < year_length y ->
  (Z.to_nat (to_uint16 (days - year_length y)) < Z.to_nat days)%nat.
Proof.
  unfold year_length, leap_of, to_uint16. intros Hge.
  assert (Hk : 365 <= 365 + (if y mod 4 =? 0 then 1 else 0) <= 366)
    by (destruct (y mod 4 =? 0); lia).
  assert (Hnn : 0 <= days - (365 + (if y mod 4 =? 0 then 1 else 0))) by lia.
  pose proof (Z.mod_le _ 65536 Hnn ltac:(lia)).
  pose proof (Z.mod_pos_bound
                (days - (365 + (if y mod 4 =? 0 then 1 else 0))) 65536 ltac:(lia)).
  lia.
Qed.

(** The year loop of [DateTime::DateTime(uint32_t)]:
    [for (yOff = 0;; ++yOff) { leap = yOff % 4 == 0;
       if (days < 365U + leap) break; days -= 365 + leap; }].
    It returns the final [yOff], the remaining [days] and [leap]. *)
#[local] Opaque year_length.
Equations year_loop (y days : Z) : Z * Z * Z by wf (Z.to_nat days) lt :=
  year_loop y days with Z_lt_dec days (year_length y) => {
    | left _ := (y, days, leap_of y);
    | right Hge := year_loop (to_uint8 (y + 1)) (to_uint16 (days - year_length y)) }.
Next Obligation. apply year_loop_decreases; assumption. Qed.
#[local] Transparent year_length.

Section Flash.

(** [daysInMonth] lives in program memory and has eleven entries.
    [date2days] reads entry [i - 1] for every [i < m], so a stored month
    above 12 reads past the table.  What lies there is not fixed by the
    sources: it is the byte [daysInMonth_oob i]. *)
Variable daysInMonth_oob : Z -> Z.

(** [pgm_read_byte(daysInMonth + i)]. *)
Definition daysInMonth_read (i : Z) : Z :=
  if (0 <=? i) && (i <? 11) then nth (Z.to_nat i) daysInMonth 0
  else to_uint8 (daysInMonth_oob i).

(** [for (uint8_t i = 1; i < m; ++i) days += pgm_read_byte(daysInMonth + i - 1);]
    run for [n] iterations starting at [i]. *)
Fixpoint date2days_months (n : nat) (i days : Z) : Z :=
  match n with
  | O => days
  | S n' => date2days_months n' (i + 1) (to_uint16 (days + daysInMonth_read (i - 1)))
  end.

(** [static uint16_t date2days(uint16_t y, uint8_t m, uint8_t d)]. *)
Definition date2days (y m d : Z) : Z :=
  let y := if 2000 <=? y then to_uint16 (y - 2000) else y in
  let days := d in
  let days := date2days_months (Z.to_nat (m - 1)) 1 days in
  let days := if (2 <? m) && (y mod 4 =? 0) then to_uint16 (days + 1) else days in
  to_uint16 (days + 365 * y + (y + 3) / 4 - 1).

(** [static uint32_t time2ulong(uint16_t days, uint8_t h, uint8_t m, uint8_t s)]. *)
Definition time2ulong (days h m s : Z) : Z :=
  to_uint32 (to_uint32 (to_uint32 (to_uint32 (to_uint32 (to_uint32 (days * 24) + h) * 60) + m) * 60) + s).

(** The month loop of [DateTime::DateTime(uint32_t)], [n] iterations left:
    [for (m = 1; m < 12; ++m) { daysPerMonth = pgm_read_byte(daysInMonth + m - 1);
       if (leap && m == 2) ++daysPerMonth;
       if (days < daysPerMonth) break; days -= daysPerMonth; }].
    With [n = 11] and [m = 1] the counter reaches 0 exactly when [m = 12]. *)
Fixpoint month_loop (n : nat) (leap m days : Z) : Z * Z :=
  match n with
  | O => (m, days)
  | S n' =>
      let daysPerMonth := daysInMonth_read (m - 1) in
      let daysPerMonth :=
        if negb (leap =? 0) && (m =? 2) then to_uint8 (daysPerMonth + 1)
        else daysPerMonth in
      if days <? daysPerMonth then (m, days)
      else month_loop n' leap (to_uint8 (m + 1)) (to_uint16 (days - daysPerMonth))
  end.

(** ** DateTime *)

(** [DateTime::DateTime(uint32_t t)]. *)
Definition DateTime_of_unixtime (t : Z) : DateTime :=
  let t := to_uint32 (t - SECONDS_FROM_1970_TO_2000) in
  let ss := to_uint8 (t mod 60) in
  let t := t / 60 in
  let mm := to_uint8 (t mod 60) in
  let t := t / 60 in
  let hh := to_uint8 (t mod 24) in
  let days := to_uint16 (t / 24) in
  let '(yOff, days, leap) := year_loop 0 days in
  let '(m, days) := month_loop 11 leap 1 days in
  mkDateTime yOff m (to_uint8 (days + 1)) hh mm ss.

(** [DateTime::DateTime(uint16_t year, uint8_t month, uint8_t day,
                        uint8_t hour, uint8_t min, uint8_t sec)]. *)
Definition DateTime_of_components (year month day hour min sec : Z) : DateTime :=
  let year := if 2000 <=? year then to_uint16 (year - 2000) else year in
  mkDateTime (to_uint8 year) month day hour min sec.

(** Accessors of the header. *)
Definition year (dt : DateTime) : Z := to_uint16 (2000 + yOff dt).
Definition month (dt : DateTime) : Z := m dt.
Definition day (dt : DateTime) : Z := d dt.
Definition hour (dt : DateTime) : Z := hh dt.
Definition minute (dt : DateTime) : Z := mm dt.
Definition second (dt : DateTime) : Z := ss dt.
Definition isPM (dt : DateTime) : Z := if 12 <=? hh dt then 1 else 0.

(** [uint8_t DateTime::twelveHour() const]. *)
Definition twelveHour (dt : DateTime) : Z :=
  if (hh dt =? 0) || (hh dt =? 12) then 12
  else if 12 <? hh dt then to_uint8 (hh dt - 12)
  else hh dt.

(** [uint8_t DateTime::dayOfTheWeek() const]. *)
Definition dayOfTheWeek (tg : target) (dt : DateTime) : Z :=
  let day := date2days (yOff dt) (m dt) (d dt) in
  to_uint8 (add_promoted tg day 6 mod 7).

(** [uint32_t DateTime::secondstime(void) const]. *)
Definition secondstime (dt : DateTime) : Z :=
  let days := date2days (yOff dt) (m dt) (d dt) in
  time2ulong days (hh dt) (mm dt) (ss dt).

(** [uint32_t DateTime::unixtime(void) const]. *)
Definition unixtime (dt : DateTime) : Z :=
  let days := date2days (yOff dt) (m dt) (d dt) in
  let t := time2ulong days (hh dt) (mm dt) (ss dt) in
  to_uint32 (t + SECONDS_FROM_1970_TO_2000).

(** [bool DateTime::isValid() const]. *)
Definition isValid (dt : DateTime) : bool :=
  if 100 <=? yOff dt then false
  else
    let other := DateTime_of_unixtime (unixtime dt) in
    (yOff dt =? yOff other) && (m dt =? m other) && (d dt =? d other) &&
    (hh dt =? hh other) && (mm dt =? mm other) && (ss dt =? ss other).

(** [bool DateTime::operator<(const DateTime &right) const]. *)
Definition operator_lt (l right : DateTime) : bool :=
  (yOff l + 2000 <? year right) ||
  ((yOff l + 2000 =? year right) &&
   ((m l <? month right) ||
    ((m l =? month right) &&
     ((d l <? day right) ||
      ((d l =? day right) &&
       ((hh l <? hour right) ||
        ((hh l =? hour right) &&
         ((mm l <? minute right) ||
          ((mm l =? minute right) && (ss l <? second right)))))))))).

(** [operator>], [operator<=] and [operator>=] of the header. *)
Definition operator_gt (l right : DateTime) : bool := operator_lt right l.
Definition operator_le (l right : DateTime) : bool := negb (operator_gt l right).
Definition operator_ge (l right : DateTime) : bool := negb (operator_lt l right).

(** [bool DateTime::operator==(const DateTime &right) const]. *)
Definition operator_eq (l right : DateTime) : bool :=
  (year right =? yOff l + 2000) && (month right =? m l) &&
  (day right =? d l) && (hour right =? hh l) && (minute right =? mm l) &&
  (second right =? ss l).

Definition operator_ne (l right : DateTime) : bool := negb (operator_eq l right).

(** [DateTime DateTime::operator+(const TimeSpan &span) const]: the sum of a
    [uint32_t] and an [int32_t] is formed in [uint32_t]. *)
Definition operator_plus (dt : DateTime) (span : TimeSpan) : DateTime :=
  DateTime_of_unixtime (to_uint32 (unixtime dt + _seconds span)).

(** [DateTime DateTime::operator-(const TimeSpan &span) const]. *)
Definition operator_minus (dt : DateTime) (span : TimeSpan) : DateTime :=
  DateTime_of_unixtime (to_uint32 (unixtime dt - _seconds span)).

(** [TimeSpan DateTime::operator-(const DateTime &right) const]: the
    [uint32_t] difference becomes the [int32_t] argument of [TimeSpan]. *)
Definition operator_diff (l right : DateTime) : TimeSpan :=
  mkTimeSpan (to_int32 (to_uint32 (unixtime l - unixtime right))).

End Flash.

(** ** Formatter *)

Section Formatter.

(** [month_names] is indexed by [3 * (m - 1)]: a stored month outside
    1..12 reads outside the table (index 36 is its terminator).  What lies
    there is the character [month_names_oob i]. *)
Variable daysInMonth_oob : Z -> Z.
Variable month_names_oob : Z -> ascii.
Variable tg : target.
Variable dt : DateTime.

Definition day_names_read (i : Z) : ascii := nth (Z.to_nat i) day_names NUL.

Definition month_names_read (i : Z) : ascii :=
  if (0 <=? i) && (i <? 37) then nth (Z.to_nat i) month_names NUL
  else month_names_oob i.

(** The body of the scan loop of [toString] at index [i], one definition
    for each [if] statement, in the order of the source. *)
Section Body.
Variable apTag : bool.
Variable hourReformatted : Z.
Variable isPM : bool.
Variable i : nat.

Definition fmt_hh (buffer : list ascii) : list ascii :=
  if (rd buffer i =? "h")%char && (rd buffer (i + 1)%nat =? "h")%char then
    if negb apTag then
      let buffer := wr buffer i (char_of (char_code "0"%char + hh dt / 10)) in
      wr buffer (i + 1)%nat (char_of (char_code "0"%char + hh dt mod 10))
    else
      let buffer := wr buffer i (char_of (char_code "0"%char + hourReformatted / 10)) in
      wr buffer (i + 1)%nat (char_of (char_code "0"%char + hourReformatted mod 10))
  else buffer.

Definition fmt_mm (buffer : list ascii) : list ascii :=
  if (rd buffer i =? "m")%char && (rd buffer (i + 1)%nat =? "m")%char then
    let buffer := wr buffer i (char_of (char_code "0"%char + mm dt / 10)) in
    wr buffer (i + 1)%nat (char_of (char_code "0"%char + mm dt mod 10))
  else buffer.

Definition fmt_ss (buffer : list ascii) : list ascii :=
  if (rd buffer i =? "s")%char && (rd buffer (i + 1)%nat =? "s")%char then
    let buffer := wr buffer i (char_of (char_code "0"%char + ss dt / 10)) in
    wr buffer (i + 1)%nat (char_of (char_code "0"%char + ss dt mod 10))
  else buffer.

Definition fmt_D (buffer : list ascii) : list ascii :=
  if (rd buffer i =? "D")%char && (rd buffer (i + 1)%nat =? "D")%char && (rd buffer (i + 2)%nat =? "D")%char then
    let p := 3 * dayOfTheWeek daysInMonth_oob tg dt in
    let buffer := wr buffer i (day_names_read p) in
    let buffer := wr buffer (i + 1)%nat (day_names_read (p + 1)) in
    wr buffer (i + 2)%nat (day_names_read (p + 2))
  else if (rd buffer i =? "D")%char && (rd buffer (i + 1)%nat =? "D")%char then
    let buffer := wr buffer i (char_of (char_code "0"%char + d dt / 10)) in
    wr buffer (i + 1)%nat (char_of (char_code "0"%char + d dt mod 10))
  else buffer.

Definition fmt_M (buffer : list ascii) : list ascii :=
  if (rd buffer i =? "M")%char && (rd buffer (i + 1)%nat =? "M")%char && (rd buffer (i + 2)%nat =? "M")%char then
    let p := 3 * (m dt - 1) in
    let buffer := wr buffer i (month_names_read p) in
    let buffer := wr buffer (i + 1)%nat (month_names_read (p + 1)) in
    wr buffer (i + 2)%nat (month_names_read (p + 2))
  else if (rd buffer i =? "M")%char && (rd buffer (i + 1)%nat =? "M")%char then
    let buffer := wr buffer i (char_of (char_code "0"%char + m dt / 10)) in
    wr buffer (i + 1)%nat (char_of (char_code "0"%char + m dt mod 10))
  else buffer.

Definition fmt_Y (buffer : list ascii) : list ascii :=
  if (rd buffer i =? "Y")%char && (rd buffer (i + 1)%nat =? "Y")%char && (rd buffer (i + 2)%nat =? "Y")%char
     && (rd buffer (i + 3)%nat =? "Y")%char then
    let buffer := wr buffer i "2"%char in
    let buffer := wr buffer (i + 1)%nat "0"%char in
    let buffer := wr buffer (i + 2)%nat (char_of (char_code "0"%char + (yOff dt / 10) mod 10)) in
    wr buffer (i + 3)%nat (char_of (char_code "0"%char + yOff dt mod 10))
  else if (rd buffer i =? "Y")%char && (rd buffer (i + 1)%nat =? "Y")%char then
    let buffer := wr buffer i (char_of (char_code "0"%char + (yOff dt / 10) mod 10)) in
    wr buffer (i + 1)%nat (char_of (char_code "0"%char + yOff dt mod 10))
  else buffer.

Definition fmt_AP (buffer : list ascii) : list ascii :=
  if (rd buffer i =? "A")%char && (rd buffer (i + 1)%nat =? "P")%char then
    if isPM then wr (wr buffer i "P"%char) (i + 1)%nat "M"%char
    else wr (wr buffer i "A"%char) (i + 1)%nat "M"%char
  else if (rd buffer i =? "a")%char && (rd buffer (i + 1)%nat =? "p")%char then
    if isPM then wr (wr buffer i "p"%char) (i + 1)%nat "m"%char
    else wr (wr buffer i "a"%char) (i + 1)%nat "m"%char
  else buffer.

Definition toString_body (buffer : list ascii) : list ascii :=
  fmt_AP (fmt_Y (fmt_M (fmt_D (fmt_ss (fmt_mm (fmt_hh buffer)))))).

Ltac fmt_cases :=
  repeat match goal with
         | |- context [if ?c then _ else _] => destruct c
         end; cbv zeta.

Lemma length_fmt_hh buffer : length (fmt_hh buffer) = length buffer.
Proof. unfold fmt_hh; fmt_cases; rewrite ?length_wr; reflexivity. Qed.
Lemma length_fmt_mm buffer : length (fmt_mm buffer) = length buffer.
Proof. unfold fmt_mm; fmt_cases; rewrite ?length_wr; reflexivity. Qed.
Lemma length_fmt_ss buffer : length (fmt_ss buffer) = length buffer.
Proof. unfold fmt_ss; fmt_cases; rewrite ?length_wr; reflexivity. Qed.
Lemma length_fmt_D buffer : length (fmt_D buffer) = length buffer.
Proof. unfold fmt_D; fmt_cases; rewrite ?length_wr; reflexivity. Qed.
Lemma length_fmt_M buffer : length (fmt_M buffer) = length buffer.
Proof. unfold fmt_M; fmt_cases; rewrite ?length_wr; reflexivity. Qed.
Lemma length_fmt_Y buffer : length (fmt_Y buffer) = length buffer.
Proof. unfold fmt_Y; fmt_cases; rewrite ?length_wr; reflexivity. Qed.
Lemma length_fmt_AP buffer : length (fmt_AP buffer) = length buffer.
Proof. unfold fmt_AP; fmt_cases; rewrite ?length_wr; reflexivity. Qed.

Lemma length_toString_body buffer : length (toString_body buffer) = length buffer.
Proof.
  unfold toString_body.
  rewrite length_fmt_AP, length_fmt_Y, length_fmt_M, length_fmt_D,
    length_fmt_ss, length_fmt_mm, length_fmt_hh.
  reflexivity.
Qed.

End Body.

Lemma toString_loop_decreases apTag hr isPM i buffer :
  (i < strlen buffer - 1)%nat ->
  (length (toString_body apTag hr isPM i buffer) - S i < length buffer - i)%nat.
Proof.
  intros Hi. rewrite length_toString_body.
  pose proof (strlen_le_length buffer). lia.
Qed.

Section Loop.
Variable apTag : bool.
Variable hourReformatted : Z.
Variable isPM : bool.

(** [for (size_t i = 0; i < strlen(buffer) - 1; i++) { ... }] from index [i] on.
    [strlen(buffer) - 1] is formed in [size_t]: on an empty string it is
    [SIZE_MAX], the scan walks past the terminator and out of the caller's
    array, and the call has no defined result ([None]). *)
#[local] Opaque toString_body strlen.
Equations(noind) toString_loop (i : nat) (buffer : list ascii) : option (list ascii)
  by wf (length buffer - i)%nat lt :=
  toString_loop i buffer with Nat.eq_dec (strlen buffer) 0 => {
    | left _ := None;
    | right _ with lt_dec i (strlen buffer - 1) => {
        | left Hlt := toString_loop (S i) (toString_body apTag hourReformatted isPM i buffer);
        | right _ := Some buffer } }.
Next Obligation. apply toString_loop_decreases; assumption. Qed.
#[local] Transparent toString_body strlen.

End Loop.

(** [char *DateTime::toString(char *buffer) const]. *)
Definition toString (buffer : list ascii) : option (list ascii) :=
  let apTag :=
    strstr_found buffer (list_ascii_of_string "ap")
    || strstr_found buffer (list_ascii_of_string "AP") in
  let '(hourReformatted, isPM) :=
    if apTag then
      if hh dt =? 0 then (12, false)
      else if hh dt =? 12 then (12, true)
      else if hh dt <? 12 then (hh dt, false)
      else (to_uint8 (hh dt - 12), true)
    else (0, false) in
  toString_loop apTag hourReformatted isPM 0 buffer.

End Formatter.
(** ** TimeSpan *)

Module TimeSpan.

(** [TimeSpan::TimeSpan(int32_t seconds)]. *)
Definition of_seconds (seconds : Z) : TimeSpan := mkTimeSpan seconds.

(** [TimeSpan::TimeSpan(int16_t days, int8_t hours, int8_t minutes, int8_t seconds)]:
    [(int32_t)days * 86400L + (int32_t)hours * 3600 + (int32_t)minutes * 60 + seconds],
    each partial result in [int32_t]. *)
Definition of_components (days hours minutes seconds : Z) : TimeSpan :=
  mkTimeSpan
    (to_int32 (to_int32 (to_int32 (to_int32 (days * 86400) + to_int32 (hours * 3600))
                         + to_int32 (minutes * 60))
               + seconds)).

(** The accessors of the header; [/] and [%] of C++ truncate toward zero. *)
Definition days (ts : TimeSpan) : Z := to_int16 (Z.quot (_seconds ts) 86400).
Definition hours (ts : TimeSpan) : Z := to_int8 (Z.rem (Z.quot (_seconds ts) 3600) 24).
Definition minutes (ts : TimeSpan) : Z := to_int8 (Z.rem (Z.quot (_seconds ts) 60) 60).
Definition seconds (ts : TimeSpan) : Z := to_int8 (Z.rem (_seconds ts) 60).
Definition totalseconds (ts : TimeSpan) : Z := _seconds ts.

(** [TimeSpan::operator+] and [TimeSpan::operator-]. *)
Definition plus (l right : TimeSpan) : TimeSpan :=
  mkTimeSpan (to_int32 (_seconds l + _seconds right)).
Definition minus (l right : TimeSpan) : TimeSpan :=
  mkTimeSpan (to_int32 (_seconds l - _seconds right)).

End TimeSpan.

(** ** Reference calendar

    The Gregorian calendar the claims are stated against, and closed forms
    of the quantities the code accumulates in loops. *)

(** Gregorian leap year. *)
Definition is_leap_year (yr : Z) : bool :=
  ((yr mod 4 =? 0) && negb (yr mod 100 =? 0)) || (yr mod 400 =? 0).

(** Number of days of month [mo] in year [yr]. *)
Definition days_in_month (yr mo : Z) : Z :=
  if mo =? 2 then (if is_leap_year yr then 29 else 28)
  else if (mo =? 4) || (mo =? 6) || (mo =? 9) || (mo =? 11) then 30
  else 31.

(** The stored fields are a date and time of day of 2000..2099. *)
Definition calendar_date (dt : DateTime) : Prop :=
  0 <= yOff dt < 100 /\ 1 <= m dt <= 12 /\
  1 <= d dt <= days_in_month (2000 + yOff dt) (m dt) /\
  0 <= hh dt < 24 /\ 0 <= mm dt < 60 /\ 0 <= ss dt < 60.

(** Month length under the code's leap flag [leap] (0 or 1). *)
Definition month_length (leap mo : Z) : Z :=
  if mo =? 2 then 28 + leap
  else if (mo =? 4) || (mo =? 6) || (mo =? 9) || (mo =? 11) then 30
  else 31.

(** Days of the year before month [mo]. *)
Definition days_before_month (leap mo : Z) : Z :=
  nth (Z.to_nat (mo - 1)) [0; 31; 59; 90; 120; 151; 181; 212; 243; 273; 304; 334] 0
  + (if 2 <? mo then leap else 0).

(** Days from 2000-01-01 to the first day of year [2000 + y]. *)
Definition days_before_year (y : Z) : Z := 365 * y + (y + 3) / 4.

(** The code's own notion of a well-formed date: the four-year leap rule. *)
Definition canonical (dt : DateTime) : Prop :=
  0 <= yOff dt < 100 /\ 1 <= m dt <= 12 /\
  1 <= d dt <= month_length (leap_of (yOff dt)) (m dt) /\
  0 <= hh dt < 24 /\ 0 <= mm dt < 60 /\ 0 <= ss dt < 60.

(** Day count of a well-formed date. *)
Definition day_number (dt : DateTime) : Z :=
  days_before_year (yOff dt) + days_before_month (leap_of (yOff dt)) (m dt) + d dt - 1.

(** Lexicographic order on tuples given as lists, first entry most
    significant. *)
Fixpoint lex_lt (xs ys : list Z) : Prop :=
  match xs, ys with
  | x :: xs', y :: ys' => x < y \/ (x = y /\ lex_lt xs' ys')
  | _, _ => False
  end.

(** The tuple (year, month, day, hour, minute, second) of the accessors. *)
Definition fields (dt : DateTime) : list Z :=
  [year dt; month dt; day dt; hour dt; minute dt; second dt].

(** The order of [operator<] written on the stored fields. *)
Definition earlier (a b : DateTime) : Prop :=
  lex_lt [yOff a; m a; d a; hh a; mm a; ss a] [yOff b; m b; d b; hh b; mm b; ss b].


(** ** Format strings *)

(** The characters a format token can begin with. *)
Definition starts_token (c : ascii) : bool :=
  existsb (Ascii.eqb c) (list_ascii_of_string "hmsDMYAa").

(** Literal text: neither the terminator nor the start of a token. *)
Definition literal (c : ascii) : bool := negb (c =? NUL)%char && negb (starts_token c).

Definition is_digit (c : ascii) : bool :=
  (char_code "0"%char <=? char_code c) && (char_code c <=? char_code "9"%char).

(** The decimal digit [x] as a character, ['0' + x]. *)
Definition digit (x : Z) : ascii := char_of (char_code "0"%char + x).

(** An [AP] or [ap] token occurs somewhere in the buffer. *)
Definition has_meridiem (buffer : list ascii) : bool :=
  strstr_found buffer (list_ascii_of_string "ap")
  || strstr_found buffer (list_ascii_of_string "AP").

(** The hour on a twelve-hour dial. *)
Definition hour12 (h : Z) : Z := (h + 11) mod 12 + 1.

(** The format tokens, and whether position [p] of a buffer lies inside an
    occurrence of one of them. *)
Definition tokens : list (list ascii) :=
  map list_ascii_of_string
    ["DDD"; "DD"; "MMM"; "MM"; "YYYY"; "YY"; "hh"; "mm"; "ss"; "AP"; "ap"]%string.

Definition token_covers (buffer : list ascii) (p : nat) : bool :=
  existsb (fun t =>
             existsb (fun s => (p <? s + length t)%nat && starts_with t (skipn s buffer))
                     (seq 0 (S p)))
          tokens.

(** The states of the scan loop of [toString]: [scan_state ... buffer0 i b]
    when the loop started on [buffer0] reaches its test with index [i] and
    buffer [b]. *)
Inductive scan_state (rom : Z -> Z) (names_oob : Z -> ascii) (tg : target)
          (dt : DateTime) (apTag : bool) (hourReformatted : Z) (isPM : bool)
          (buffer0 : list ascii) : nat -> list ascii -> Prop :=
| scan_start : scan_state rom names_oob tg dt apTag hourReformatted isPM buffer0 O buffer0
| scan_next i b :
    scan_state rom names_oob tg dt apTag hourReformatted isPM buffer0 i b ->
    (i < strlen b - 1)%nat ->
    scan_state rom names_oob tg dt apTag hourReformatted isPM buffer0 (S i)
               (toString_body rom names_oob tg dt apTag hourReformatted isPM i b).

(** [hourReformatted] and [isPM] as [toString] sets them before the scan. *)
Definition hourReformatted_of (dt : DateTime) (apTag : bool) : Z :=
  if apTag then
    if hh dt =? 0 then 12
    else if hh dt =? 12 then 12
    else if hh dt <? 12 then hh dt
    else to_uint8 (hh dt - 12)
  else 0.

Definition isPM_of (dt : DateTime) (apTag : bool) : bool :=
  if apTag then
    if hh dt =? 0 then false
    else if hh dt =? 12 then true
    else if hh dt <? 12 then false
    else true
  else false.

(** The hour the [hh] statement of the scan writes. *)
Definition shown_hour (dt : DateTime) (apTag : bool) (hourReformatted : Z) : Z :=
  if negb apTag then hh dt else hourReformatted.

(** ** Build-time constructors and timestamps *)

(** The [switch] on the month name of [DateTime::DateTime(const char *date,
    const char *time)].  It has no [default]: for any other first letter [m]
    is left as it was, here the value [m_uninit]. *)
Definition month_of_name (m_uninit : Z) (date : list ascii) : Z :=
  if (rd date 0 =? "J")%char then
    (if (rd date 1 =? "a")%char then 1 else if (rd date 2 =? "n")%char then 6 else 7)
  else if (rd date 0 =? "F")%char then 2
  else if (rd date 0 =? "A")%char then (if (rd date 2 =? "r")%char then 4 else 8)
  else if (rd date 0 =? "M")%char then (if (rd date 2 =? "r")%char then 3 else 5)
  else if (rd date 0 =? "S")%char then 9
  else if (rd date 0 =? "O")%char then 10
  else if (rd date 0 =? "N")%char then 11
  else if (rd date 0 =? "D")%char then 12
  else m_uninit.

(** [DateTime::DateTime(const char *date, const char *time)]. *)
Definition DateTime_of_build (m_uninit : Z) (date time : list ascii) : DateTime :=
  let yOff := conv2d (skipn 9 date) in
  let m := month_of_name m_uninit date in
  let d := conv2d (skipn 4 date) in
  let hh := conv2d time in
  let mm := conv2d (skipn 3 time) in
  let ss := conv2d (skipn 6 time) in
  mkDateTime yOff m d hh mm ss.

(** [DateTime::DateTime(const __FlashStringHelper *date,
    const __FlashStringHelper *time)]: [memcpy_P(buff, date, 11)] fills
    [char buff[11]], and [memcpy_P(buff, time, 8)] later overwrites its first
    eight characters. *)
Definition DateTime_of_build_P (m_uninit : Z) (date time : list ascii) : DateTime :=
  let buff := firstn 11 date in
  let yOff := conv2d (skipn 9 buff) in
  let m := month_of_name m_uninit buff in
  let d := conv2d (skipn 4 buff) in
  let buff := memcpy buff time 8 in
  let hh := conv2d buff in
  let mm := conv2d (skipn 3 buff) in
  let ss := conv2d (skipn 6 buff) in
  mkDateTime yOff m d hh mm ss.

(** [sprintf] conversions on the values they are given here: [%u] of a
    number below 10000, and [%02d] of a byte. *)
Definition print_u (x : Z) : list ascii :=
  if x <? 10 then [char_of (char_code "0"%char + x)]
  else if x <? 100 then
    [char_of (char_code "0"%char + x / 10); char_of (char_code "0"%char + x mod 10)]
  else if x <? 1000 then
    [char_of (char_code "0"%char + x / 100);
     char_of (char_code "0"%char + (x / 10) mod 10);
     char_of (char_code "0"%char + x mod 10)]
  else
    [char_of (char_code "0"%char + x / 1000);
     char_of (char_code "0"%char + (x / 100) mod 10);
     char_of (char_code "0"%char + (x / 10) mod 10);
     char_of (char_code "0"%char + x mod 10)].

Definition print_02d (x : Z) : list ascii :=
  if x <? 10 then ["0"%char; char_of (char_code "0"%char + x)] else print_u x.

Inductive timestampOpt : Type := TIMESTAMP_FULL | TIMESTAMP_TIME | TIMESTAMP_DATE.

(** [String DateTime::timestamp(timestampOpt opt) const]. *)
Definition timestamp (opt : timestampOpt) (dt : DateTime) : list ascii :=
  match opt with
  | TIMESTAMP_TIME =>
      print_02d (hh dt) ++ [":"%char] ++ print_02d (mm dt) ++ [":"%char] ++ print_02d (ss dt)
  | TIMESTAMP_DATE =>
      print_u (2000 + yOff dt) ++ ["-"%char] ++ print_02d (m dt) ++ ["-"%char]
      ++ print_02d (d dt)
  | TIMESTAMP_FULL =>
      print_u (2000 + yOff dt) ++ ["-"%char] ++ print_02d (m dt) ++ ["-"%char]
      ++ print_02d (d dt) ++ ["T"%char] ++ print_02d (hh dt) ++ [":"%char]
      ++ print_02d (mm dt) ++ [":"%char] ++ print_02d (ss dt)
  end.

(** ** Register encoding *)

(** [static uint8_t bcd2bin(uint8_t val)] and [static uint8_t bin2bcd(uint8_t val)]. *)
Definition bcd2bin (val : Z) : Z := to_uint8 (val - 6 * Z.shiftr val 4).
Definition bin2bcd (val : Z) : Z := to_uint8 (val + 6 * (val / 10)).

Definition PCF85263_SECOND : Z := 1.
Definition PCF85263_ALM1_SECONDS : Z := 8.
Definition PCF85263_ALMEN : Z := 16.
Definition PCF85263_TSTMP1_SECONDS : Z := 17.
Definition PCF85263_TSTMP2_SECONDS : Z := 23.
Definition PCF85263_TSTMP_Control : Z := 35.
Definition PCF85263_PINIO : Z := 39.
Definition PCF85263_INTAEN : Z := 41.
Definition PCF85263_INTBEN : Z := 42.
Definition PCF85263_STOPEN : Z := 46.

(** The driver talks to the chip through an I2C device object.  Each driver
    function is given here by the bytes it hands to the bus, as a function
    of the bytes the bus returned to it. *)

(** [RTC_I2C::write_register(reg, val)] sends the two bytes [{reg, val}]. *)
Definition write_register (reg val : Z) : list Z := [reg; val].

(** [PCF85263::start]: [stopen] is what [read_register(PCF85263_STOPEN)]
    returned; the result lists the register writes. *)
Definition start (stopen : Z) : list (list Z) :=
  if negb (Z.land stopen 1 =? 0)
  then [write_register PCF85263_STOPEN (to_uint8 (Z.land stopen (Z.lnot 1)))]
  else [].

(** [PCF85263::stop]. *)
Definition stop (stopen : Z) : list (list Z) :=
  if Z.land stopen 1 =? 0
  then [write_register PCF85263_STOPEN (to_uint8 (Z.land stopen 1))]
  else [].

(** [PCF85263::configure]. *)
Definition configure : list (list Z) :=
  [write_register PCF85263_TSTMP_Control 128;
   write_register PCF85263_PINIO 2;
   write_register PCF85263_INTAEN 20].

(** [PCF85263::adjust]: the eight bytes written. *)
Definition adjust (dt : DateTime) : list Z :=
  [PCF85263_SECOND; bin2bcd (second dt); bin2bcd (minute dt); bin2bcd (hour dt);
   bin2bcd (day dt); bin2bcd 0; bin2bcd (month dt);
   bin2bcd (to_uint8 (year dt - 2000))].

(** [PCF85263::now]: the DateTime made of the seven bytes read from
    register [PCF85263_SECOND] on. *)
Definition now (buffer : list Z) : DateTime :=
  DateTime_of_components
    (to_uint16 (bcd2bin (nth 6 buffer 0) + 2000))
    (bcd2bin (Z.land (nth 5 buffer 0) 31))
    (bcd2bin (Z.land (nth 3 buffer 0) 63))
    (bcd2bin (Z.land (nth 2 buffer 0) 63))
    (bcd2bin (Z.land (nth 1 buffer 0) 127))
    (bcd2bin (Z.land (nth 0 buffer 0) 127)).

(** [PCF85263::setAlarm] and [PCF85263::getAlarm] (five bytes read). *)
Definition setAlarm (dt : DateTime) : list Z :=
  [PCF85263_ALM1_SECONDS; bin2bcd (second dt); bin2bcd (minute dt); bin2bcd (hour dt);
   bin2bcd (day dt); bin2bcd (month dt)].

Definition getAlarm (buffer : list Z) : DateTime :=
  DateTime_of_components
    (to_uint16 (0 + 2000))
    (bcd2bin (Z.land (nth 4 buffer 0) 31))
    (bcd2bin (Z.land (nth 3 buffer 0) 63))
    (bcd2bin (Z.land (nth 2 buffer 0) 63))
    (bcd2bin (Z.land (nth 1 buffer 0) 127))
    (bcd2bin (Z.land (nth 0 buffer 0) 127)).

(** [PCF85263::setTimestamp1] and [PCF85263::getTimestamp1] (six bytes read);
    [setTimestamp2], [getTimestamp2] and [getTimestampBatSw] differ in the
    start register only. *)
Definition setTimestamp1 (dt : DateTime) : list Z :=
  [PCF85263_TSTMP1_SECONDS; bin2bcd (second dt); bin2bcd (minute dt); bin2bcd (hour dt);
   bin2bcd (day dt); bin2bcd (month dt); bin2bcd (to_uint8 (year dt - 2000))].

Definition getTimestamp1 (buffer : list Z) : DateTime :=
  DateTime_of_components
    (to_uint16 (bcd2bin (nth 5 buffer 0) + 2000))
    (bcd2bin (Z.land (nth 4 buffer 0) 31))
    (bcd2bin (Z.land (nth 3 buffer 0) 63))
    (bcd2bin (Z.land (nth 2 buffer 0) 63))
    (bcd2bin (Z.land (nth 1 buffer 0) 127))
    (bcd2bin (Z.land (nth 0 buffer 0) 127)).

(** [PCF85263::enableAlarm]: the write it issues after reading [alrm_en]. *)
Definition enableAlarm (en : bool) (alrm_en : Z) : list Z :=
  if en then write_register PCF85263_ALMEN (to_uint8 (Z.lor alrm_en 31))
  else write_register PCF85263_ALMEN (to_uint8 (Z.land alrm_en (Z.lnot 31))).

(** One [if (flag) reg |= (1 << k); else reg &= ~(1 << k);] on a [uint8_t]. *)
Definition set_or_clear (flag : bool) (k reg : Z) : Z :=
  if flag then to_uint8 (Z.lor reg (Z.shiftl 1 k))
  else to_uint8 (Z.land reg (Z.lnot (Z.shiftl 1 k))).

(** [PCF85263::setINTA]: the write it issues after reading [intacon]. *)
Definition setINTA (pulse_mode periodic_int offset_correc_int alarm1_int alarm2_int
                    timestamp_int battery_switch_int watchdog_int : bool)
           (intacon : Z) : list Z :=
  let intacon := set_or_clear pulse_mode 7 intacon in
  let intacon := set_or_clear periodic_int 6 intacon in
  let intacon := set_or_clear offset_correc_int 5 intacon in
  let intacon := set_or_clear alarm1_int 4 intacon in
  let intacon := set_or_clear alarm2_int 3 intacon in
  let intacon := set_or_clear timestamp_int 2 intacon in
  let intacon := set_or_clear battery_switch_int 1 intacon in
  let intacon := set_or_clear watchdog_int 0 intacon in
  write_register PCF85263_INTAEN intacon.

(** [PCF85263::setINTB]. *)
Definition setINTB (pulse_mode periodic_int offset_correc_int alarm1_int alarm2_int
                    timestamp_int battery_switch_int watchdog_int : bool)
           (intbcon : Z) : list Z :=
  let intbcon := set_or_clear pulse_mode 7 intbcon in
  let intbcon := set_or_clear periodic_int 6 intbcon in
  let intbcon := set_or_clear offset_correc_int 5 intbcon in
  let intbcon := set_or_clear alarm1_int 4 intbcon in
  let intbcon := set_or_clear alarm2_int 3 intbcon in
  let intbcon := set_or_clear timestamp_int 2 intbcon in
  let intbcon := set_or_clear battery_switch_int 1 intbcon in
  let intbcon := set_or_clear watchdog_int 0 intbcon in
  write_register PCF85263_INTBEN intbcon.

(** The value of bit [k] when it is [b]. *)
Definition bit (b : bool) (k : Z) : Z := if b then 2 ^ k else 0.

(** The three letters [toString] writes for month [mo]. *)
Definition month_abbrev (mo : Z) : list ascii :=
  firstn 3 (skipn (Z.to_nat (3 * (mo - 1))) month_names).
(** * Properties *)

(** ** Fixed-width conversions *)

Lemma to_uint8_small x : 0 <= x < 256 -> to_uint8 x = x.
Proof. intros; unfold to_uint8; apply Z.mod_small; lia. Qed.

Lemma to_uint16_small x : 0 <= x < 65536 -> to_uint16 x = x.
Proof. intros; unfold to_uint16; apply Z.mod_small; lia. Qed.

Lemma to_uint32_small x : 0 <= x < 4294967296 -> to_uint32 x = x.
Proof. intros; unfold to_uint32; apply Z.mod_small; lia. Qed.

Lemma to_int8_small x : -128 <= x < 128 -> to_int8 x = x.
Proof. intros; unfold to_int8; rewrite Z.mod_small; lia. Qed.

Lemma to_int16_small x : -32768 <= x < 32768 -> to_int16 x = x.
Proof. intros; unfold to_int16; rewrite Z.mod_small; lia. Qed.

Lemma to_int32_small x : -2147483648 <= x < 2147483648 -> to_int32 x = x.
Proof. intros; unfold to_int32; rewrite Z.mod_small; lia. Qed.

Lemma to_uint16_idem_add a b : to_uint16 (to_uint16 a + b) = to_uint16 (a + b).
Proof. unfold to_uint16. apply Zplus_mod_idemp_l. Qed.

Lemma to_uint8_range x : 0 <= to_uint8 x < 256.
Proof. unfold to_uint8. apply Z.mod_pos_bound. lia. Qed.

Lemma to_uint16_range x : 0 <= to_uint16 x < 65536.
Proof. unfold to_uint16. apply Z.mod_pos_bound. lia. Qed.

Lemma to_uint32_range x : 0 <= to_uint32 x < 4294967296.
Proof. unfold to_uint32. apply Z.mod_pos_bound. lia. Qed.

(** ** TimeSpan *)

Section TimeSpanFacts.
Import TimeSpan.

(** Truncating quotient and remainder of a 32-bit total stay inside the
    return types of the accessors. *)
Lemma accessors_unwrapped t :
  -2147483648 <= t < 2147483648 ->
  days (of_seconds t) = Z.quot t 86400 /\
  hours (of_seconds t) = Z.rem (Z.quot t 3600) 24 /\
  minutes (of_seconds t) = Z.rem (Z.quot t 60) 60 /\
  seconds (of_seconds t) = Z.rem t 60.
Proof.
  intros Ht. unfold days, hours, minutes, seconds, of_seconds; cbn [_seconds].
  assert (Hd : -24857 < Z.quot t 86400 < 24857).
  { destruct (Z_le_gt_dec 0 t) as [Hp | Hn].
    - rewrite Z.quot_div_nonneg by lia.
      pose proof (Z.div_le_upper_bound t 86400 24856 ltac:(lia) ltac:(lia)).
      pose proof (Z.div_pos t 86400 ltac:(lia) ltac:(lia)). lia.
    - assert (exists u, 0 < u /\ t = - u) as (u & Hu & ->) by (exists (- t); lia).
      rewrite Z.quot_opp_l by lia.
      rewrite Z.quot_div_nonneg by lia.
      pose proof (Z.div_le_upper_bound u 86400 24856 ltac:(lia) ltac:(lia)).
      pose proof (Z.div_pos u 86400 ltac:(lia) ltac:(lia)). lia. }
  pose proof (Z.rem_bound_abs (Z.quot t 3600) 24 ltac:(lia)).
  pose proof (Z.rem_bound_abs (Z.quot t 60) 60 ltac:(lia)).
  pose proof (Z.rem_bound_abs t 60 ltac:(lia)).
  rewrite to_int16_small, !to_int8_small by lia.
  repeat split; reflexivity.
Qed.

(** Place-value recomposition on the non-negative side. *)
Lemma recompose_nonneg t :
  0 <= t ->
  t / 86400 * 86400 + (t / 3600) mod 24 * 3600 + (t / 60) mod 60 * 60 + t mod 60 = t.
Proof.
  intros Ht.
  replace (t / 3600) with (t / 60 / 60) by (rewrite Z.div_div by lia; reflexivity).
  replace (t / 86400) with (t / 60 / 60 / 24) by (rewrite !Z.div_div by lia; reflexivity).
  pose proof (Z.div_mod t 60 ltac:(lia)).
  pose proof (Z.div_mod (t / 60) 60 ltac:(lia)).
  pose proof (Z.div_mod (t / 60 / 60) 24 ltac:(lia)).
  lia.
Qed.

(** The same identity for truncating division, on both sides of zero. *)
Lemma recompose_quot t :
  Z.quot t 86400 * 86400 + Z.rem (Z.quot t 3600) 24 * 3600
  + Z.rem (Z.quot t 60) 60 * 60 + Z.rem t 60 = t.
Proof.
  destruct (Z_le_gt_dec 0 t) as [Hp | Hn].
  - rewrite !Z.quot_div_nonneg by lia.
    rewrite !Z.rem_mod_nonneg
      by (try lia; apply Z.div_pos; lia).
    apply recompose_nonneg; assumption.
  - assert (exists u, 0 < u /\ t = - u) as (u & Hu & ->) by (exists (- t); lia).
    rewrite !Z.quot_opp_l by lia. rewrite !Z.rem_opp_l by lia.
    rewrite !Z.quot_div_nonneg by lia.
    rewrite !Z.rem_mod_nonneg
      by (try lia; apply Z.div_pos; lia).
    pose proof (recompose_nonneg u ltac:(lia)). lia.
Qed.

End TimeSpanFacts.

(** C9. [TimeSpan(1,2,3,4).totalseconds()] is 93784, [TimeSpan(90061)] reads
    back as 1 day, 1 hour, 1 minute, 1 second; the four-argument constructor
    forms [days*86400 + hours*3600 + minutes*60 + seconds] whenever every
    partial sum fits [int32_t], and the accessors of a 32-bit total report
    the place-value digits [t/86400], [t/3600 % 24], [t/60 % 60], [t % 60]
    (truncating division), which on a non-negative total are the usual
    quotients and remainders. *)
Theorem timespan_components_and_digits :
  TimeSpan.totalseconds (TimeSpan.of_components 1 2 3 4) = 1 * 86400 + 2 * 3600 + 3 * 60 + 4 /\
  TimeSpan.totalseconds (TimeSpan.of_components 1 2 3 4) = 93784 /\
  (let ts := TimeSpan.of_seconds 90061 in
   TimeSpan.days ts = 1 /\ TimeSpan.hours ts = 1 /\
   TimeSpan.minutes ts = 1 /\ TimeSpan.seconds ts = 1) /\
  (forall dys h mi s,
      -128 <= h < 128 -> -128 <= mi < 128 -> -128 <= s < 128 ->
      -2147483648 <= dys * 86400 < 2147483648 ->
      -2147483648 <= dys * 86400 + h * 3600 < 2147483648 ->
      -2147483648 <= dys * 86400 + h * 3600 + mi * 60 < 2147483648 ->
      -2147483648 <= dys * 86400 + h * 3600 + mi * 60 + s < 2147483648 ->
      TimeSpan.totalseconds (TimeSpan.of_components dys h mi s)
      = dys * 86400 + h * 3600 + mi * 60 + s) /\
  (forall t,
      -2147483648 <= t < 2147483648 ->
      let ts := TimeSpan.of_seconds t in
      TimeSpan.totalseconds ts = t /\
      TimeSpan.days ts = Z.quot t 86400 /\
      TimeSpan.hours ts = Z.rem (Z.quot t 3600) 24 /\
      TimeSpan.minutes ts = Z.rem (Z.quot t 60) 60 /\
      TimeSpan.seconds ts = Z.rem t 60) /\
  (forall t,
      0 <= t < 2147483648 ->
      let ts := TimeSpan.of_seconds t in
      TimeSpan.days ts = t / 86400 /\
      TimeSpan.hours ts = (t / 3600) mod 24 /\
      TimeSpan.minutes ts = (t / 60) mod 60 /\
      TimeSpan.seconds ts = t mod 60).
Proof.
  split; [reflexivity |]. split; [reflexivity |].
  split; [cbv; repeat split; reflexivity |].
  split; [| split].
  - intros dys h mi s Hh Hm Hs H1 H2 H3 H4.
    unfold TimeSpan.totalseconds, TimeSpan.of_components; cbn [_seconds].
    rewrite (to_int32_small (dys * 86400)) by lia.
    rewrite (to_int32_small (h * 3600)) by lia.
    rewrite (to_int32_small (mi * 60)) by lia.
    rewrite (to_int32_small (dys * 86400 + h * 3600)) by lia.
    rewrite (to_int32_small (dys * 86400 + h * 3600 + mi * 60)) by lia.
    apply to_int32_small. lia.
  - intros t Ht ts. split; [reflexivity |].
    apply accessors_unwrapped; assumption.
  - intros t Ht ts.
    destruct (accessors_unwrapped t ltac:(lia)) as (Hd & Hh & Hm & Hs).
    subst ts. rewrite Hd, Hh, Hm, Hs.
    rewrite !Z.quot_div_nonneg by lia.
    rewrite !Z.rem_mod_nonneg by (try lia; apply Z.div_pos; lia).
    repeat split; reflexivity.
Qed.

Lemma timespan_components_and_digits_witness :
  TimeSpan.totalseconds (TimeSpan.of_components (-3) 4 (-5) 6) = -3 * 86400 + 4 * 3600 + -5 * 60 + 6 /\
  TimeSpan.days (TimeSpan.of_seconds 358027) = 4 /\
  TimeSpan.hours (TimeSpan.of_seconds 358027) = 3 /\
  TimeSpan.minutes (TimeSpan.of_seconds 358027) = 27 /\
  TimeSpan.seconds (TimeSpan.of_seconds 358027) = 7.
Proof.
  destruct timespan_components_and_digits as (_ & _ & _ & Hc & _ & Hn).
  split.
  - apply (Hc (-3) 4 (-5) 6); lia.
  - apply (Hn 358027). lia.
Defined.

(** C10. For every 32-bit signed total [t], negative ones included,
    [days()*86400 + hours()*3600 + minutes()*60 + seconds()] gives [t] back,
    and the four components of a negative total are all at most zero. *)
Theorem timespan_recomposition (t : Z) :
  -2147483648 <= t < 2147483648 ->
  let ts := TimeSpan.of_seconds t in
  TimeSpan.totalseconds ts = t /\
  TimeSpan.days ts * 86400 + TimeSpan.hours ts * 3600
  + TimeSpan.minutes ts * 60 + TimeSpan.seconds ts = t /\
  (t < 0 ->
   TimeSpan.days ts <= 0 /\ TimeSpan.hours ts <= 0 /\
   TimeSpan.minutes ts <= 0 /\ TimeSpan.seconds ts <= 0).
Proof.
  intros Ht ts. subst ts.
  destruct (accessors_unwrapped t Ht) as (Hd & Hh & Hm & Hs).
  rewrite Hd, Hh, Hm, Hs.
  split; [reflexivity |]. split; [apply recompose_quot |].
  intros Hneg.
  pose proof (Z.quot_opp_l (- t) 86400 ltac:(lia)) as Q1.
  pose proof (Z.quot_opp_l (- t) 3600 ltac:(lia)) as Q2.
  pose proof (Z.quot_opp_l (- t) 60 ltac:(lia)) as Q3.
  rewrite Z.opp_involutive in Q1, Q2, Q3.
  pose proof (Z.quot_pos (- t) 86400 ltac:(lia) ltac:(lia)).
  pose proof (Z.quot_pos (- t) 3600 ltac:(lia) ltac:(lia)).
  pose proof (Z.quot_pos (- t) 60 ltac:(lia) ltac:(lia)).
  pose proof (Z.rem_nonpos (Z.quot t 3600) 24 ltac:(lia) ltac:(lia)).
  pose proof (Z.rem_nonpos (Z.quot t 60) 60 ltac:(lia) ltac:(lia)).
  pose proof (Z.rem_nonpos t 60 ltac:(lia) ltac:(lia)).
  repeat split; lia.
Qed.

Lemma timespan_recomposition_witness :
  let ts := TimeSpan.of_seconds (-93784) in
  TimeSpan.totalseconds ts = -93784 /\
  TimeSpan.days ts * 86400 + TimeSpan.hours ts * 3600
  + TimeSpan.minutes ts * 60 + TimeSpan.seconds ts = -93784 /\
  (-93784 < 0 ->
   TimeSpan.days ts <= 0 /\ TimeSpan.hours ts <= 0 /\
   TimeSpan.minutes ts <= 0 /\ TimeSpan.seconds ts <= 0).
Proof. apply (timespan_recomposition (-93784)). lia. Defined.
(** ** Calendar conversion *)

Lemma leap_of_range y : leap_of y = 0 \/ leap_of y = 1.
Proof. unfold leap_of. destruct (y mod 4 =? 0); auto. Qed.

Lemma year_loop_step y days :
  year_loop y days =
  if days <? year_length y then (y, days, leap_of y)
  else year_loop (to_uint8 (y + 1)) (to_uint16 (days - year_length y)).
Proof.
  rewrite year_loop_equation_1.
  destruct (Z_lt_dec days (year_length y)) as [H | H];
    cbv beta iota delta [year_loop_unfold_clause_1].
  - destruct (Z.ltb_spec days (year_length y)); [reflexivity | lia].
  - destruct (Z.ltb_spec days (year_length y)); [lia | reflexivity].
Qed.

Lemma year_loop_post y days :
  0 <= y -> 0 <= days ->
  let '(y', r, lp) := year_loop y days in
  lp = leap_of y' /\ 0 <= r < year_length y' /\ 0 <= y'.
Proof.
  funelim (year_loop y days).
  - intros Hy Hd. repeat split; try reflexivity; lia.
  - intros Hy Hd. apply H; [apply to_uint8_range | apply to_uint16_range].
Qed.

Lemma year_length_range y : 365 <= year_length y <= 366.
Proof. unfold year_length. destruct (leap_of_range y) as [-> | ->]; lia. Qed.

Lemma days_before_year_succ y :
  0 <= y -> days_before_year (y + 1) = days_before_year y + year_length y.
Proof.
  intros Hy. unfold days_before_year, year_length, leap_of.
  destruct (Z.eqb_spec (y mod 4) 0) as [E | E].
  - Z.div_mod_to_equations. lia.
  - Z.div_mod_to_equations. lia.
Qed.

(** What the year loop removes are whole years: the day count is kept. *)
Lemma year_loop_sum y days :
  0 <= y -> 0 <= days < 65536 -> 365 * y + days < 93440 ->
  let '(y', r, _) := year_loop y days in
  days_before_year y' + r = days_before_year y + days /\ y <= y' < 256.
Proof.
  funelim (year_loop y days).
  - intros Hy Hd Hb. split; lia.
  - intros Hy Hd Hb. pose proof (year_length_range y) as Hyl.
    rewrite to_uint8_small, to_uint16_small in * by lia.
    specialize (H ltac:(lia) ltac:(lia) ltac:(lia)).
    destruct (year_loop (y + 1) (days - year_length y)) as [[y' r] lp].
    rewrite days_before_year_succ in H by lia. lia.
Qed.

Ltac month_cases mo :=
  let H := fresh "Hmo" in
  assert (H : mo = 1 \/ mo = 2 \/ mo = 3 \/ mo = 4 \/ mo = 5 \/ mo = 6 \/
              mo = 7 \/ mo = 8 \/ mo = 9 \/ mo = 10 \/ mo = 11 \/ mo = 12) by lia;
  repeat (destruct H as [H | H]; [subst mo | ]); [ .. | subst mo].

Lemma days_in_month_code y mo :
  0 <= y < 100 -> days_in_month (2000 + y) mo = month_length (leap_of y) mo.
Proof.
  intros Hy. unfold days_in_month, month_length, is_leap_year, leap_of.
  destruct (mo =? 2); [| reflexivity].
  assert (H4 : (2000 + y) mod 4 = y mod 4).
  { replace (2000 + y) with (y + 500 * 4) by lia. apply Z.mod_add. lia. }
  rewrite H4.
  destruct (Z.eqb_spec (y mod 4) 0) as [E | E]; cbn [andb orb negb].
  - destruct (Z.eqb_spec ((2000 + y) mod 100) 0) as [E1 | E1]; cbn [negb orb].
    + assert (y = 0) by (rewrite <- Z.add_mod_idemp_l in E1 by lia;
                          change (2000 mod 100) with 0 in E1; cbn in E1;
                          rewrite Z.mod_small in E1 by lia; lia).
      subst y. reflexivity.
    + reflexivity.
  - destruct (Z.eqb_spec ((2000 + y) mod 400) 0) as [E1 | E1]; [| reflexivity].
    exfalso. rewrite <- Z.add_mod_idemp_l in E1 by lia.
    change (2000 mod 400) with 0 in E1. cbn in E1.
    rewrite Z.mod_small in E1 by lia. subst y. apply E. reflexivity.
Qed.

Lemma year_loop_exact (k : nat) : forall y0 r,
  0 <= y0 -> y0 + Z.of_nat k < 256 ->
  0 <= r < year_length (y0 + Z.of_nat k) ->
  days_before_year (y0 + Z.of_nat k) - days_before_year y0 + r < 65536 ->
  year_loop y0 (days_before_year (y0 + Z.of_nat k) - days_before_year y0 + r)
  = (y0 + Z.of_nat k, r, leap_of (y0 + Z.of_nat k)).
Proof.
  induction k as [| k IH]; intros y0 r Hy0 Hk Hr Hb.
  - rewrite year_loop_step. cbn [Z.of_nat] in *. rewrite Z.add_0_r in *.
    rewrite Z.sub_diag, Z.add_0_l.
    destruct (Z.ltb_spec r (year_length y0)); [reflexivity | lia].
  - rewrite year_loop_step.
    replace (y0 + Z.of_nat (S k)) with ((y0 + 1) + Z.of_nat k) in * by lia.
    assert (Hmono : days_before_year (y0 + 1) <= days_before_year (y0 + 1 + Z.of_nat k)).
    { unfold days_before_year. Z.div_mod_to_equations. lia. }
    pose proof (days_before_year_succ y0 Hy0) as Hs.
    pose proof (year_length_range y0).
    destruct (Z.ltb_spec (days_before_year (y0 + 1 + Z.of_nat k) - days_before_year y0 + r)
                         (year_length y0)); [lia |].
    rewrite to_uint8_small by lia.
    rewrite to_uint16_small by lia.
    replace (days_before_year (y0 + 1 + Z.of_nat k) - days_before_year y0 + r - year_length y0)
      with (days_before_year (y0 + 1 + Z.of_nat k) - days_before_year (y0 + 1) + r) by lia.
    apply IH; lia.
Qed.

(** Evaluate the calendar tables at concrete arguments. *)
Ltac eval_calendar :=
  repeat match goal with
    | H : context [month_length ?l ?k] |- _ =>
        let v := eval cbv in (month_length l k) in
        change (month_length l k) with v in H
    | |- context [month_length ?l ?k] =>
        let v := eval cbv in (month_length l k) in
        change (month_length l k) with v
    | H : context [days_before_month ?l ?k] |- _ =>
        let v := eval cbv in (days_before_month l k) in
        change (days_before_month l k) with v in H
    | |- context [days_before_month ?l ?k] =>
        let v := eval cbv in (days_before_month l k) in
        change (days_before_month l k) with v
    end.

Lemma to_uint16_idem x : to_uint16 (to_uint16 x) = to_uint16 x.
Proof. unfold to_uint16. apply Z.mod_mod. lia. Qed.

Ltac month_cases11 mo :=
  let H := fresh "Hmo" in
  assert (H : mo = 1 \/ mo = 2 \/ mo = 3 \/ mo = 4 \/ mo = 5 \/ mo = 6 \/
              mo = 7 \/ mo = 8 \/ mo = 9 \/ mo = 10 \/ mo = 11) by lia;
  repeat (destruct H as [H | H]; [subst mo | ]); [ .. | subst mo].

Lemma days_before_month_succ leap mo :
  1 <= mo <= 11 -> leap = 0 \/ leap = 1 ->
  days_before_month leap (mo + 1) = days_before_month leap mo + month_length leap mo.
Proof.
  intros Hmo [-> | ->]; month_cases11 mo; reflexivity.
Qed.

Lemma days_before_bounds y mo dy :
  0 <= y < 100 -> 1 <= mo <= 12 -> 1 <= dy <= month_length (leap_of y) mo ->
  days_before_year y <= days_before_year y + days_before_month (leap_of y) mo + dy - 1
  < days_before_year y + year_length y.
Proof.
  intros Hy Hmo Hdy. unfold year_length.
  destruct (leap_of_range y) as [E | E]; rewrite E in *;
    month_cases mo; eval_calendar; lia.
Qed.

Lemma calendar_date_canonical dt : calendar_date dt <-> canonical dt.
Proof.
  unfold calendar_date, canonical.
  split; intros (Hy & Hrest); (split; [exact Hy |]).
  - rewrite <- days_in_month_code by exact Hy. exact Hrest.
  - rewrite days_in_month_code by exact Hy. exact Hrest.
Qed.

Lemma days_before_year_100 y :
  0 <= y < 100 -> 0 <= days_before_year y /\ days_before_year y + year_length y <= 36525.
Proof.
  intros Hy. pose proof (year_length_range y).
  rewrite <- days_before_year_succ by lia.
  unfold days_before_year. Z.div_mod_to_equations. lia.
Qed.

Lemma day_number_range dt :
  canonical dt ->
  days_before_year (yOff dt) <= day_number dt
  < days_before_year (yOff dt) + year_length (yOff dt) /\
  0 <= day_number dt < 36525.
Proof.
  intros (Hy & Hm & Hd & _).
  pose proof (days_before_bounds (yOff dt) (m dt) (d dt) Hy Hm Hd).
  pose proof (days_before_year_100 (yOff dt) Hy).
  unfold day_number. lia.
Qed.

Lemma time2ulong_small days h mi s :
  0 <= days < 36525 -> 0 <= h < 24 -> 0 <= mi < 60 -> 0 <= s < 60 ->
  time2ulong days h mi s = ((days * 24 + h) * 60 + mi) * 60 + s.
Proof.
  intros Hd Hh Hm Hs. unfold time2ulong.
  rewrite (to_uint32_small (days * 24)) by lia.
  rewrite (to_uint32_small (days * 24 + h)) by lia.
  rewrite (to_uint32_small ((days * 24 + h) * 60)) by lia.
  rewrite (to_uint32_small ((days * 24 + h) * 60 + mi)) by lia.
  rewrite (to_uint32_small (((days * 24 + h) * 60 + mi) * 60)) by lia.
  apply to_uint32_small. lia.
Qed.

Lemma month_length_range leap mo :
  leap = 0 \/ leap = 1 -> 1 <= mo <= 12 -> 28 <= month_length leap mo <= 31.
Proof.
  intros [-> | ->] Hmo; month_cases mo; eval_calendar; lia.
Qed.

Lemma month_position_unique leap a b ra rb :
  leap = 0 \/ leap = 1 -> 1 <= a <= 12 -> 1 <= b <= 12 ->
  0 <= ra < month_length leap a -> 0 <= rb < month_length leap b ->
  days_before_month leap a + ra = days_before_month leap b + rb ->
  a = b /\ ra = rb.
Proof.
  intros Hl Ha Hb Hra Hrb E.
  assert (Hmono : forall x y, 1 <= x <= 12 -> 1 <= y <= 12 -> x < y ->
                   days_before_month leap x + month_length leap x
                   <= days_before_month leap y).
  { intros x y Hx Hy Hxy.
    destruct Hl as [-> | ->]; month_cases x; month_cases y;
      try lia; eval_calendar; lia. }
  destruct (Z.lt_trichotomy a b) as [Hab | [Hab | Hab]].
  - pose proof (Hmono a b Ha Hb Hab). lia.
  - subst b. split; [reflexivity | lia].
  - pose proof (Hmono b a Hb Ha Hab). lia.
Qed.

Section CalendarFacts.
Variable rom : Z -> Z.

Lemma daysInMonth_read_length leap mo :
  1 <= mo <= 11 -> leap = 0 \/ leap = 1 ->
  (if negb (leap =? 0) && (mo =? 2)
   then to_uint8 (daysInMonth_read rom (mo - 1) + 1)
   else daysInMonth_read rom (mo - 1)) = month_length leap mo.
Proof.
  intros Hmo [-> | ->]; month_cases11 mo; reflexivity.
Qed.

Lemma month_loop_step n leap mo r :
  1 <= mo <= 11 -> leap = 0 \/ leap = 1 -> 0 <= r < 65536 ->
  month_loop rom (S n) leap mo r =
  if r <? month_length leap mo then (mo, r)
  else month_loop rom n leap (mo + 1) (r - month_length leap mo).
Proof.
  intros Hmo Hleap Hr. cbn [month_loop].
  rewrite (daysInMonth_read_length leap mo Hmo Hleap).
  destruct (Z.ltb_spec r (month_length leap mo)) as [Hlt | Hge]; [reflexivity |].
  assert (0 < month_length leap mo <= 31)
    by (destruct Hleap as [-> | ->]; month_cases11 mo; cbv; split; congruence).
  rewrite to_uint8_small by lia. rewrite to_uint16_small by lia. reflexivity.
Qed.

Lemma month_loop_exact (n : nat) : forall leap mo r,
  leap = 0 \/ leap = 1 -> 1 <= mo -> mo + Z.of_nat n = 12 ->
  0 <= r -> days_before_month leap mo + r < 365 + leap ->
  exists mo' r',
    month_loop rom n leap mo r = (mo', r') /\ mo <= mo' <= 12 /\
    0 <= r' < month_length leap mo' /\
    days_before_month leap mo + r = days_before_month leap mo' + r'.
Proof.
  induction n as [| n IH]; intros leap mo r Hleap Hmo Hn Hr Hb.
  - assert (mo = 12) by lia. subst mo. exists 12, r. cbn [month_loop].
    assert (E1 : month_length leap 12 = 31) by reflexivity.
    assert (E2 : days_before_month leap 12 = 334 + leap) by reflexivity.
    repeat split; try reflexivity; lia.
  - assert (Hmo11 : 1 <= mo <= 11) by lia.
    assert (0 <= days_before_month leap mo)
      by (destruct Hleap as [-> | ->]; month_cases11 mo; cbv; congruence).
    rewrite month_loop_step by (try assumption; lia).
    destruct (Z.ltb_spec r (month_length leap mo)) as [Hlt | Hge].
    + exists mo, r. repeat split; try reflexivity; lia.
    + pose proof (days_before_month_succ leap mo Hmo11 Hleap) as Hs.
      destruct (IH leap (mo + 1) (r - month_length leap mo)) as (mo' & r' & E & Hm' & Hr' & Hsum);
        try lia; try assumption.
      exists mo', r'. repeat split; try lia. assumption.
Qed.

(** [date2days] without the intermediate conversions, for a month of the table. *)
Lemma date2days_months_sum (n : nat) : forall i a,
  1 <= i -> i + Z.of_nat n <= 12 ->
  to_uint16 (date2days_months rom n i a)
  = to_uint16 (a + (days_before_month 0 (i + Z.of_nat n) - days_before_month 0 i)).
Proof.
  induction n as [| n IH]; intros i a Hi Hn.
  - cbn [date2days_months Z.of_nat]. rewrite Z.add_0_r, Z.sub_diag, Z.add_0_r. reflexivity.
  - cbn [date2days_months]. rewrite IH by lia. rewrite to_uint16_idem_add.
    f_equal.
    assert (Hi11 : 1 <= i <= 11) by lia.
    pose proof (days_before_month_succ 0 i Hi11 (or_introl eq_refl)) as Hs.
    assert (Hrd : daysInMonth_read rom (i - 1) = month_length 0 i).
    { pose proof (daysInMonth_read_length 0 i Hi11 (or_introl eq_refl)) as Hrd.
      cbn [Z.eqb negb andb] in Hrd. exact Hrd. }
    replace (i + 1 + Z.of_nat n) with (i + Z.of_nat (S n)) by lia.
    lia.
Qed.

Lemma date2days_closed y mo dy :
  0 <= y < 2000 -> 1 <= mo <= 12 ->
  date2days rom y mo dy
  = to_uint16 (days_before_year y + days_before_month (leap_of y) mo + dy - 1).
Proof.
  intros Hy Hmo. unfold date2days.
  destruct (Z.leb_spec 2000 y); [lia |].
  pose proof (date2days_months_sum (Z.to_nat (mo - 1)) 1 dy ltac:(lia) ltac:(lia)) as Hl.
  replace (1 + Z.of_nat (Z.to_nat (mo - 1))) with mo in Hl by lia.
  change (days_before_month 0 1) with 0 in Hl. rewrite Z.sub_0_r in Hl.
  set (loop := date2days_months rom (Z.to_nat (mo - 1)) 1 dy) in *.
  assert (Hadj : to_uint16 (if (2 <? mo) && (y mod 4 =? 0) then to_uint16 (loop + 1) else loop)
                 = to_uint16 (dy + days_before_month (leap_of y) mo)).
  { unfold days_before_month, leap_of in *.
    destruct (2 <? mo); destruct (y mod 4 =? 0); cbn [andb].
    - rewrite to_uint16_idem.
      rewrite <- to_uint16_idem_add, Hl, to_uint16_idem_add. f_equal. lia.
    - rewrite Hl. f_equal.
    - rewrite Hl. f_equal.
    - rewrite Hl. f_equal. }
  set (days' := if (2 <? mo) && (y mod 4 =? 0) then to_uint16 (loop + 1) else loop) in *.
  replace (days' + 365 * y + (y + 3) / 4 - 1)
    with (days' + (365 * y + (y + 3) / 4 - 1)) by lia.
  rewrite <- to_uint16_idem_add, Hadj, to_uint16_idem_add.
  f_equal. unfold days_before_year. lia.
Qed.

Lemma date2days_canonical dt :
  canonical dt -> date2days rom (yOff dt) (m dt) (d dt) = day_number dt.
Proof.
  intros Hc. pose proof (day_number_range dt Hc) as [_ Hr].
  destruct Hc as (Hy & Hm & _).
  rewrite date2days_closed by lia.
  unfold day_number in *. apply to_uint16_small. lia.
Qed.

Lemma unixtime_canonical dt :
  canonical dt ->
  unixtime rom dt
  = SECONDS_FROM_1970_TO_2000
    + ((day_number dt * 24 + hh dt) * 60 + mm dt) * 60 + ss dt.
Proof.
  intros Hc. unfold unixtime. rewrite date2days_canonical by exact Hc.
  pose proof (day_number_range dt Hc) as [_ Hr].
  destruct Hc as (_ & _ & _ & Hh & Hm & Hs).
  rewrite time2ulong_small by assumption.
  unfold SECONDS_FROM_1970_TO_2000. rewrite to_uint32_small by lia. lia.
Qed.

(** The seconds constructor undoes [unixtime] on every well-formed date. *)
Lemma roundtrip_canonical dt :
  canonical dt -> DateTime_of_unixtime rom (unixtime rom dt) = dt.
Proof.
  intros Hc. rewrite unixtime_canonical by exact Hc.
  pose proof (day_number_range dt Hc) as [Hyr Hr].
  destruct dt as [y mo dy h mi s].
  destruct Hc as (Hy & Hm & Hd & Hh & Hmi & Hs). cbn [yOff m d hh mm ss] in *.
  set (N := day_number (mkDateTime y mo dy h mi s)) in *.
  unfold DateTime_of_unixtime.
  replace (SECONDS_FROM_1970_TO_2000 + ((N * 24 + h) * 60 + mi) * 60 + s
           - SECONDS_FROM_1970_TO_2000)
    with (((N * 24 + h) * 60 + mi) * 60 + s) by lia.
  rewrite to_uint32_small by lia.
  assert (E1 : (((N * 24 + h) * 60 + mi) * 60 + s) mod 60 = s)
    by (symmetry; apply (Z.mod_unique_pos _ _ ((N * 24 + h) * 60 + mi)); lia).
  assert (E2 : (((N * 24 + h) * 60 + mi) * 60 + s) / 60 = (N * 24 + h) * 60 + mi)
    by (symmetry; apply (Z.div_unique_pos _ _ _ s); lia).
  rewrite E1, E2.
  assert (E3 : ((N * 24 + h) * 60 + mi) mod 60 = mi)
    by (symmetry; apply (Z.mod_unique_pos _ _ (N * 24 + h)); lia).
  assert (E4 : ((N * 24 + h) * 60 + mi) / 60 = N * 24 + h)
    by (symmetry; apply (Z.div_unique_pos _ _ _ mi); lia).
  rewrite E3, E4.
  assert (E5 : (N * 24 + h) mod 24 = h)
    by (symmetry; apply (Z.mod_unique_pos _ _ N); lia).
  assert (E6 : (N * 24 + h) / 24 = N)
    by (symmetry; apply (Z.div_unique_pos _ _ _ h); lia).
  rewrite E5, E6.
  rewrite (to_uint16_small N) by lia.
  rewrite !to_uint8_small by lia.
  (* the year loop stops at [y] *)
  pose proof (year_loop_exact (Z.to_nat y) 0 (N - days_before_year y)) as Hyl.
  rewrite Z2Nat.id in Hyl by lia. cbn [Z.add] in Hyl.
  change (days_before_year 0) with 0 in Hyl. rewrite Z.sub_0_r in Hyl.
  replace (days_before_year y + (N - days_before_year y)) with N in Hyl by lia.
  rewrite Hyl by lia. clear Hyl.
  (* the month loop stops at [mo] *)
  destruct (month_loop_exact 11 (leap_of y) 1 (N - days_before_year y))
    as (mo' & r' & El & Hmo' & Hr' & Hsum).
  { apply leap_of_range. } { lia. } { reflexivity. } { lia. }
  { change (days_before_month (leap_of y) 1) with 0. unfold year_length in Hyr. lia. }
  rewrite El.
  change (days_before_month (leap_of y) 1) with 0 in Hsum.
  destruct (month_position_unique (leap_of y) mo mo' (dy - 1) r') as [<- <-];
    try lia; try apply leap_of_range.
  { unfold N, day_number in Hsum. cbn [yOff m d] in Hsum. lia. }
  pose proof (month_length_range (leap_of y) mo (leap_of_range y) Hm).
  rewrite to_uint8_small by lia.
  f_equal. lia.
Qed.

(** Whatever the argument, the seconds constructor yields in-range fields. *)
Lemma DateTime_of_unixtime_post t :
  let dt := DateTime_of_unixtime rom t in
  0 <= yOff dt /\ 1 <= m dt <= 12 /\ 1 <= d dt <= month_length (leap_of (yOff dt)) (m dt) /\
  0 <= hh dt < 24 /\ 0 <= mm dt < 60 /\ 0 <= ss dt < 60.
Proof.
  unfold DateTime_of_unixtime.
  set (t0 := to_uint32 (t - SECONDS_FROM_1970_TO_2000)).
  pose proof (to_uint32_range (t - SECONDS_FROM_1970_TO_2000)) as Ht0. fold t0 in Ht0.
  pose proof (Z.mod_pos_bound t0 60 ltac:(lia)).
  pose proof (Z.mod_pos_bound (t0 / 60) 60 ltac:(lia)).
  pose proof (Z.mod_pos_bound (t0 / 60 / 60) 24 ltac:(lia)).
  pose proof (to_uint16_range (t0 / 60 / 60 / 24)) as Hdays.
  pose proof (year_loop_post 0 (to_uint16 (t0 / 60 / 60 / 24)) ltac:(lia) ltac:(lia)) as Hyl.
  destruct (year_loop 0 (to_uint16 (t0 / 60 / 60 / 24))) as [[y' r] lp].
  destruct Hyl as (-> & Hr & Hy').
  destruct (month_loop_exact 11 (leap_of y') 1 r)
    as (mo' & r' & El & Hmo' & Hr' & Hsum).
  { apply leap_of_range. } { lia. } { reflexivity. } { lia. }
  { change (days_before_month (leap_of y') 1) with 0. unfold year_length in Hr. lia. }
  rewrite El. cbn [yOff m d hh mm ss].
  pose proof (month_length_range (leap_of y') mo' (leap_of_range y') ltac:(lia)).
  rewrite !to_uint8_small by lia.
  repeat split; lia.
Qed.

End CalendarFacts.


(** ** Validity *)

Lemma components_calendar y mo dy h mi s :
  2000 <= y <= 2099 -> 1 <= mo <= 12 -> 1 <= dy <= days_in_month y mo ->
  0 <= h <= 23 -> 0 <= mi <= 59 -> 0 <= s <= 59 ->
  calendar_date (DateTime_of_components y mo dy h mi s) /\
  yOff (DateTime_of_components y mo dy h mi s) = y - 2000.
Proof.
  intros Hy Hmo Hdy Hh Hmi Hs.
  unfold DateTime_of_components, calendar_date. cbn [yOff m d hh mm ss].
  destruct (Z.leb_spec 2000 y); [| lia].
  rewrite to_uint16_small by lia. rewrite to_uint8_small by lia.
  replace (2000 + (y - 2000)) with y by lia.
  repeat split; lia.
Qed.

Section ValidityFacts.
Variable rom : Z -> Z.

Lemma isValid_canonical dt : canonical dt -> isValid rom dt = true.
Proof.
  intros Hc. unfold isValid.
  rewrite roundtrip_canonical by exact Hc.
  destruct Hc as (Hy & _).
  destruct (Z.leb_spec 100 (yOff dt)); [lia |].
  rewrite !Z.eqb_refl. reflexivity.
Qed.

Lemma isValid_inv dt : isValid rom dt = true -> canonical dt.
Proof.
  unfold isValid. destruct (Z.leb_spec 100 (yOff dt)) as [| Hlt]; [discriminate |].
  intros H.
  repeat (apply andb_prop in H; destruct H as [H ?]).
  repeat match goal with E : (_ =? _) = true |- _ => apply Z.eqb_eq in E end.
  pose proof (DateTime_of_unixtime_post rom (unixtime rom dt)) as Hp.
  cbv zeta in Hp.
  set (other := DateTime_of_unixtime rom (unixtime rom dt)) in *.
  destruct Hp as (P0 & P1 & P2 & P3 & P4 & P5).
  unfold canonical.
  replace (yOff other) with (yOff dt) in * by assumption.
  replace (m other) with (m dt) in * by assumption.
  replace (d other) with (d dt) in * by assumption.
  replace (hh other) with (hh dt) in * by assumption.
  replace (mm other) with (mm dt) in * by assumption.
  replace (ss other) with (ss dt) in * by assumption.
  repeat split; lia.
Qed.

Lemma isValid_calendar dt : isValid rom dt = true <-> calendar_date dt.
Proof.
  rewrite calendar_date_canonical.
  split; [apply isValid_inv | apply isValid_canonical].
Qed.

End ValidityFacts.


(** C1. For every year in 2000..2099, month in 1..12, day within the month,
    hour in 0..23, minute and second in 0..59, the DateTime built from the
    components is valid, and rebuilding a DateTime from its [unixtime()]
    gives the same year, month, day, hour, minute and second. *)
Theorem roundtrip_of_valid_components (rom : Z -> Z) (y mo dy h mi s : Z) :
  2000 <= y <= 2099 -> 1 <= mo <= 12 -> 1 <= dy <= days_in_month y mo ->
  0 <= h <= 23 -> 0 <= mi <= 59 -> 0 <= s <= 59 ->
  let dt := DateTime_of_components y mo dy h mi s in
  let back := DateTime_of_unixtime rom (unixtime rom dt) in
  isValid rom dt = true /\
  year back = y /\ month back = mo /\ day back = dy /\
  hour back = h /\ minute back = mi /\ second back = s /\
  back = dt.
Proof.
  intros Hy Hmo Hdy Hh Hmi Hs dt back.
  destruct (components_calendar y mo dy h mi s Hy Hmo Hdy Hh Hmi Hs) as [Hc Hyo].
  fold dt in Hc, Hyo.
  assert (Hb : back = dt)
    by (apply roundtrip_canonical, calendar_date_canonical; exact Hc).
  split; [apply isValid_calendar; exact Hc |].
  rewrite Hb. unfold year, month, day, hour, minute, second. rewrite Hyo.
  rewrite to_uint16_small by lia.
  repeat split; try reflexivity. lia.
Qed.

Lemma roundtrip_of_valid_components_witness :
  let dt := DateTime_of_components 2024 2 29 23 59 59 in
  let back := DateTime_of_unixtime (fun _ => 0) (unixtime (fun _ => 0) dt) in
  isValid (fun _ => 0) dt = true /\
  year back = 2024 /\ month back = 2 /\ day back = 29 /\
  hour back = 23 /\ minute back = 59 /\ second back = 59 /\
  back = dt.
Proof.
  apply (roundtrip_of_valid_components (fun _ => 0) 2024 2 29 23 59 59);
    vm_compute; split; congruence.
Defined.

(** C2. The epoch is anchored: [DateTime(2000,1,1,0,0,0).unixtime()] is
    946684800, its day count is 0 so that [dayOfTheWeek()] is
    [(0 + 6) % 7 = 6] (Saturday) on either width of [int], and
    [DateTime(946684800) == DateTime(2000,1,1,0,0,0)]. *)
Theorem epoch_anchor (rom : Z -> Z) :
  let epoch := DateTime_of_components 2000 1 1 0 0 0 in
  unixtime rom epoch = 946684800 /\
  date2days rom (yOff epoch) (m epoch) (d epoch) = 0 /\
  (forall tg, dayOfTheWeek rom tg epoch = 6) /\
  operator_eq (DateTime_of_unixtime rom 946684800) epoch = true.
Proof.
  cbv zeta. repeat split.
  intros [|]; reflexivity.
Qed.

(** C3. The component constructor stores what it is given and rejects
    nothing; [isValid()] alone tells: it is false at once for a stored
    year offset of 100 or more, false for every stored combination that is
    not a date of the calendar (month 0 or above 12, a day the month does not
    have, hour, minute or second out of range), and true for every one that
    is.  February 30th of 2000 is invalid, February 29th of 2000 is valid. *)
Theorem isValid_is_the_only_validation (rom : Z -> Z) :
  (forall y mo dy h mi s,
      let dt := DateTime_of_components y mo dy h mi s in
      m dt = mo /\ d dt = dy /\ hh dt = h /\ mm dt = mi /\ ss dt = s /\
      (0 <= y < 256 -> yOff dt = y) /\
      (2000 <= y < 2256 -> yOff dt = y - 2000)) /\
  (forall dt, 100 <= yOff dt -> isValid rom dt = false) /\
  (forall dt, ~ calendar_date dt -> isValid rom dt = false) /\
  (forall dt, calendar_date dt -> isValid rom dt = true) /\
  isValid rom (DateTime_of_components 2000 2 30 0 0 0) = false /\
  isValid rom (DateTime_of_components 2000 2 29 0 0 0) = true.
Proof.
  split; [| split; [| split; [| split; [| split]]]].
  - intros y mo dy h mi s dt. subst dt. unfold DateTime_of_components.
    cbn [yOff m d hh mm ss]. repeat split.
    + intros Hy. destruct (Z.leb_spec 2000 y); [lia |]. apply to_uint8_small; lia.
    + intros Hy. destruct (Z.leb_spec 2000 y); [| lia].
      rewrite to_uint16_small by lia. apply to_uint8_small; lia.
  - intros dt Hy. unfold isValid.
    destruct (Z.leb_spec 100 (yOff dt)); [reflexivity | lia].
  - intros dt Hn. destruct (isValid rom dt) eqn:E; [| reflexivity].
    exfalso. apply Hn, (isValid_calendar rom). exact E.
  - intros dt Hc. apply isValid_calendar. exact Hc.
  - reflexivity.
  - reflexivity.
Qed.

Lemma isValid_is_the_only_validation_witness :
  yOff (DateTime_of_components 2023 13 1 0 0 0) = 23 /\
  isValid (fun _ => 31) (mkDateTime 100 1 1 0 0 0) = false /\
  isValid (fun _ => 31) (mkDateTime 23 13 1 0 0 0) = false /\
  isValid (fun _ => 31) (mkDateTime 23 4 30 23 59 59) = true.
Proof.
  destruct (isValid_is_the_only_validation (fun _ => 31)) as (Hs & Hy & Hn & Hc & _).
  split; [| split; [| split]].
  - apply (Hs 2023 13 1 0 0 0). lia.
  - apply Hy. cbn. lia.
  - apply Hn. unfold calendar_date. cbn. lia.
  - apply Hc. unfold calendar_date. vm_compute. repeat split; congruence.
Defined.

(** ** Ordering *)

Lemma days_before_year_mono y1 y2 :
  0 <= y1 <= y2 -> days_before_year y1 <= days_before_year y2.
Proof. intros H. unfold days_before_year. Z.div_mod_to_equations. lia. Qed.

Lemma days_before_month_mono leap x y :
  leap = 0 \/ leap = 1 -> 1 <= x <= 12 -> 1 <= y <= 12 -> x < y ->
  days_before_month leap x + month_length leap x <= days_before_month leap y.
Proof.
  intros Hl Hx Hy Hxy.
  destruct Hl as [-> | ->]; month_cases x; month_cases y;
    try lia; eval_calendar; lia.
Qed.

Lemma day_number_lt a b :
  canonical a -> canonical b ->
  yOff a < yOff b \/
  (yOff a = yOff b /\ (m a < m b \/ (m a = m b /\ d a < d b))) ->
  day_number a < day_number b.
Proof.
  intros Ha Hb Hlt.
  pose proof (day_number_range a Ha) as [Hra _].
  pose proof (day_number_range b Hb) as [Hrb _].
  destruct Ha as (Hya & Hma & Hda & _), Hb as (Hyb & Hmb & Hdb & _).
  destruct Hlt as [Hy | [Hy [Hm | [Hm Hd]]]].
  - pose proof (days_before_year_succ (yOff a) ltac:(lia)).
    pose proof (days_before_year_mono (yOff a + 1) (yOff b) ltac:(lia)). lia.
  - pose proof (days_before_month_mono (leap_of (yOff a)) (m a) (m b)
                  (leap_of_range _) Hma Hmb Hm).
    unfold day_number. rewrite <- Hy in *. lia.
  - unfold day_number. rewrite <- Hy, <- Hm. lia.
Qed.

Lemma earlier_trichotomy a b : earlier a b \/ a = b \/ earlier b a.
Proof.
  destruct a as [y1 m1 d1 h1 i1 s1], b as [y2 m2 d2 h2 i2 s2].
  unfold earlier. cbn [lex_lt yOff m d hh mm ss].
  destruct (Z.lt_trichotomy y1 y2) as [? | [-> | ?]]; [lia | | lia].
  destruct (Z.lt_trichotomy m1 m2) as [? | [-> | ?]]; [lia | | lia].
  destruct (Z.lt_trichotomy d1 d2) as [? | [-> | ?]]; [lia | | lia].
  destruct (Z.lt_trichotomy h1 h2) as [? | [-> | ?]]; [lia | | lia].
  destruct (Z.lt_trichotomy i1 i2) as [? | [-> | ?]]; [lia | | lia].
  destruct (Z.lt_trichotomy s1 s2) as [? | [-> | ?]]; [lia | | lia].
  right; left; reflexivity.
Qed.

Lemma year_canonical dt : 0 <= yOff dt < 63536 -> year dt = 2000 + yOff dt.
Proof. intros H. unfold year. apply to_uint16_small. lia. Qed.

Lemma operator_lt_earlier a b :
  0 <= yOff b < 63536 -> (operator_lt a b = true <-> earlier a b).
Proof.
  intros Hb. unfold operator_lt, earlier, month, day, hour, minute, second.
  rewrite (year_canonical b Hb). cbn [lex_lt].
  rewrite ?orb_true_iff, ?andb_true_iff, ?Z.ltb_lt, ?Z.eqb_eq. lia.
Qed.

Lemma operator_eq_same a b :
  0 <= yOff b < 63536 -> (operator_eq a b = true <-> a = b).
Proof.
  intros Hb. unfold operator_eq, month, day, hour, minute, second.
  rewrite (year_canonical b Hb).
  rewrite ?andb_true_iff, ?Z.eqb_eq.
  destruct a as [y1 m1 d1 h1 i1 s1], b as [y2 m2 d2 h2 i2 s2]. cbn [yOff m d hh mm ss] in *.
  split.
  - intros (((((E1 & E2) & E3) & E4) & E5) & E6). f_equal; lia.
  - intros E. injection E as -> -> -> -> -> ->. repeat split; lia.
Qed.

Lemma earlier_irrefl a : ~ earlier a a.
Proof. unfold earlier. cbn [lex_lt]. lia. Qed.

Lemma earlier_asym a b : earlier a b -> ~ earlier b a.
Proof. unfold earlier. cbn [lex_lt]. lia. Qed.

Lemma lex_lt_fields a b :
  0 <= yOff a < 63536 -> 0 <= yOff b < 63536 ->
  (lex_lt (fields a) (fields b) <-> earlier a b).
Proof.
  intros Ha Hb. unfold fields, earlier, month, day, hour, minute, second.
  rewrite (year_canonical a Ha), (year_canonical b Hb). cbn [lex_lt]. lia.
Qed.

Section OrderFacts.
Variable rom : Z -> Z.

Lemma earlier_unixtime a b :
  canonical a -> canonical b -> earlier a b -> unixtime rom a < unixtime rom b.
Proof.
  intros Ha Hb Hlt.
  rewrite !unixtime_canonical by assumption.
  pose proof (day_number_range a Ha) as [_ Hra].
  pose proof (day_number_range b Hb) as [_ Hrb].
  assert (Hd : yOff a = yOff b /\ m a = m b /\ d a = d b -> day_number a = day_number b)
    by (intros (E1 & E2 & E3); unfold day_number; rewrite E1, E2, E3; reflexivity).
  pose proof (day_number_lt a b Ha Hb) as Hn.
  destruct Ha as (_ & _ & _ & Hha & Hmia & Hsa), Hb as (_ & _ & _ & Hhb & Hmib & Hsb).
  unfold earlier in Hlt. cbn [lex_lt] in Hlt.
  destruct Hlt as [H | [E1 [H | [E2 [H | [E3 H]]]]]].
  - specialize (Hn (or_introl H)). lia.
  - specialize (Hn (or_intror (conj E1 (or_introl H)))). lia.
  - specialize (Hn (or_intror (conj E1 (or_intror (conj E2 H))))). lia.
  - specialize (Hd (conj E1 (conj E2 E3))). lia.
Qed.

End OrderFacts.


(** C4. On valid DateTimes exactly one of [a < b], [a == b], [a > b] holds;
    [<] is the lexicographic order of (year, month, day, hour, minute,
    second), and the three agree with comparing [unixtime()] as integers. *)
Theorem ordering_total_and_by_unixtime (rom : Z -> Z) (a b : DateTime) :
  isValid rom a = true -> isValid rom b = true ->
  ((operator_lt a b = true /\ operator_eq a b = false /\ operator_gt a b = false) \/
   (operator_lt a b = false /\ operator_eq a b = true /\ operator_gt a b = false) \/
   (operator_lt a b = false /\ operator_eq a b = false /\ operator_gt a b = true)) /\
  (operator_lt a b = true <-> lex_lt (fields a) (fields b)) /\
  (operator_lt a b = true <-> unixtime rom a < unixtime rom b) /\
  (operator_eq a b = true <-> unixtime rom a = unixtime rom b) /\
  (operator_gt a b = true <-> unixtime rom b < unixtime rom a).
Proof.
  intros Va Vb.
  apply isValid_inv in Va, Vb.
  assert (Hya : 0 <= yOff a < 63536) by (destruct Va as (? & _); lia).
  assert (Hyb : 0 <= yOff b < 63536) by (destruct Vb as (? & _); lia).
  pose proof (operator_lt_earlier a b Hyb) as Hlt.
  pose proof (operator_lt_earlier b a Hya) as Hgt. fold (operator_gt a b) in Hgt.
  pose proof (operator_eq_same a b Hyb) as Heq.
  pose proof (earlier_unixtime rom a b Va Vb) as Mab.
  pose proof (earlier_unixtime rom b a Vb Va) as Mba.
  pose proof (earlier_asym a b) as Has.
  pose proof (earlier_irrefl a) as Hir.
  pose proof (lex_lt_fields a b Hya Hyb) as Hlex.
  assert (Hsame : a = b -> unixtime rom a = unixtime rom b) by (intros ->; reflexivity).
  destruct (earlier_trichotomy a b) as [T | [T | T]].
  - assert (L : operator_lt a b = true) by (apply Hlt; exact T).
    assert (E : operator_eq a b = false).
    { apply not_true_is_false; intros E'. apply Heq in E'. subst b. exact (Hir T). }
    assert (G : operator_gt a b = false).
    { apply not_true_is_false; intros G'. apply Hgt in G'. exact (Has T G'). }
    specialize (Mab T).
    split; [left; auto |]. rewrite L, E, G.
    repeat split; intros; try discriminate; try tauto; try lia.
  - assert (L : operator_lt a b = false).
    { apply not_true_is_false; intros L'. apply Hlt in L'. subst b. exact (Hir L'). }
    assert (E : operator_eq a b = true) by (apply Heq; exact T).
    assert (G : operator_gt a b = false).
    { apply not_true_is_false; intros G'. apply Hgt in G'. subst b. exact (Hir G'). }
    specialize (Hsame T).
    split; [right; left; auto |]. rewrite L, E, G.
    repeat split; intros; try discriminate; try tauto; try lia.
    all: exfalso; subst b; apply Hir, Hlex; assumption.
  - assert (L : operator_lt a b = false).
    { apply not_true_is_false; intros L'. apply Hlt in L'. exact (Has L' T). }
    assert (E : operator_eq a b = false).
    { apply not_true_is_false; intros E'. apply Heq in E'. subst b. exact (Hir T). }
    assert (G : operator_gt a b = true) by (apply Hgt; exact T).
    specialize (Mba T).
    split; [right; right; auto |]. rewrite L, E, G.
    repeat split; intros; try discriminate; try tauto; try lia.
    all: exfalso; apply (Has a b); [apply Hlex; assumption | exact T].
Qed.

Lemma ordering_total_and_by_unixtime_witness :
  let a := mkDateTime 20 2 29 23 59 59 in
  let b := mkDateTime 20 3 1 0 0 0 in
  operator_lt a b = true /\ operator_eq a b = false /\ operator_gt a b = false /\
  unixtime (fun _ => 0) a < unixtime (fun _ => 0) b.
Proof.
  destruct (ordering_total_and_by_unixtime (fun _ => 0)
              (mkDateTime 20 2 29 23 59 59) (mkDateTime 20 3 1 0 0 0)
              eq_refl eq_refl) as (_ & _ & Hu & _).
  cbv zeta. split; [reflexivity | split; [reflexivity | split; [reflexivity |]]].
  apply Hu. reflexivity.
Defined.

(** ** Arithmetic *)

Lemma time2ulong_exact days h mi s :
  0 <= days -> 0 <= h -> 0 <= mi -> 0 <= s ->
  ((days * 24 + h) * 60 + mi) * 60 + s < 4294967296 ->
  time2ulong days h mi s = ((days * 24 + h) * 60 + mi) * 60 + s.
Proof.
  intros Hd Hh Hm Hs Hb. unfold time2ulong.
  rewrite (to_uint32_small (days * 24)) by lia.
  rewrite (to_uint32_small (days * 24 + h)) by lia.
  rewrite (to_uint32_small ((days * 24 + h) * 60)) by lia.
  rewrite (to_uint32_small ((days * 24 + h) * 60 + mi)) by lia.
  rewrite (to_uint32_small (((days * 24 + h) * 60 + mi) * 60)) by lia.
  apply to_uint32_small. lia.
Qed.

Section ArithmeticFacts.
Variable rom : Z -> Z.

(** [unixtime()] undoes the seconds constructor on every 32-bit argument. *)
Lemma unixtime_of_unixtime t :
  0 <= t < 4294967296 -> unixtime rom (DateTime_of_unixtime rom t) = t.
Proof.
  intros Ht. unfold DateTime_of_unixtime.
  set (t0 := to_uint32 (t - SECONDS_FROM_1970_TO_2000)).
  pose proof (to_uint32_range (t - SECONDS_FROM_1970_TO_2000)) as Ht0. fold t0 in Ht0.
  pose proof (Z.mod_pos_bound t0 60 ltac:(lia)) as Hs.
  pose proof (Z.mod_pos_bound (t0 / 60) 60 ltac:(lia)) as Hm.
  pose proof (Z.mod_pos_bound (t0 / 60 / 60) 24 ltac:(lia)) as Hh.
  pose proof (Z.div_mod t0 60 ltac:(lia)) as D1.
  pose proof (Z.div_mod (t0 / 60) 60 ltac:(lia)) as D2.
  pose proof (Z.div_mod (t0 / 60 / 60) 24 ltac:(lia)) as D3.
  set (days := t0 / 60 / 60 / 24) in *.
  assert (Hdays : 0 <= days < 49711) by lia.
  rewrite (to_uint16_small days) by lia.
  pose proof (year_loop_post 0 days ltac:(lia) ltac:(lia)) as Hyl.
  pose proof (year_loop_sum 0 days ltac:(lia) ltac:(lia) ltac:(lia)) as Hsum.
  destruct (year_loop 0 days) as [[y' r] lp].
  destruct Hyl as (-> & Hr & Hy'). destruct Hsum as [Hsum Hy'b].
  change (days_before_year 0) with 0 in Hsum.
  destruct (month_loop_exact rom 11 (leap_of y') 1 r)
    as (mo' & r' & El & Hmo' & Hr' & Hsm).
  { apply leap_of_range. } { lia. } { reflexivity. } { lia. }
  { change (days_before_month (leap_of y') 1) with 0. unfold year_length in Hr. lia. }
  rewrite El. change (days_before_month (leap_of y') 1) with 0 in Hsm.
  pose proof (month_length_range (leap_of y') mo' (leap_of_range y') ltac:(lia)).
  rewrite !to_uint8_small by lia.
  unfold unixtime. cbn [yOff m d hh mm ss].
  rewrite date2days_closed by lia.
  replace (days_before_year y' + days_before_month (leap_of y') mo' + (r' + 1) - 1)
    with days by lia.
  rewrite (to_uint16_small days) by lia.
  rewrite time2ulong_exact by lia.
  replace (((days * 24 + (t0 / 60 / 60) mod 24) * 60 + (t0 / 60) mod 60) * 60 + t0 mod 60)
    with t0 by lia.
  unfold t0, to_uint32. rewrite Zplus_mod_idemp_l.
  replace (t - SECONDS_FROM_1970_TO_2000 + SECONDS_FROM_1970_TO_2000) with t by lia.
  apply Z.mod_small. lia.
Qed.

Lemma unixtime_range dt : 0 <= unixtime rom dt < 4294967296.
Proof. unfold unixtime. apply to_uint32_range. Qed.

Lemma to_int32_to_uint32 x : to_int32 (to_uint32 x) = to_int32 x.
Proof.
  unfold to_int32, to_uint32. rewrite Zplus_mod_idemp_l. reflexivity.
Qed.

End ArithmeticFacts.

(** C5 as the code has it.  [dt + span] and [dt - span] are the DateTimes
    rebuilt from [unixtime() + totalseconds()] and [unixtime() -
    totalseconds()] taken as [uint32_t], and their own [unixtime()] is that
    number.  [a - b] is a TimeSpan whose [totalseconds()] is
    [a.unixtime() - b.unixtime()] brought into [int32_t]: it is the signed
    difference, negative when [b] is the later one, whenever that difference
    lies in -2^31 .. 2^31 - 1.
    [DateTime(2000,1,1) + TimeSpan(0,0,1,0) == DateTime(2000,1,1,0,1,0)]. *)
Theorem datetime_timespan_arithmetic (rom : Z -> Z) :
  (forall dt span,
      operator_plus rom dt span
      = DateTime_of_unixtime rom (to_uint32 (unixtime rom dt + TimeSpan.totalseconds span)) /\
      unixtime rom (operator_plus rom dt span)
      = to_uint32 (unixtime rom dt + TimeSpan.totalseconds span)) /\
  (forall dt span,
      operator_minus rom dt span
      = DateTime_of_unixtime rom (to_uint32 (unixtime rom dt - TimeSpan.totalseconds span)) /\
      unixtime rom (operator_minus rom dt span)
      = to_uint32 (unixtime rom dt - TimeSpan.totalseconds span)) /\
  (forall a b,
      TimeSpan.totalseconds (operator_diff rom a b)
      = to_int32 (unixtime rom a - unixtime rom b)) /\
  (forall a b,
      -2147483648 <= unixtime rom a - unixtime rom b < 2147483648 ->
      TimeSpan.totalseconds (operator_diff rom a b) = unixtime rom a - unixtime rom b /\
      (unixtime rom a < unixtime rom b -> TimeSpan.totalseconds (operator_diff rom a b) < 0)) /\
  operator_eq (operator_plus rom (DateTime_of_components 2000 1 1 0 0 0)
                 (TimeSpan.of_components 0 0 1 0))
              (DateTime_of_components 2000 1 1 0 1 0) = true.
Proof.
  split; [| split; [| split; [| split]]].
  - intros dt span. split; [reflexivity |].
    unfold operator_plus. apply unixtime_of_unixtime. apply to_uint32_range.
  - intros dt span. split; [reflexivity |].
    unfold operator_minus. apply unixtime_of_unixtime. apply to_uint32_range.
  - intros a b. unfold operator_diff, TimeSpan.totalseconds. cbn [_seconds].
    apply to_int32_to_uint32.
  - intros a b Hr. unfold operator_diff, TimeSpan.totalseconds. cbn [_seconds].
    rewrite to_int32_to_uint32, to_int32_small by lia. split; [reflexivity | lia].
  - reflexivity.
Qed.

Lemma datetime_timespan_arithmetic_witness :
  let a := mkDateTime 20 4 16 18 34 56 in
  let b := mkDateTime 20 4 17 0 0 0 in
  TimeSpan.totalseconds (operator_diff (fun _ => 0) a b) = -19504.
Proof.
  destruct (datetime_timespan_arithmetic (fun _ => 0)) as (_ & _ & _ & Hd & _).
  cbv zeta.
  destruct (Hd (mkDateTime 20 4 16 18 34 56) (mkDateTime 20 4 17 0 0 0)) as [He _].
  - vm_compute. split; congruence.
  - rewrite He. reflexivity.
Defined.

(** C5 as stated fails: 2000-01-01 00:00:00 is earlier than 2099-12-31
    23:59:59, both valid, their [unixtime()] differ by 3155759999, and the
    TimeSpan of the difference holds -1139207297. *)
Lemma datetime_difference_counterexample :
  let rom := fun _ : Z => 0 in
  let a := DateTime_of_components 2099 12 31 23 59 59 in
  let b := DateTime_of_components 2000 1 1 0 0 0 in
  isValid rom a = true /\ isValid rom b = true /\
  unixtime rom a - unixtime rom b = 3155759999 /\
  TimeSpan.totalseconds (operator_diff rom a b) = -1139207297 /\
  TimeSpan.totalseconds (operator_diff rom a b) <> unixtime rom a - unixtime rom b.
Proof.
  cbv zeta. repeat split. vm_compute. discriminate.
Qed.

(** ** Text parsing *)

Lemma rd_skipn k l j : rd (skipn k l) j = rd l (k + j).
Proof.
  unfold rd. apply nth_skipn.
Qed.

Lemma rd_memcpy dest src n j :
  (n <= length src)%nat -> (n <= length dest)%nat ->
  rd (memcpy dest src n) j = if (j <? n)%nat then rd src j else rd dest j.
Proof.
  intros Hs Hd. unfold memcpy, rd.
  assert (Hl : length (firstn n src) = n) by (rewrite length_firstn; lia).
  destruct (Nat.ltb_spec j n) as [Hlt | Hge].
  - rewrite app_nth1 by lia. rewrite nth_firstn.
    destruct (Nat.ltb_spec j n); [reflexivity | lia].
  - rewrite app_nth2 by lia. rewrite Hl.
    change (nth (j - n) (skipn n dest) NUL) with (rd (skipn n dest) (j - n)).
    rewrite rd_skipn. replace (n + (j - n))%nat with j by lia. reflexivity.
Qed.

Lemma conv2d_ext p q : rd p 0 = rd q 0 -> rd p 1 = rd q 1 -> conv2d p = conv2d q.
Proof. intros E0 E1. unfold conv2d. rewrite E0, E1. reflexivity. Qed.

(** The buffer the ISO constructor reads its fields from. *)
Lemma iso8601_buffer s j :
  rd (memcpy iso8601_ref s (Nat.min (strlen iso8601_ref) (strlen s))) j
  = if (j <? Nat.min 19 (strlen s))%nat then rd s j else rd iso8601_ref j.
Proof.
  pose proof (strlen_le_length s).
  change (strlen iso8601_ref) with 19%nat.
  apply rd_memcpy; [lia |]. change (length iso8601_ref) with 19%nat. lia.
Qed.

(** A field at offset [k] the input does not reach keeps the template's
    value; one the input covers is read from the input. *)
Lemma iso8601_field_template s k :
  (strlen s <= k)%nat ->
  conv2d (skipn k (memcpy iso8601_ref s (Nat.min (strlen iso8601_ref) (strlen s))))
  = conv2d (skipn k iso8601_ref).
Proof.
  intros Hk. apply conv2d_ext; rewrite !rd_skipn, iso8601_buffer.
  - destruct (Nat.ltb_spec (k + 0) (Nat.min 19 (strlen s))); [lia | reflexivity].
  - destruct (Nat.ltb_spec (k + 1) (Nat.min 19 (strlen s))); [lia | reflexivity].
Qed.

Lemma iso8601_field_input s k :
  (k + 2 <= strlen s)%nat -> (k + 2 <= 19)%nat ->
  conv2d (skipn k (memcpy iso8601_ref s (Nat.min (strlen iso8601_ref) (strlen s))))
  = conv2d (skipn k s).
Proof.
  intros Hk Hk'. apply conv2d_ext; rewrite !rd_skipn, iso8601_buffer.
  - destruct (Nat.ltb_spec (k + 0) (Nat.min 19 (strlen s))); [reflexivity | lia].
  - destruct (Nat.ltb_spec (k + 1) (Nat.min 19 (strlen s))); [reflexivity | lia].
Qed.

Lemma iso8601_century c0 c1 c0' c1' rest :
  c0 <> NUL -> c1 <> NUL -> c0' <> NUL -> c1' <> NUL ->
  DateTime_of_iso8601 (c0 :: c1 :: rest) = DateTime_of_iso8601 (c0' :: c1' :: rest).
Proof.
  intros H0 H1 H0' H1'.
  assert (Hlen : forall a b, a <> NUL -> b <> NUL ->
                   strlen (a :: b :: rest) = S (S (strlen rest))).
  { intros a b Ha Hb. cbn [strlen].
    destruct (Ascii.eqb_spec a NUL); [contradiction |].
    destruct (Ascii.eqb_spec b NUL); [contradiction |]. reflexivity. }
  assert (Hrd : forall k j, (2 <= k)%nat ->
            rd (skipn k (memcpy iso8601_ref (c0 :: c1 :: rest)
                           (Nat.min (strlen iso8601_ref) (strlen (c0 :: c1 :: rest))))) j
            = rd (skipn k (memcpy iso8601_ref (c0' :: c1' :: rest)
                           (Nat.min (strlen iso8601_ref) (strlen (c0' :: c1' :: rest))))) j).
  { intros k j Hk. rewrite !rd_skipn, !iso8601_buffer.
    rewrite (Hlen c0 c1 H0 H1), (Hlen c0' c1' H0' H1').
    destruct (k + j)%nat as [| [| i]] eqn:E; [lia | lia |].
    reflexivity. }
  unfold DateTime_of_iso8601. cbv zeta.
  f_equal; apply conv2d_ext; apply Hrd; lia.
Qed.

(** Two decimal digits read as the number they write. *)
Lemma conv2d_digits a b rest :
  0 <= a <= 9 -> 0 <= b <= 9 ->
  conv2d (char_of (char_code "0"%char + a) :: char_of (char_code "0"%char + b) :: rest)
  = 10 * a + b.
Proof.
  intros Ha Hb.
  assert (Ea : a = 0 \/ a = 1 \/ a = 2 \/ a = 3 \/ a = 4 \/ a = 5 \/ a = 6 \/
               a = 7 \/ a = 8 \/ a = 9) by lia.
  assert (Eb : b = 0 \/ b = 1 \/ b = 2 \/ b = 3 \/ b = 4 \/ b = 5 \/ b = 6 \/
               b = 7 \/ b = 8 \/ b = 9) by lia.
  repeat (destruct Ea as [Ea | Ea]; [subst a | ]); [.. | subst a];
    repeat (destruct Eb as [Eb | Eb]; [subst b | ]); try subst b; reflexivity.
Qed.

(** C6. The ISO-8601 constructor overwrites the first [min(19, length)]
    characters of the template "2000-01-01T00:00:00" with the input and reads
    the six fields at offsets 2, 5, 8, 11, 14 and 17: the century digits are
    never read, a field the input covers is read from the input, and a field
    a shorter input does not reach keeps the template's value (year offset 0,
    month 1, day 1, time 00:00:00) -- "2020-06" gives 2020-06-01 00:00:00 --
    and no input is rejected. *)
Theorem iso8601_constructor :
  (forall s j,
      rd (memcpy iso8601_ref s (Nat.min (strlen iso8601_ref) (strlen s))) j
      = if (j <? Nat.min 19 (strlen s))%nat then rd s j else rd iso8601_ref j) /\
  (forall c0 c1 c0' c1' rest,
      c0 <> NUL -> c1 <> NUL -> c0' <> NUL -> c1' <> NUL ->
      DateTime_of_iso8601 (c0 :: c1 :: rest) = DateTime_of_iso8601 (c0' :: c1' :: rest)) /\
  (forall s,
      let dt := DateTime_of_iso8601 s in
      ((4 <= strlen s)%nat -> yOff dt = conv2d (skipn 2 s)) /\
      ((7 <= strlen s)%nat -> m dt = conv2d (skipn 5 s)) /\
      ((10 <= strlen s)%nat -> d dt = conv2d (skipn 8 s)) /\
      ((13 <= strlen s)%nat -> hh dt = conv2d (skipn 11 s)) /\
      ((16 <= strlen s)%nat -> mm dt = conv2d (skipn 14 s)) /\
      ((19 <= strlen s)%nat -> ss dt = conv2d (skipn 17 s))) /\
  (forall s,
      let dt := DateTime_of_iso8601 s in
      ((strlen s <= 2)%nat -> yOff dt = 0) /\
      ((strlen s <= 5)%nat -> m dt = 1) /\
      ((strlen s <= 8)%nat -> d dt = 1) /\
      ((strlen s <= 11)%nat -> hh dt = 0) /\
      ((strlen s <= 14)%nat -> mm dt = 0) /\
      ((strlen s <= 17)%nat -> ss dt = 0)) /\
  (forall a b rest,
      0 <= a <= 9 -> 0 <= b <= 9 ->
      conv2d (char_of (char_code "0"%char + a) :: char_of (char_code "0"%char + b) :: rest)
      = 10 * a + b) /\
  DateTime_of_iso8601 (list_ascii_of_string "2020-06") = mkDateTime 20 6 1 0 0 0 /\
  DateTime_of_iso8601 (list_ascii_of_string "2020-06-25T15:29:37")
  = mkDateTime 20 6 25 15 29 37 /\
  DateTime_of_iso8601 (list_ascii_of_string "1999-06-25T15:29:37")
  = mkDateTime 99 6 25 15 29 37.
Proof.
  split; [exact iso8601_buffer |].
  split; [exact iso8601_century |].
  split; [| split; [| split; [exact conv2d_digits |]]].
  - intros s dt. subst dt. unfold DateTime_of_iso8601. cbv zeta. cbn [yOff m d hh mm ss].
    repeat split; intros H; apply iso8601_field_input; lia.
  - intros s dt. subst dt. unfold DateTime_of_iso8601. cbv zeta. cbn [yOff m d hh mm ss].
    repeat split; intros H; rewrite iso8601_field_template by lia; reflexivity.
  - repeat split; reflexivity.
Qed.

Lemma iso8601_constructor_witness :
  DateTime_of_iso8601 (list_ascii_of_string "2021-07-")
  = DateTime_of_iso8601 (list_ascii_of_string "1921-07-") /\
  m (DateTime_of_iso8601 (list_ascii_of_string "2021-07-")) = 7 /\
  d (DateTime_of_iso8601 (list_ascii_of_string "2021-07-")) = 1.
Proof.
  destruct iso8601_constructor as (_ & Hc & Hi & Ht & _).
  split; [| split].
  - apply (Hc "2"%char "0"%char "1"%char "9"%char (list_ascii_of_string "21-07-"));
      intros E; discriminate E.
  - destruct (Hi (list_ascii_of_string "2021-07-")) as (_ & Hm & _).
    rewrite Hm; [reflexivity | cbn; lia].
  - destruct (Ht (list_ascii_of_string "2021-07-")) as (_ & _ & Hd & _).
    apply Hd. cbn. lia.
Defined.

(** ** Formatter *)

Lemma rd_wr_same buffer i c : (i < length buffer)%nat -> rd (wr buffer i c) i = c.
Proof.
  unfold rd. revert i; induction buffer as [| x rest IH]; intros [| i] Hi; cbn in *;
    try lia; [reflexivity | apply IH; lia].
Qed.

Lemma rd_wr_other buffer i j c : i <> j -> rd (wr buffer i c) j = rd buffer j.
Proof.
  unfold rd. revert i j; induction buffer as [| x rest IH]; intros [| i] [| j] Hij; cbn;
    try reflexivity; try lia.
  apply IH. lia.
Qed.

Lemma rd_in_buffer buffer i : rd buffer i <> NUL -> (i < length buffer)%nat.
Proof.
  intros H. destruct (Nat.lt_ge_cases i (length buffer)) as [| Hge]; [assumption |].
  exfalso. apply H. unfold rd. apply nth_overflow. exact Hge.
Qed.

Lemma strlen_zero buffer : strlen buffer = O <-> rd buffer 0 = NUL.
Proof.
  destruct buffer as [| c rest]; cbn; [tauto |].
  destruct (Ascii.eqb_spec c NUL); split; intros; congruence.
Qed.

Lemma char_code_char_of x : 0 <= x < 256 -> char_code (char_of x) = x.
Proof.
  intros Hx. unfold char_code, char_of. rewrite to_uint8_small by lia.
  rewrite N_ascii_embedding by lia. lia.
Qed.

Lemma digit_not_NUL x : 0 <= x < 208 -> digit x <> NUL.
Proof.
  intros Hx E. apply (f_equal char_code) in E. unfold digit in E.
  change (char_code "0"%char) with 48 in E. change (char_code NUL) with 0 in E.
  rewrite char_code_char_of in E by lia. lia.
Qed.

Lemma is_digit_digit x : 0 <= x <= 9 -> is_digit (digit x) = true.
Proof.
  intros Hx. unfold is_digit, digit.
  change (char_code "0"%char) with 48. change (char_code "9"%char) with 57.
  rewrite char_code_char_of by lia.
  apply andb_true_intro. split; [apply Z.leb_le | apply Z.leb_le]; lia.
Qed.

Lemma digit_eqb c y : is_digit c = true -> is_digit y = false -> (c =? y)%char = false.
Proof.
  intros Hc Hy. destruct (Ascii.eqb_spec c y) as [-> |]; [congruence | reflexivity].
Qed.

Lemma starts_token_eqb c y :
  starts_token c = false -> starts_token y = true -> (c =? y)%char = false.
Proof.
  intros Hc Hy. destruct (Ascii.eqb_spec c y) as [-> |]; [congruence | reflexivity].
Qed.

Lemma is_digit_not_token c : is_digit c = true -> starts_token c = false.
Proof.
  intros Hc. destruct (starts_token c) eqn:E; [| reflexivity].
  unfold starts_token in E. cbn [list_ascii_of_string existsb] in E.
  repeat match type of E with
         | (?a || ?b)%bool = true =>
             apply orb_prop in E; destruct E as [E | E];
             [apply Ascii.eqb_eq in E; subst c; discriminate Hc |]
         end.
  discriminate E.
Qed.

Section FormatterFacts.
Variable rom : Z -> Z.
Variable names_oob : Z -> ascii.
Variable tg : target.
Variable dt : DateTime.
Variable apTag : bool.
Variable hr : Z.
Variable pm : bool.

Local Abbreviation body := (toString_body rom names_oob tg dt apTag hr pm).
Local Abbreviation shown_hour := (shown_hour dt apTag hr).
Local Abbreviation loop := (toString_loop rom names_oob tg dt apTag hr pm).

(** One more turn of the loop, or its end. *)
Lemma toString_loop_step i buffer :
  loop i buffer =
  match strlen buffer with
  | O => None
  | S n => if (i <? n)%nat then loop (S i) (body i buffer) else Some buffer
  end.
Proof using Type.
  rewrite toString_loop_equation_1.
  destruct (Nat.eq_dec (strlen buffer) 0) as [E | E];
    cbv beta iota delta [toString_loop_unfold_clause_1].
  - rewrite E. reflexivity.
  - destruct (lt_dec i (strlen buffer - 1)) as [Hlt | Hge];
      cbv beta iota delta [toString_loop_unfold_clause_1_clause_2];
      destruct (strlen buffer) as [| n]; try congruence;
      destruct (Nat.ltb_spec i n); try lia; reflexivity.
Qed.

(** No statement of the body writes below the scan index. *)
Ltac frame_stage :=
  intros; repeat match goal with
                 | |- context [if ?c then _ else _] => destruct c
                 end;
  cbv zeta; rewrite ?rd_wr_other by lia; reflexivity.

Lemma fmt_hh_below i b j : (j < i)%nat -> rd (fmt_hh dt apTag hr i b) j = rd b j.
Proof using Type. unfold fmt_hh. frame_stage. Qed.
Lemma fmt_mm_below i b j : (j < i)%nat -> rd (fmt_mm dt i b) j = rd b j.
Proof using Type. unfold fmt_mm. frame_stage. Qed.
Lemma fmt_ss_below i b j : (j < i)%nat -> rd (fmt_ss dt i b) j = rd b j.
Proof using Type. unfold fmt_ss. frame_stage. Qed.
Lemma fmt_D_below i b j : (j < i)%nat -> rd (fmt_D rom tg dt i b) j = rd b j.
Proof using Type. unfold fmt_D. frame_stage. Qed.
Lemma fmt_M_below i b j : (j < i)%nat -> rd (fmt_M names_oob dt i b) j = rd b j.
Proof using Type. unfold fmt_M. frame_stage. Qed.
Lemma fmt_Y_below i b j : (j < i)%nat -> rd (fmt_Y dt i b) j = rd b j.
Proof using Type. unfold fmt_Y. frame_stage. Qed.
Lemma fmt_AP_below i b j : (j < i)%nat -> rd (fmt_AP pm i b) j = rd b j.
Proof using Type. unfold fmt_AP. frame_stage. Qed.

Lemma body_below i b j : (j < i)%nat -> rd (body i b) j = rd b j.
Proof using Type.
  intros Hj. unfold toString_body.
  rewrite fmt_AP_below, fmt_Y_below, fmt_M_below, fmt_D_below, fmt_ss_below,
    fmt_mm_below, fmt_hh_below by exact Hj.
  reflexivity.
Qed.

(** Where no token can start, the body leaves the buffer alone. *)
Ltac inert_stage Hn :=
  repeat first
    [ rewrite (starts_token_eqb _ "h"%char Hn eq_refl)
    | rewrite (starts_token_eqb _ "m"%char Hn eq_refl)
    | rewrite (starts_token_eqb _ "s"%char Hn eq_refl)
    | rewrite (starts_token_eqb _ "D"%char Hn eq_refl)
    | rewrite (starts_token_eqb _ "M"%char Hn eq_refl)
    | rewrite (starts_token_eqb _ "Y"%char Hn eq_refl)
    | rewrite (starts_token_eqb _ "A"%char Hn eq_refl)
    | rewrite (starts_token_eqb _ "a"%char Hn eq_refl) ];
  reflexivity.

Lemma fmt_hh_inert i b : starts_token (rd b i) = false -> fmt_hh dt apTag hr i b = b.
Proof using Type. intros Hn. unfold fmt_hh. inert_stage Hn. Qed.
Lemma fmt_mm_inert i b : starts_token (rd b i) = false -> fmt_mm dt i b = b.
Proof using Type. intros Hn. unfold fmt_mm. inert_stage Hn. Qed.
Lemma fmt_ss_inert i b : starts_token (rd b i) = false -> fmt_ss dt i b = b.
Proof using Type. intros Hn. unfold fmt_ss. inert_stage Hn. Qed.
Lemma fmt_D_inert i b : starts_token (rd b i) = false -> fmt_D rom tg dt i b = b.
Proof using Type. intros Hn. unfold fmt_D. inert_stage Hn. Qed.
Lemma fmt_M_inert i b : starts_token (rd b i) = false -> fmt_M names_oob dt i b = b.
Proof using Type. intros Hn. unfold fmt_M. inert_stage Hn. Qed.
Lemma fmt_Y_inert i b : starts_token (rd b i) = false -> fmt_Y dt i b = b.
Proof using Type. intros Hn. unfold fmt_Y. inert_stage Hn. Qed.
Lemma fmt_AP_inert i b : starts_token (rd b i) = false -> fmt_AP pm i b = b.
Proof using Type. intros Hn. unfold fmt_AP. inert_stage Hn. Qed.

Lemma body_inert i b : starts_token (rd b i) = false -> body i b = b.
Proof using Type.
  intros Hn. unfold toString_body.
  rewrite (fmt_hh_inert i b Hn), (fmt_mm_inert i b Hn), (fmt_ss_inert i b Hn),
    (fmt_D_inert i b Hn), (fmt_M_inert i b Hn), (fmt_Y_inert i b Hn).
  apply fmt_AP_inert. exact Hn.
Qed.

(** With a decimal digit in the next position no token is matched by the
    statements that follow [hh]. *)
Ltac digit_stage Hd :=
  repeat first
    [ rewrite (digit_eqb _ "m"%char Hd eq_refl)
    | rewrite (digit_eqb _ "s"%char Hd eq_refl)
    | rewrite (digit_eqb _ "D"%char Hd eq_refl)
    | rewrite (digit_eqb _ "M"%char Hd eq_refl)
    | rewrite (digit_eqb _ "Y"%char Hd eq_refl)
    | rewrite (digit_eqb _ "P"%char Hd eq_refl)
    | rewrite (digit_eqb _ "p"%char Hd eq_refl) ];
  rewrite ?andb_false_r; reflexivity.

Lemma fmt_mm_digit i b : is_digit (rd b (i + 1)) = true -> fmt_mm dt i b = b.
Proof using Type. intros Hd. unfold fmt_mm. digit_stage Hd. Qed.
Lemma fmt_ss_digit i b : is_digit (rd b (i + 1)) = true -> fmt_ss dt i b = b.
Proof using Type. intros Hd. unfold fmt_ss. digit_stage Hd. Qed.
Lemma fmt_D_digit i b : is_digit (rd b (i + 1)) = true -> fmt_D rom tg dt i b = b.
Proof using Type. intros Hd. unfold fmt_D. digit_stage Hd. Qed.
Lemma fmt_M_digit i b : is_digit (rd b (i + 1)) = true -> fmt_M names_oob dt i b = b.
Proof using Type. intros Hd. unfold fmt_M. digit_stage Hd. Qed.
Lemma fmt_Y_digit i b : is_digit (rd b (i + 1)) = true -> fmt_Y dt i b = b.
Proof using Type. intros Hd. unfold fmt_Y. digit_stage Hd. Qed.
Lemma fmt_AP_digit i b : is_digit (rd b (i + 1)) = true -> fmt_AP pm i b = b.
Proof using Type. intros Hd. unfold fmt_AP. digit_stage Hd. Qed.

Lemma length_body i b : length (body i b) = length b.
Proof using Type. apply length_toString_body. Qed.

(** The loop from index [i] on: what it returns has the length of the
    buffer and agrees with it below [i]. *)
Lemma loop_below (n : nat) : forall i b out,
  (length b - i <= n)%nat -> loop i b = Some out ->
  length out = length b /\ forall j, (j < i)%nat -> rd out j = rd b j.
Proof using Type.
  induction n as [| n IH]; intros i b out Hn Hl; rewrite toString_loop_step in Hl;
    pose proof (strlen_le_length b) as Hs;
    destruct (strlen b) as [| k]; try discriminate;
    destruct (Nat.ltb_spec i k) as [Hlt | Hge]; try lia.
  - injection Hl as <-. split; [reflexivity | reflexivity].
  - apply IH in Hl; [| rewrite length_body; lia].
    destruct Hl as [Hlen Hfr]. rewrite length_body in Hlen. split; [exact Hlen |].
    intros j Hj. rewrite Hfr by lia. apply body_below. exact Hj.
  - injection Hl as <-. split; reflexivity.
Qed.

(** Past index 0 the loop always returns: the first character is never
    written again, so the string stays non-empty. *)
Lemma loop_returns (n : nat) : forall i b,
  (length b - i <= n)%nat -> (1 <= i)%nat -> rd b 0 <> NUL ->
  exists out, loop i b = Some out.
Proof using Type.
  induction n as [| n IH]; intros i b Hn Hi H0; rewrite toString_loop_step;
    pose proof (strlen_le_length b) as Hs;
    destruct (strlen b) as [| k] eqn:Ek;
    try (exfalso; apply H0, strlen_zero; exact Ek);
    destruct (Nat.ltb_spec i k) as [Hlt | Hge]; try lia; eauto.
  apply IH; [rewrite length_body; lia | lia |].
  rewrite body_below by lia. exact H0.
Qed.

(** Every state of the scan leads to the result of the whole call. *)
Lemma scan_state_loop buffer0 i b :
  scan_state rom names_oob tg dt apTag hr pm buffer0 i b ->
  loop 0 buffer0 = loop i b.
Proof using Type.
  induction 1 as [| i b Hst IH Hlt]; [reflexivity |].
  rewrite IH, (toString_loop_step i b).
  destruct (strlen b) as [| k]; [cbn in Hlt; lia |].
  destruct (Nat.ltb_spec i k); [reflexivity | cbn in Hlt; lia].
Qed.

(** At an [hh] token the body writes the two digits of the hour and
    nothing else. *)
Lemma body_at_hh i b :
  rd b i = "h"%char -> rd b (i + 1) = "h"%char ->
  body i b = wr (wr b i (digit (shown_hour / 10))) (i + 1) (digit (shown_hour mod 10)).
Proof using Type.
  intros H0 H1.
  assert (Hi : (i < length b)%nat) by (apply rd_in_buffer; rewrite H0; discriminate).
  assert (Hi1 : (i + 1 < length b)%nat) by (apply rd_in_buffer; rewrite H1; discriminate).
  assert (Hhh : fmt_hh dt apTag hr i b
                = wr (wr b i (digit (shown_hour / 10))) (i + 1) (digit (shown_hour mod 10))).
  { unfold fmt_hh, shown_hour, digit. rewrite H0, H1. cbn [Ascii.eqb Bool.eqb andb].
    destruct (negb apTag); reflexivity. }
  unfold toString_body. rewrite Hhh.
  set (b1 := wr (wr b i (digit (shown_hour / 10))) (i + 1) (digit (shown_hour mod 10))).
  assert (Hd : is_digit (rd b1 (i + 1)) = true).
  { unfold b1. rewrite rd_wr_same by (rewrite length_wr; exact Hi1).
    apply is_digit_digit. pose proof (Z.mod_pos_bound shown_hour 10 ltac:(lia)). lia. }
  rewrite (fmt_mm_digit i b1 Hd), (fmt_ss_digit i b1 Hd), (fmt_D_digit i b1 Hd),
    (fmt_M_digit i b1 Hd), (fmt_Y_digit i b1 Hd).
  apply fmt_AP_digit. exact Hd.
Qed.

Lemma hh_rendered buffer0 i b :
  0 <= shown_hour < 256 ->
  scan_state rom names_oob tg dt apTag hr pm buffer0 i b ->
  (i < strlen b - 1)%nat ->
  rd b i = "h"%char -> rd b (i + 1) = "h"%char ->
  exists out,
    loop 0 buffer0 = Some out /\ length out = length buffer0 /\
    rd out i = digit (shown_hour / 10) /\ rd out (i + 1) = digit (shown_hour mod 10).
Proof using Type.
  intros Hh Hst Hlt H0 H1.
  assert (Hi : (i < length b)%nat) by (apply rd_in_buffer; rewrite H0; discriminate).
  assert (Hi1 : (i + 1 < length b)%nat) by (apply rd_in_buffer; rewrite H1; discriminate).
  assert (Hlen0 : length b = length buffer0).
  { clear -Hst. induction Hst; [reflexivity |]. rewrite length_toString_body. assumption. }
  rewrite (scan_state_loop buffer0 i b Hst), (toString_loop_step i b).
  destruct (strlen b) as [| k] eqn:Ek; [cbn in Hlt; lia |].
  destruct (Nat.ltb_spec i k) as [_ | ?]; [| cbn in Hlt; lia].
  rewrite (body_at_hh i b H0 H1).
  set (c1 := digit (shown_hour / 10)). set (c2 := digit (shown_hour mod 10)).
  set (b1 := wr (wr b i c1) (i + 1) c2).
  assert (Hl1 : length b1 = length b) by (unfold b1; rewrite !length_wr; reflexivity).
  assert (R0 : rd b1 i = c1).
  { unfold b1. rewrite rd_wr_other by lia. apply rd_wr_same. exact Hi. }
  assert (R1 : rd b1 (i + 1) = c2).
  { unfold b1. apply rd_wr_same. rewrite length_wr. exact Hi1. }
  assert (Hc1 : c1 <> NUL).
  { apply digit_not_NUL.
    pose proof (Z.div_pos shown_hour 10 ltac:(lia) ltac:(lia)).
    pose proof (Z.div_lt_upper_bound shown_hour 10 26 ltac:(lia) ltac:(lia)). lia. }
  assert (Hc2 : is_digit c2 = true).
  { apply is_digit_digit. pose proof (Z.mod_pos_bound shown_hour 10 ltac:(lia)). lia. }
  assert (Hb0 : rd b1 0 <> NUL).
  { destruct i as [| i'].
    - rewrite R0. exact Hc1.
    - unfold b1. rewrite !rd_wr_other by lia.
      intros E. apply strlen_zero in E. congruence. }
  destruct (loop_returns (length b1) (S i) b1 ltac:(lia) ltac:(lia) Hb0) as [out Hout].
  exists out. split; [exact Hout |].
  destruct (loop_below (length b1) (S i) b1 out ltac:(lia) Hout) as [Hlo Hfr].
  split; [lia |]. split; [rewrite Hfr by lia; exact R0 |].
  (* position [i + 1]: the next turn finds a digit there *)
  rewrite toString_loop_step in Hout.
  destruct (strlen b1) as [| k1]; [discriminate |].
  destruct (Nat.ltb_spec (S i) k1).
  - rewrite body_inert in Hout
      by (replace (S i) with (i + 1)%nat by lia; rewrite R1; apply is_digit_not_token, Hc2).
    destruct (loop_below (length b1) (S (S i)) b1 out ltac:(lia) Hout) as [_ Hfr2].
    rewrite Hfr2 by lia. exact R1.
  - injection Hout as <-. exact R1.
Qed.

End FormatterFacts.

Lemma toString_loop_form rom names_oob tg dt buffer :
  toString rom names_oob tg dt buffer
  = toString_loop rom names_oob tg dt (has_meridiem buffer)
      (hourReformatted_of dt (has_meridiem buffer)) (isPM_of dt (has_meridiem buffer))
      0 buffer.
Proof.
  unfold toString, hourReformatted_of, isPM_of. fold (has_meridiem buffer).
  destruct (has_meridiem buffer); [| reflexivity].
  destruct (hh dt =? 0); [reflexivity |].
  destruct (hh dt =? 12); [reflexivity |].
  destruct (hh dt <? 12); reflexivity.
Qed.

Lemma hourReformatted_hour12 dt :
  0 <= hh dt < 24 -> hourReformatted_of dt true = hour12 (hh dt).
Proof.
  intros Hh. unfold hourReformatted_of, hour12, to_uint8.
  destruct (Z.eqb_spec (hh dt) 0) as [-> | ?]; [reflexivity |].
  destruct (Z.eqb_spec (hh dt) 12) as [-> | ?]; [reflexivity |].
  destruct (Z.ltb_spec (hh dt) 12); Z.div_mod_to_equations; lia.
Qed.

Lemma strlen_app_literal pre s :
  forallb literal pre = true -> strlen (pre ++ s) = (length pre + strlen s)%nat.
Proof.
  induction pre as [| c pre IH]; intros H; [reflexivity |].
  cbn [forallb] in H. apply andb_prop in H. destruct H as [Hc Hp].
  unfold literal in Hc. apply andb_prop in Hc. destruct Hc as [Hc _].
  cbn [app strlen length]. destruct (c =? NUL)%char; [discriminate |].
  rewrite IH by exact Hp. reflexivity.
Qed.

Lemma rd_literal_prefix pre s k :
  forallb literal pre = true -> (k < length pre)%nat ->
  starts_token (rd (pre ++ s) k) = false.
Proof.
  intros H Hk. unfold rd. rewrite app_nth1 by exact Hk.
  rewrite forallb_forall in H.
  specialize (H (nth k pre NUL) (nth_In pre NUL Hk)).
  unfold literal in H. apply andb_prop in H. destruct H as [_ H].
  apply negb_true_iff in H. exact H.
Qed.

(** A literal prefix is scanned without a change to the buffer. *)
Lemma scan_literal_prefix rom names_oob tg dt apTag hr pm pre s (k : nat) :
  forallb literal pre = true -> (2 <= strlen s)%nat -> (k <= length pre)%nat ->
  scan_state rom names_oob tg dt apTag hr pm (pre ++ s) k (pre ++ s).
Proof.
  intros Hp Hs. induction k as [| k IH]; intros Hk; [constructor |].
  pose proof (scan_next rom names_oob tg dt apTag hr pm (pre ++ s) k (pre ++ s)
                        (IH ltac:(lia))) as Hn.
  rewrite body_inert in Hn by (apply rd_literal_prefix; [exact Hp | lia]).
  apply Hn. rewrite strlen_app_literal by exact Hp. lia.
Qed.

Lemma firstn_agree (n : nat) (l1 l2 : list ascii) :
  (n <= length l1)%nat -> (n <= length l2)%nat ->
  (forall j, (j < n)%nat -> rd l1 j = rd l2 j) -> firstn n l1 = firstn n l2.
Proof.
  intros H1 H2 Hrd. apply (nth_ext _ _ NUL NUL).
  - rewrite !length_firstn. lia.
  - intros j Hj. rewrite length_firstn in Hj. rewrite !nth_firstn.
    destruct (Nat.ltb_spec j n); [apply Hrd; lia | reflexivity].
Qed.

(** C7. On the buffer "YYYY-MM-DD hh:mm:ss", 2020-04-16 18:34:56 is written
    as "2020-04-16 18:34:56".  Wherever the scan meets an [hh] token it
    leaves the two decimal digits of the hour there: the hour 00..23 itself
    when no [AP] or [ap] occurs in the buffer, and the hour on the
    twelve-hour dial, 01..12 with both 0 and 12 shown as 12, when one does.
    In particular this holds for an [hh] that follows literal text. *)
Theorem toString_hour_rendering (rom : Z -> Z) (names_oob : Z -> ascii) (tg : target) :
  toString rom names_oob tg (DateTime_of_components 2020 4 16 18 34 56)
           (list_ascii_of_string "YYYY-MM-DD hh:mm:ss")
  = Some (list_ascii_of_string "2020-04-16 18:34:56") /\
  (forall dt buffer0 i b,
      0 <= hh dt < 24 ->
      let apTag := has_meridiem buffer0 in
      let shown := if apTag then hour12 (hh dt) else hh dt in
      scan_state rom names_oob tg dt apTag (hourReformatted_of dt apTag)
                 (isPM_of dt apTag) buffer0 i b ->
      (i < strlen b - 1)%nat ->
      rd b i = "h"%char -> rd b (i + 1) = "h"%char ->
      exists out,
        toString rom names_oob tg dt buffer0 = Some out /\
        length out = length buffer0 /\
        rd out i = digit (shown / 10) /\ rd out (i + 1) = digit (shown mod 10)) /\
  (forall dt pre post,
      0 <= hh dt < 24 -> forallb literal pre = true ->
      let buffer := pre ++ "h"%char :: "h"%char :: post in
      let shown := if has_meridiem buffer then hour12 (hh dt) else hh dt in
      exists out,
        toString rom names_oob tg dt buffer = Some out /\
        firstn (length pre) out = pre /\
        rd out (length pre) = digit (shown / 10) /\
        rd out (length pre + 1) = digit (shown mod 10)) /\
  (forall h, 0 <= h < 24 -> 1 <= hour12 h <= 12) /\
  hour12 0 = 12 /\ hour12 12 = 12.
Proof.
  assert (General : forall dt buffer0 i b,
      0 <= hh dt < 24 ->
      let apTag := has_meridiem buffer0 in
      let shown := if apTag then hour12 (hh dt) else hh dt in
      scan_state rom names_oob tg dt apTag (hourReformatted_of dt apTag)
                 (isPM_of dt apTag) buffer0 i b ->
      (i < strlen b - 1)%nat ->
      rd b i = "h"%char -> rd b (i + 1) = "h"%char ->
      exists out,
        toString rom names_oob tg dt buffer0 = Some out /\
        length out = length buffer0 /\
        rd out i = digit (shown / 10) /\ rd out (i + 1) = digit (shown mod 10)).
  { intros dt buffer0 i b Hh apTag shown Hst Hlt H0 H1.
    assert (Hsh : shown_hour dt apTag (hourReformatted_of dt apTag) = shown).
    { unfold shown_hour, shown. destruct apTag; cbn [negb].
      - apply hourReformatted_hour12. exact Hh.
      - reflexivity. }
    assert (Hr : 0 <= shown < 256).
    { unfold shown. destruct apTag; [| lia].
      unfold hour12. pose proof (Z.mod_pos_bound (hh dt + 11) 12 ltac:(lia)). lia. }
    rewrite toString_loop_form. fold apTag. rewrite <- Hsh in *.
    apply (hh_rendered rom names_oob tg dt apTag _ _ buffer0 i b); assumption. }
  split; [reflexivity |].
  split; [exact General |].
  split; [| split; [| split; reflexivity]].
  - intros dt pre post Hh Hp buffer shown.
    set (s := "h"%char :: "h"%char :: post) in *.
    assert (Hs : (2 <= strlen s)%nat) by (cbn; lia).
    subst shown buffer.
    pose proof (scan_literal_prefix rom names_oob tg dt (has_meridiem (pre ++ s))
                  (hourReformatted_of dt (has_meridiem (pre ++ s)))
                  (isPM_of dt (has_meridiem (pre ++ s))) pre s (length pre) Hp Hs (le_n _))
      as Hst.
    destruct (General dt (pre ++ s) (length pre) (pre ++ s) Hh Hst)
      as (out & Ho & Hl & R0 & R1).
    + rewrite strlen_app_literal by exact Hp. lia.
    + unfold rd. rewrite app_nth2, Nat.sub_diag by lia. reflexivity.
    + unfold rd. rewrite app_nth2 by lia.
      replace (length pre + 1 - length pre)%nat with 1%nat by lia. reflexivity.
    + exists out. split; [exact Ho |]. split; [| split; assumption].
      rewrite toString_loop_form in Ho.
      rewrite (scan_state_loop _ _ _ _ _ _ _ _ _ _ Hst) in Ho.
      destruct (loop_below _ _ _ _ _ _ _ (length (pre ++ s)) (length pre) (pre ++ s) out
                  ltac:(lia) Ho) as [_ Hfr].
      assert (Hlb : length (pre ++ s) = (length pre + length s)%nat)
        by apply length_app.
      rewrite (firstn_agree (length pre) out (pre ++ s)) by (try lia; exact Hfr).
      rewrite firstn_app, Nat.sub_diag, firstn_all. cbn [firstn].
      apply app_nil_r.
  - intros h Hh. unfold hour12.
    pose proof (Z.mod_pos_bound (h + 11) 12 ltac:(lia)). lia.
Qed.

Lemma toString_hour_rendering_witness :
  exists out,
    toString (fun _ => 0) (fun _ => NUL) Int32 (mkDateTime 20 4 16 18 34 56)
             (list_ascii_of_string "Now hh o'clock ap") = Some out /\
    firstn 4 out = list_ascii_of_string "Now " /\
    rd out 4 = "0"%char /\ rd out 5 = "6"%char.
Proof.
  destruct (toString_hour_rendering (fun _ => 0) (fun _ => NUL) Int32) as (_ & _ & Hp & _).
  destruct (Hp (mkDateTime 20 4 16 18 34 56) (list_ascii_of_string "Now ")
               (list_ascii_of_string " o'clock ap"))
    as (out & Ho & Hf & R0 & R1).
  - cbn. lia.
  - reflexivity.
  - exists out. repeat split; assumption.
Defined.

(** C8 fails on the code.  In the buffer "APM" the third character lies in
    no occurrence of a token, yet formatting 2020-04-16 09:00:00 turns the
    buffer into "A04": the scan writes "AM" over [AP], then reads the "M" it
    has just written together with the next character as an [MM] token. *)
Theorem toString_rewrites_text_after_meridiem
        (rom : Z -> Z) (names_oob : Z -> ascii) (tg : target) :
  let dt := DateTime_of_components 2020 4 16 9 0 0 in
  let buffer := list_ascii_of_string "APM" in
  isValid rom dt = true /\
  token_covers buffer 2 = false /\
  toString rom names_oob tg dt buffer = Some (list_ascii_of_string "A04") /\
  rd buffer 2 = "M"%char /\
  option_map (fun out => rd out 2) (toString rom names_oob tg dt buffer) = Some "4"%char.
Proof.
  cbv zeta. repeat split.
Qed.

(** * Further properties of the sources *)

(** ** Register encoding *)

Lemma bin2bcd_nibbles v : 0 <= v <= 99 -> bin2bcd v = 16 * (v / 10) + v mod 10.
Proof.
  intros Hv. unfold bin2bcd.
  pose proof (Z.div_mod v 10 ltac:(lia)).
  pose proof (Z.mod_pos_bound v 10 ltac:(lia)).
  assert (0 <= v / 10 <= 9) by (Z.div_mod_to_equations; lia).
  rewrite to_uint8_small by lia. lia.
Qed.

Lemma bcd2bin_nibbles hi lo :
  0 <= hi <= 15 -> 0 <= lo <= 15 -> bcd2bin (16 * hi + lo) = to_uint8 (10 * hi + lo).
Proof.
  intros Hh Hl. unfold bcd2bin.
  rewrite Z.shiftr_div_pow2 by lia. change (2 ^ 4) with 16.
  replace ((16 * hi + lo) / 16) with hi
    by (apply (Z.div_unique_pos _ _ _ lo); lia).
  f_equal. lia.
Qed.

Lemma bcd_roundtrip v : 0 <= v <= 99 -> bcd2bin (bin2bcd v) = v.
Proof.
  intros Hv.
  pose proof (Z.div_mod v 10 ltac:(lia)).
  pose proof (Z.mod_pos_bound v 10 ltac:(lia)).
  assert (0 <= v / 10 <= 9) by (Z.div_mod_to_equations; lia).
  rewrite bin2bcd_nibbles by exact Hv.
  rewrite bcd2bin_nibbles by lia. rewrite to_uint8_small by lia. lia.
Qed.

(** [bcd2bin] undoes [bin2bcd] on 0..99, and [bin2bcd] packs the two
    decimal digits into the two nibbles. *)
Theorem bcd2bin_bin2bcd (v : Z) :
  0 <= v <= 99 ->
  bcd2bin (bin2bcd v) = v /\
  Z.shiftr (bin2bcd v) 4 = v / 10 /\ Z.land (bin2bcd v) 15 = v mod 10.
Proof.
  intros Hv.
  pose proof (Z.div_mod v 10 ltac:(lia)).
  pose proof (Z.mod_pos_bound v 10 ltac:(lia)).
  assert (0 <= v / 10 <= 9) by (Z.div_mod_to_equations; lia).
  rewrite bin2bcd_nibbles by exact Hv.
  split; [| split].
  - rewrite bcd2bin_nibbles by lia. rewrite to_uint8_small by lia. lia.
  - rewrite Z.shiftr_div_pow2 by lia. change (2 ^ 4) with 16.
    symmetry. apply (Z.div_unique_pos _ _ _ (v mod 10)); lia.
  - change 15 with (Z.ones 4). rewrite Z.land_ones by lia. change (2 ^ 4) with 16.
    symmetry. apply (Z.mod_unique_pos _ _ (v / 10)); lia.
Qed.

Lemma bcd2bin_bin2bcd_witness :
  bcd2bin (bin2bcd 59) = 59 /\
  Z.shiftr (bin2bcd 59) 4 = 59 / 10 /\ Z.land (bin2bcd 59) 15 = 59 mod 10.
Proof. apply (bcd2bin_bin2bcd 59). lia. Defined.

(** [bin2bcd] undoes [bcd2bin] on every byte whose nibbles are decimal
    digits, and [bcd2bin] reads such a byte as the number it spells. *)
Theorem bin2bcd_bcd2bin (hi lo : Z) :
  0 <= hi <= 9 -> 0 <= lo <= 9 ->
  bcd2bin (16 * hi + lo) = 10 * hi + lo /\
  bin2bcd (bcd2bin (16 * hi + lo)) = 16 * hi + lo.
Proof.
  intros Hh Hl.
  assert (E : bcd2bin (16 * hi + lo) = 10 * hi + lo).
  { rewrite bcd2bin_nibbles by lia. apply to_uint8_small. lia. }
  split; [exact E |]. rewrite E. rewrite bin2bcd_nibbles by lia.
  replace ((10 * hi + lo) / 10) with hi
    by (apply (Z.div_unique_pos _ _ _ lo); lia).
  replace ((10 * hi + lo) mod 10) with lo
    by (apply (Z.mod_unique_pos _ _ hi); lia).
  reflexivity.
Qed.

Lemma bin2bcd_bcd2bin_witness :
  bcd2bin (16 * 5 + 9) = 10 * 5 + 9 /\ bin2bcd (bcd2bin (16 * 5 + 9)) = 16 * 5 + 9.
Proof. apply (bin2bcd_bcd2bin 5 9); lia. Defined.

(** A mask that keeps the bits of a BCD byte in use leaves the byte alone. *)
Lemma land_ones_small x k : 0 <= k -> 0 <= x < 2 ^ k -> Z.land x (Z.ones k) = x.
Proof.
  intros Hk Hx. rewrite Z.land_ones by exact Hk. apply Z.mod_small. exact Hx.
Qed.

Lemma masked_bcd v k :
  0 <= k -> 0 <= v <= 99 -> bin2bcd v < 2 ^ k ->
  bcd2bin (Z.land (bin2bcd v) (Z.ones k)) = v.
Proof.
  intros Hk Hv Hb.
  rewrite land_ones_small.
  - apply bcd_roundtrip. exact Hv.
  - exact Hk.
  - split; [| exact Hb]. unfold bin2bcd. apply to_uint8_range.
Qed.

Lemma bin2bcd_bound v n :
  0 <= v <= n -> n <= 99 -> bin2bcd v <= 16 * (n / 10) + 9.
Proof.
  intros Hv Hn. rewrite bin2bcd_nibbles by lia.
  pose proof (Z.mod_pos_bound v 10 ltac:(lia)).
  pose proof (Z.div_le_mono v n 10 ltac:(lia) ltac:(lia)). lia.
Qed.

Lemma days_in_month_le_31 yr mo : days_in_month yr mo <= 31.
Proof.
  unfold days_in_month.
  destruct (mo =? 2); [destruct (is_leap_year yr); lia |].
  destruct ((mo =? 4) || (mo =? 6) || (mo =? 9) || (mo =? 11)); lia.
Qed.

(** What [now] decodes from the bytes [adjust] sends after the register
    address is the DateTime that was set, for every date of the calendar. *)
Theorem now_of_adjust (dt : DateTime) :
  calendar_date dt -> now (tl (adjust dt)) = dt.
Proof.
  intros (Hy & Hm & Hd & Hh & Hmi & Hs).
  pose proof (days_in_month_le_31 (2000 + yOff dt) (m dt)) as H31.
  unfold adjust, now. cbn [tl nth].
  unfold second, minute, hour, day, month, year.
  rewrite (to_uint16_small (2000 + yOff dt)) by lia.
  replace (2000 + yOff dt - 2000) with (yOff dt) by lia.
  rewrite (to_uint8_small (yOff dt)) by lia.
  pose proof (bin2bcd_bound (m dt) 12 ltac:(lia) ltac:(lia)) as Bm.
  pose proof (bin2bcd_bound (d dt) 31 ltac:(lia) ltac:(lia)) as Bd.
  pose proof (bin2bcd_bound (hh dt) 23 ltac:(lia) ltac:(lia)) as Bh.
  pose proof (bin2bcd_bound (mm dt) 59 ltac:(lia) ltac:(lia)) as Bmi.
  pose proof (bin2bcd_bound (ss dt) 59 ltac:(lia) ltac:(lia)) as Bs.
  change (12 / 10) with 1 in Bm. change (31 / 10) with 3 in Bd.
  change (23 / 10) with 2 in Bh. change (59 / 10) with 5 in Bmi, Bs.
  change 31 with (Z.ones 5). change 63 with (Z.ones 6). change 127 with (Z.ones 7).
  rewrite (masked_bcd (m dt) 5), (masked_bcd (d dt) 6), (masked_bcd (hh dt) 6),
    (masked_bcd (mm dt) 7), (masked_bcd (ss dt) 7)
    by (try lia; cbn; lia).
  rewrite (bcd_roundtrip (yOff dt)) by lia.
  unfold DateTime_of_components.
  rewrite (to_uint16_small (yOff dt + 2000)) by lia.
  destruct (Z.leb_spec 2000 (yOff dt + 2000)); [| lia].
  replace (yOff dt + 2000 - 2000) with (yOff dt) by lia.
  rewrite to_uint16_small, to_uint8_small by lia.
  destruct dt; reflexivity.
Qed.

Lemma now_of_adjust_witness :
  now (tl (adjust (mkDateTime 24 2 29 23 59 58))) = mkDateTime 24 2 29 23 59 58.
Proof.
  apply (now_of_adjust (mkDateTime 24 2 29 23 59 58)).
  unfold calendar_date. vm_compute. repeat split; congruence.
Defined.

(** The same for the time stamp registers; the alarm registers hold no
    year, and [getAlarm] returns the alarm set with the year 2000. *)
Theorem timestamp_and_alarm_registers (dt : DateTime) :
  calendar_date dt ->
  getTimestamp1 (tl (setTimestamp1 dt)) = dt /\
  getAlarm (tl (setAlarm dt)) = mkDateTime 0 (m dt) (d dt) (hh dt) (mm dt) (ss dt).
Proof.
  intros (Hy & Hm & Hd & Hh & Hmi & Hs).
  pose proof (days_in_month_le_31 (2000 + yOff dt) (m dt)) as H31.
  pose proof (bin2bcd_bound (m dt) 12 ltac:(lia) ltac:(lia)) as Bm.
  pose proof (bin2bcd_bound (d dt) 31 ltac:(lia) ltac:(lia)) as Bd.
  pose proof (bin2bcd_bound (hh dt) 23 ltac:(lia) ltac:(lia)) as Bh.
  pose proof (bin2bcd_bound (mm dt) 59 ltac:(lia) ltac:(lia)) as Bmi.
  pose proof (bin2bcd_bound (ss dt) 59 ltac:(lia) ltac:(lia)) as Bs.
  change (12 / 10) with 1 in Bm. change (31 / 10) with 3 in Bd.
  change (23 / 10) with 2 in Bh. change (59 / 10) with 5 in Bmi, Bs.
  unfold setTimestamp1, getTimestamp1, setAlarm, getAlarm. cbn [tl nth].
  unfold second, minute, hour, day, month, year.
  rewrite (to_uint16_small (2000 + yOff dt)) by lia.
  replace (2000 + yOff dt - 2000) with (yOff dt) by lia.
  rewrite (to_uint8_small (yOff dt)) by lia.
  change 31 with (Z.ones 5). change 63 with (Z.ones 6). change 127 with (Z.ones 7).
  rewrite !(masked_bcd (m dt) 5), !(masked_bcd (d dt) 6), !(masked_bcd (hh dt) 6),
    !(masked_bcd (mm dt) 7), !(masked_bcd (ss dt) 7)
    by (try lia; cbn; lia).
  rewrite (bcd_roundtrip (yOff dt)) by lia.
  unfold DateTime_of_components.
  rewrite (to_uint16_small (yOff dt + 2000)) by lia.
  destruct (Z.leb_spec 2000 (yOff dt + 2000)); [| lia].
  replace (yOff dt + 2000 - 2000) with (yOff dt) by lia.
  rewrite to_uint16_small, to_uint8_small by lia.
  split; [destruct dt; reflexivity | reflexivity].
Qed.

Lemma timestamp_and_alarm_registers_witness :
  getTimestamp1 (tl (setTimestamp1 (mkDateTime 24 2 29 23 59 58)))
  = mkDateTime 24 2 29 23 59 58 /\
  getAlarm (tl (setAlarm (mkDateTime 24 2 29 23 59 58))) = mkDateTime 0 2 29 23 59 58.
Proof.
  apply (timestamp_and_alarm_registers (mkDateTime 24 2 29 23 59 58)).
  unfold calendar_date. vm_compute. repeat split; congruence.
Defined.

(** ** Control registers *)

(** A decidable property of a byte holds of all bytes once it holds of the
    256 of them. *)
Lemma forall_byte (P : Z -> bool) :
  forallb P (map Z.of_nat (seq 0 256)) = true ->
  forall x, 0 <= x < 256 -> P x = true.
Proof.
  intros H x Hx. rewrite forallb_forall in H. apply H.
  apply in_map_iff. exists (Z.to_nat x). split; [lia |].
  apply in_seq. lia.
Qed.

(** [stop] never sets the STOP bit: with the bit clear in what it read it
    writes 0 to the register (clearing every other bit as well), and with
    the bit set it writes nothing. *)
Theorem stop_writes_zero (stopen : Z) :
  0 <= stopen < 256 ->
  (Z.testbit stopen 0 = false -> stop stopen = [[PCF85263_STOPEN; 0]]) /\
  (Z.testbit stopen 0 = true -> stop stopen = []) /\
  (forall w, In w (stop stopen) -> Z.testbit (nth 1 w 0) 0 = false).
Proof.
  intros Hs.
  assert (H : (let r := stop stopen in
               if Z.testbit stopen 0 then
                 match r with [] => true | _ => false end
               else
                 match r with
                 | [[reg; 0]] => reg =? PCF85263_STOPEN
                 | _ => false
                 end) = true).
  { revert stopen Hs. apply forall_byte. vm_compute. reflexivity. }
  cbv zeta in H.
  destruct (Z.testbit stopen 0); destruct (stop stopen) as [| [| reg [| v [| ? ?]]] [| ? ?]];
    try discriminate H; try (destruct v; discriminate H).
  - repeat split; try discriminate. intros w [].
  - destruct v; try discriminate H. apply Z.eqb_eq in H. subst reg.
    repeat split; try discriminate.
    intros w [<- | []]. reflexivity.
Qed.

Lemma stop_writes_zero_witness :
  stop 128 = [[PCF85263_STOPEN; 0]] /\ stop 129 = [].
Proof.
  split.
  - apply (stop_writes_zero 128); [lia | reflexivity].
  - apply (stop_writes_zero 129); [lia | reflexivity].
Defined.

(** [start] clears the STOP bit and keeps the seven other bits; with the
    bit already clear it writes nothing. *)
Theorem start_clears_stop_bit (stopen : Z) :
  0 <= stopen < 256 ->
  (Z.testbit stopen 0 = true -> start stopen = [[PCF85263_STOPEN; stopen - 1]]) /\
  (Z.testbit stopen 0 = false -> start stopen = []).
Proof.
  intros Hs.
  assert (H : (let r := start stopen in
               if Z.testbit stopen 0 then
                 match r with
                 | [[reg; v]] => (reg =? PCF85263_STOPEN) && (v =? stopen - 1)
                 | _ => false
                 end
               else match r with [] => true | _ => false end) = true).
  { revert stopen Hs. apply forall_byte. vm_compute. reflexivity. }
  cbv zeta in H.
  destruct (Z.testbit stopen 0); destruct (start stopen) as [| [| reg [| v [| ? ?]]] [| ? ?]];
    try discriminate H.
  - apply andb_prop in H. destruct H as [H1 H2].
    apply Z.eqb_eq in H1, H2. subst. split; [reflexivity | discriminate].
  - split; [discriminate | reflexivity].
Qed.

Lemma start_clears_stop_bit_witness :
  start 129 = [[PCF85263_STOPEN; 129 - 1]] /\ start 128 = [].
Proof.
  split.
  - apply (start_clears_stop_bit 129); [lia | reflexivity].
  - apply (start_clears_stop_bit 128); [lia | reflexivity].
Defined.

(** [setINTA] and [setINTB] overwrite all eight bits: the byte written is
    made of the eight flags alone, whatever was read from the register. *)
Theorem setINT_writes_flags
        (pulse_mode periodic_int offset_correc_int alarm1_int alarm2_int
         timestamp_int battery_switch_int watchdog_int : bool) (reg : Z) :
  0 <= reg < 256 ->
  let value :=
    bit pulse_mode 7 + bit periodic_int 6 + bit offset_correc_int 5 + bit alarm1_int 4
    + bit alarm2_int 3 + bit timestamp_int 2 + bit battery_switch_int 1
    + bit watchdog_int 0 in
  setINTA pulse_mode periodic_int offset_correc_int alarm1_int alarm2_int
          timestamp_int battery_switch_int watchdog_int reg
  = [PCF85263_INTAEN; value] /\
  setINTB pulse_mode periodic_int offset_correc_int alarm1_int alarm2_int
          timestamp_int battery_switch_int watchdog_int reg
  = [PCF85263_INTBEN; value].
Proof.
  intros Hr value. subst value.
  assert (G : forall r, 0 <= r < 256 ->
     (let v :=
        bit pulse_mode 7 + bit periodic_int 6 + bit offset_correc_int 5 + bit alarm1_int 4
        + bit alarm2_int 3 + bit timestamp_int 2 + bit battery_switch_int 1
        + bit watchdog_int 0 in
      (nth 1 (setINTA pulse_mode periodic_int offset_correc_int alarm1_int alarm2_int
                      timestamp_int battery_switch_int watchdog_int r) 0 =? v)
      && (nth 1 (setINTB pulse_mode periodic_int offset_correc_int alarm1_int alarm2_int
                         timestamp_int battery_switch_int watchdog_int r) 0 =? v)) = true).
  { destruct pulse_mode, periodic_int, offset_correc_int, alarm1_int, alarm2_int,
      timestamp_int, battery_switch_int, watchdog_int;
      apply forall_byte; vm_compute; reflexivity. }
  specialize (G reg Hr). cbv zeta in G.
  apply andb_prop in G. destruct G as [GA GB]. apply Z.eqb_eq in GA, GB.
  unfold setINTA, setINTB, write_register in *. cbv zeta in *. cbn [nth] in GA, GB.
  split; do 2 f_equal; assumption.
Qed.

Lemma setINT_writes_flags_witness :
  setINTA false false false true false true false false 255 = [PCF85263_INTAEN; 20] /\
  setINTB false false false true false true false false 255 = [PCF85263_INTBEN; 20].
Proof.
  apply (setINT_writes_flags false false false true false true false false 255). lia.
Defined.

(** [enableAlarm] sets or clears the five alarm-enable bits and keeps the
    three bits above them. *)
Theorem enableAlarm_low_bits (alrm_en : Z) :
  0 <= alrm_en < 256 ->
  enableAlarm true alrm_en = [PCF85263_ALMEN; alrm_en / 32 * 32 + 31] /\
  enableAlarm false alrm_en = [PCF85263_ALMEN; alrm_en / 32 * 32].
Proof.
  intros Hr.
  assert (G : forall r, 0 <= r < 256 ->
            ((nth 1 (enableAlarm true r) 0 =? r / 32 * 32 + 31)
             && (nth 1 (enableAlarm false r) 0 =? r / 32 * 32)) = true)
    by (apply forall_byte; vm_compute; reflexivity).
  specialize (G alrm_en Hr).
  apply andb_prop in G. destruct G as [G1 G2]. apply Z.eqb_eq in G1, G2.
  unfold enableAlarm, write_register in *. cbn [nth] in G1, G2.
  rewrite G1, G2. split; reflexivity.
Qed.

Lemma enableAlarm_low_bits_witness :
  enableAlarm true 160 = [PCF85263_ALMEN; 160 / 32 * 32 + 31] /\
  enableAlarm false 191 = [PCF85263_ALMEN; 191 / 32 * 32].
Proof.
  split.
  - apply (enableAlarm_low_bits 160). lia.
  - apply (enableAlarm_low_bits 191). lia.
Defined.

(** ** Accessors and constructors *)

(** The twelve-hour accessors: [twelveHour()] lies in 1..12, together with
    [isPM()] it determines the hour, and both agree with what [toString]
    computes for itself when the buffer holds an AP or ap token. *)
Theorem twelveHour_isPM (dt : DateTime) :
  0 <= hh dt < 24 ->
  1 <= twelveHour dt <= 12 /\
  twelveHour dt = hour12 (hh dt) /\
  hh dt = twelveHour dt mod 12 + 12 * isPM dt /\
  hourReformatted_of dt true = twelveHour dt /\
  (isPM_of dt true = true <-> isPM dt = 1).
Proof.
  intros Hh. unfold twelveHour, isPM, hourReformatted_of, isPM_of, hour12, to_uint8.
  destruct (Z.eqb_spec (hh dt) 0) as [E0 | E0]; cbn [orb].
  - rewrite E0. cbn. repeat split; try lia; try discriminate.
  - destruct (Z.eqb_spec (hh dt) 12) as [E12 | E12].
    + rewrite E12. cbn. repeat split; try lia; reflexivity.
    + destruct (Z.ltb_spec 12 (hh dt)); destruct (Z.ltb_spec (hh dt) 12);
        destruct (Z.leb_spec 12 (hh dt)); try lia;
        (repeat split; try discriminate; try reflexivity;
         Z.div_mod_to_equations; lia).
Qed.

Lemma twelveHour_isPM_witness :
  1 <= twelveHour (mkDateTime 20 4 16 18 34 56) <= 12 /\
  twelveHour (mkDateTime 20 4 16 18 34 56) = hour12 18 /\
  18 = twelveHour (mkDateTime 20 4 16 18 34 56) mod 12
       + 12 * isPM (mkDateTime 20 4 16 18 34 56) /\
  hourReformatted_of (mkDateTime 20 4 16 18 34 56) true
  = twelveHour (mkDateTime 20 4 16 18 34 56) /\
  (isPM_of (mkDateTime 20 4 16 18 34 56) true = true
   <-> isPM (mkDateTime 20 4 16 18 34 56) = 1).
Proof. apply (twelveHour_isPM (mkDateTime 20 4 16 18 34 56)). cbn. lia. Defined.

(** The year may be given in full or as an offset: both build the same
    DateTime. *)
Theorem components_year_forms (y mo dy h mi s : Z) :
  0 <= y < 100 ->
  DateTime_of_components (2000 + y) mo dy h mi s = DateTime_of_components y mo dy h mi s /\
  year (DateTime_of_components y mo dy h mi s) = 2000 + y.
Proof.
  intros Hy. unfold DateTime_of_components, year. cbn [yOff].
  destruct (Z.leb_spec 2000 (2000 + y)); [| lia].
  destruct (Z.leb_spec 2000 y); [lia |].
  replace (2000 + y - 2000) with y by lia.
  rewrite (to_uint16_small y) by lia. rewrite (to_uint8_small y) by lia.
  split; [reflexivity | apply to_uint16_small; lia].
Qed.

Lemma components_year_forms_witness :
  DateTime_of_components (2000 + 24) 2 29 0 0 0 = DateTime_of_components 24 2 29 0 0 0 /\
  year (DateTime_of_components 24 2 29 0 0 0) = 2000 + 24.
Proof. apply (components_year_forms 24 2 29 0 0 0). lia. Defined.

Section SecondsFacts.
Variable rom : Z -> Z.

(** The year the seconds constructor stops at brackets the day count. *)
Lemma DateTime_of_unixtime_year t :
  let days := to_uint32 (t - SECONDS_FROM_1970_TO_2000) / 86400 in
  let y := yOff (DateTime_of_unixtime rom t) in
  0 <= y /\ days_before_year y <= days < days_before_year (y + 1).
Proof.
  cbv zeta. unfold DateTime_of_unixtime.
  set (t0 := to_uint32 (t - SECONDS_FROM_1970_TO_2000)).
  pose proof (to_uint32_range (t - SECONDS_FROM_1970_TO_2000)) as Ht0. fold t0 in Ht0.
  assert (Ed : t0 / 60 / 60 / 24 = t0 / 86400)
    by (rewrite !Z.div_div by lia; reflexivity).
  rewrite Ed.
  assert (Hdays : 0 <= t0 / 86400 < 49711) by (Z.div_mod_to_equations; lia).
  rewrite (to_uint16_small (t0 / 86400)) by lia.
  pose proof (year_loop_post 0 (t0 / 86400) ltac:(lia) ltac:(lia)) as Hyl.
  pose proof (year_loop_sum 0 (t0 / 86400) ltac:(lia) ltac:(lia) ltac:(lia)) as Hsum.
  destruct (year_loop 0 (t0 / 86400)) as [[y' r] lp].
  destruct Hyl as (-> & Hr & Hy'). destruct Hsum as [Hsum _].
  change (days_before_year 0) with 0 in Hsum.
  destruct (month_loop rom 11 (leap_of y') 1 r) as [mo' r']. cbn [yOff].
  rewrite days_before_year_succ by lia. lia.
Qed.

End SecondsFacts.

(** [unixtime()] is a left inverse of the seconds constructor on all of
    [uint32_t], also where the result lies outside 2000..2099. *)
Theorem unixtime_DateTime_of_unixtime (rom : Z -> Z) (t : Z) :
  0 <= t < 4294967296 -> unixtime rom (DateTime_of_unixtime rom t) = t.
Proof. apply unixtime_of_unixtime. Qed.

Lemma unixtime_DateTime_of_unixtime_witness :
  unixtime (fun _ => 0) (DateTime_of_unixtime (fun _ => 0) 4294967295) = 4294967295.
Proof. apply (unixtime_DateTime_of_unixtime (fun _ => 0) 4294967295). lia. Defined.

(** The seconds constructor always yields a month in 1..12, a day the month
    has under the four-year leap rule and a time of day; the result is valid
    exactly for the seconds from 2000-01-01 00:00:00 to 2099-12-31 23:59:59. *)
Theorem DateTime_of_unixtime_valid_range (rom : Z -> Z) (t : Z) :
  0 <= t < 4294967296 ->
  let dt := DateTime_of_unixtime rom t in
  (1 <= m dt <= 12 /\ 1 <= d dt <= month_length (leap_of (yOff dt)) (m dt) /\
   0 <= hh dt < 24 /\ 0 <= mm dt < 60 /\ 0 <= ss dt < 60) /\
  (isValid rom dt = true <-> 946684800 <= t < 4102444800).
Proof.
  intros Ht dt.
  pose proof (DateTime_of_unixtime_post rom t) as Hp. cbv zeta in Hp. fold dt in Hp.
  destruct Hp as (Hy0 & Hrest). split; [exact Hrest |].
  pose proof (DateTime_of_unixtime_year rom t) as Hyr. cbv zeta in Hyr. fold dt in Hyr.
  destruct Hyr as (_ & Hlo & Hhi).
  assert (Hv : isValid rom dt = true <-> yOff dt < 100).
  { assert (E : DateTime_of_unixtime rom (unixtime rom dt) = dt)
      by (unfold dt; rewrite unixtime_of_unixtime by exact Ht; reflexivity).
    unfold isValid. rewrite E, !Z.eqb_refl. cbn [andb].
    destruct (Z.leb_spec 100 (yOff dt)); split; intros;
      try discriminate; try lia; reflexivity. }
  rewrite Hv.
  assert (H100 : days_before_year 100 = 36525) by reflexivity.
  assert (Hd : yOff dt < 100 <->
               to_uint32 (t - SECONDS_FROM_1970_TO_2000) / 86400 < 36525).
  { split; intros H.
    - pose proof (days_before_year_mono (yOff dt + 1) 100 ltac:(lia)). lia.
    - destruct (Z.lt_ge_cases (yOff dt) 100) as [| Hge]; [assumption |].
      pose proof (days_before_year_mono 100 (yOff dt) ltac:(lia)). lia. }
  rewrite Hd. unfold to_uint32, SECONDS_FROM_1970_TO_2000.
  destruct (Z.lt_ge_cases t 946684800).
  - replace ((t - 946684800) mod 4294967296) with (t + 3348282496)
      by (apply (Z.mod_unique_pos _ _ (-1)); lia).
    split; intros; [exfalso; Z.div_mod_to_equations |]; lia.
  - rewrite Z.mod_small by lia.
    split; intros; Z.div_mod_to_equations; lia.
Qed.

Lemma DateTime_of_unixtime_valid_range_witness :
  isValid (fun _ => 0) (DateTime_of_unixtime (fun _ => 0) 4102444799) = true.
Proof.
  destruct (DateTime_of_unixtime_valid_range (fun _ => 0) 4102444799 ltac:(lia)) as [_ H].
  apply H. lia.
Defined.

(** [secondstime()] counts from 2000-01-01: on a calendar date it is
    [unixtime()] less the epoch offset, it stays below the seconds of a
    hundred years, and [DateTime(SECONDS_FROM_1970_TO_2000 + value)] gives
    the DateTime back. *)
Theorem secondstime_roundtrip (rom : Z -> Z) (dt : DateTime) :
  calendar_date dt ->
  unixtime rom dt = secondstime rom dt + SECONDS_FROM_1970_TO_2000 /\
  0 <= secondstime rom dt < 3155760000 /\
  DateTime_of_unixtime rom (SECONDS_FROM_1970_TO_2000 + secondstime rom dt) = dt.
Proof.
  intros Hc. apply calendar_date_canonical in Hc.
  pose proof (unixtime_canonical rom dt Hc) as Hu.
  pose proof (roundtrip_canonical rom dt Hc) as Hrt.
  pose proof (day_number_range dt Hc) as [_ Hr].
  assert (Es : secondstime rom dt
               = ((day_number dt * 24 + hh dt) * 60 + mm dt) * 60 + ss dt).
  { unfold secondstime. rewrite date2days_canonical by exact Hc.
    destruct Hc as (_ & _ & _ & Hh & Hmi & Hs).
    apply time2ulong_small; assumption. }
  destruct Hc as (_ & _ & _ & Hh & Hmi & Hs).
  split; [rewrite Hu, Es; lia |].
  split; [rewrite Es; lia |].
  replace (SECONDS_FROM_1970_TO_2000 + secondstime rom dt) with (unixtime rom dt)
    by (rewrite Hu, Es; lia).
  exact Hrt.
Qed.

Lemma secondstime_roundtrip_witness :
  let dt := mkDateTime 20 4 16 18 34 56 in
  unixtime (fun _ => 0) dt = secondstime (fun _ => 0) dt + SECONDS_FROM_1970_TO_2000 /\
  0 <= secondstime (fun _ => 0) dt < 3155760000 /\
  DateTime_of_unixtime (fun _ => 0)
    (SECONDS_FROM_1970_TO_2000 + secondstime (fun _ => 0) dt) = dt.
Proof.
  apply (secondstime_roundtrip (fun _ => 0) (mkDateTime 20 4 16 18 34 56)).
  unfold calendar_date. vm_compute. repeat split; congruence.
Defined.

(** [dayOfTheWeek()] is always one of 0..6, so that [toString] never reads
    outside [day_names]; on a calendar date it does not depend on the width
    of [int] and is the count of whole days since 2000-01-01, a Saturday,
    taken modulo 7. *)
Theorem dayOfTheWeek_range_and_value (rom : Z -> Z) (tg : target) (dt : DateTime) :
  0 <= dayOfTheWeek rom tg dt <= 6 /\
  (calendar_date dt ->
   dayOfTheWeek rom tg dt = ((unixtime rom dt - 946684800) / 86400 + 6) mod 7).
Proof.
  split.
  - unfold dayOfTheWeek.
    set (x := add_promoted tg (date2days rom (yOff dt) (m dt) (d dt)) 6).
    pose proof (Z.mod_pos_bound x 7 ltac:(lia)).
    rewrite to_uint8_small by lia. lia.
  - intros Hc. apply calendar_date_canonical in Hc.
    pose proof (day_number_range dt Hc) as [_ Hr].
    rewrite unixtime_canonical by exact Hc.
    unfold dayOfTheWeek. rewrite date2days_canonical by exact Hc.
    destruct Hc as (_ & _ & _ & Hh & Hmi & Hs).
    assert (Ea : add_promoted tg (day_number dt) 6 = day_number dt + 6)
      by (destruct tg; cbn [add_promoted]; [apply to_uint16_small; lia | reflexivity]).
    rewrite Ea.
    pose proof (Z.mod_pos_bound (day_number dt + 6) 7 ltac:(lia)).
    rewrite to_uint8_small by lia.
    replace ((SECONDS_FROM_1970_TO_2000
              + ((day_number dt * 24 + hh dt) * 60 + mm dt) * 60 + ss dt - 946684800)
             / 86400) with (day_number dt).
    + reflexivity.
    + apply (Z.div_unique_pos _ _ _ (hh dt * 3600 + mm dt * 60 + ss dt));
        unfold SECONDS_FROM_1970_TO_2000; lia.
Qed.

Lemma dayOfTheWeek_range_and_value_witness :
  dayOfTheWeek (fun _ => 0) Int16 (mkDateTime 20 4 16 18 34 56)
  = ((unixtime (fun _ => 0) (mkDateTime 20 4 16 18 34 56) - 946684800) / 86400 + 6) mod 7.
Proof.
  apply (dayOfTheWeek_range_and_value (fun _ => 0) Int16 (mkDateTime 20 4 16 18 34 56)).
  unfold calendar_date. vm_compute. repeat split; congruence.
Defined.

(** ** Comparisons and arithmetic *)

Section ComparisonFacts.
Variable rom : Z -> Z.

Lemma unixtime_injective a b :
  canonical a -> canonical b -> unixtime rom a = unixtime rom b -> a = b.
Proof.
  intros Ha Hb E.
  rewrite <- (roundtrip_canonical rom a Ha), <- (roundtrip_canonical rom b Hb), E.
  reflexivity.
Qed.

Lemma operator_lt_unixtime a b :
  canonical a -> canonical b ->
  (operator_lt a b = true <-> unixtime rom a < unixtime rom b).
Proof.
  intros Ha Hb.
  assert (Hyb : 0 <= yOff b < 63536) by (destruct Hb as (? & _); lia).
  rewrite (operator_lt_earlier a b Hyb).
  split; [apply earlier_unixtime; assumption |].
  intros Hlt. destruct (earlier_trichotomy a b) as [T | [T | T]]; [exact T | |].
  - subst b. lia.
  - pose proof (earlier_unixtime rom b a Hb Ha T). lia.
Qed.

Lemma operator_eq_unixtime a b :
  canonical a -> canonical b ->
  (operator_eq a b = true <-> unixtime rom a = unixtime rom b).
Proof.
  intros Ha Hb.
  assert (Hyb : 0 <= yOff b < 63536) by (destruct Hb as (? & _); lia).
  rewrite (operator_eq_same a b Hyb).
  split; [intros ->; reflexivity | apply unixtime_injective; assumption].
Qed.

End ComparisonFacts.

(** On valid DateTimes [<=], [>=] and [!=] compare [unixtime()], and [<=]
    is [<] or [==]. *)
Theorem derived_comparisons (rom : Z -> Z) (a b : DateTime) :
  isValid rom a = true -> isValid rom b = true ->
  (operator_le a b = true <-> unixtime rom a <= unixtime rom b) /\
  (operator_ge a b = true <-> unixtime rom b <= unixtime rom a) /\
  (operator_ne a b = true <-> unixtime rom a <> unixtime rom b) /\
  operator_le a b = operator_lt a b || operator_eq a b.
Proof.
  intros Va Vb. apply isValid_inv in Va, Vb.
  pose proof (operator_lt_unixtime rom a b Va Vb) as Hlt.
  pose proof (operator_lt_unixtime rom b a Vb Va) as Hgt.
  pose proof (operator_eq_unixtime rom a b Va Vb) as Heq.
  unfold operator_le, operator_ge, operator_ne, operator_gt.
  destruct (operator_lt a b), (operator_lt b a), (operator_eq a b); cbn [negb orb];
    repeat split; intros; try discriminate; try reflexivity; try lia;
    try (exfalso; intuition lia); try (exfalso; intuition congruence).
Qed.

Lemma derived_comparisons_witness :
  operator_le (mkDateTime 20 2 29 23 59 59) (mkDateTime 20 3 1 0 0 0) = true /\
  operator_ne (mkDateTime 20 2 29 23 59 59) (mkDateTime 20 3 1 0 0 0) = true.
Proof.
  destruct (derived_comparisons (fun _ => 0)
              (mkDateTime 20 2 29 23 59 59) (mkDateTime 20 3 1 0 0 0) eq_refl eq_refl)
    as (Hle & _ & Hne & _).
  split; [apply Hle | apply Hne]; vm_compute; congruence.
Defined.

Lemma to_uint32_idem_add a b : to_uint32 (to_uint32 a + b) = to_uint32 (a + b).
Proof. unfold to_uint32. apply Zplus_mod_idemp_l. Qed.

Lemma to_uint32_idem_sub a b : to_uint32 (to_uint32 a - b) = to_uint32 (a - b).
Proof. unfold to_uint32. apply Zminus_mod_idemp_l. Qed.

Lemma to_uint32_to_int32 x : to_uint32 (to_int32 x) = to_uint32 x.
Proof.
  unfold to_uint32, to_int32.
  rewrite Zminus_mod_idemp_l.
  f_equal. lia.
Qed.

Lemma to_uint32_add_int32 a x : to_uint32 (a + to_int32 x) = to_uint32 (a + x).
Proof.
  rewrite (Z.add_comm a (to_int32 x)), (Z.add_comm a x).
  rewrite <- (to_uint32_idem_add (to_int32 x)), to_uint32_to_int32.
  apply to_uint32_idem_add.
Qed.

(** Subtracting a span undoes adding it, and adding it undoes subtracting
    it, for every valid DateTime and every span, also when the intermediate
    DateTime falls outside 2000..2099; adding [a - b] to [b] gives a valid
    [a] back whatever [b] is. *)
Theorem plus_minus_inverse (rom : Z -> Z) (dt b : DateTime) (span : TimeSpan) :
  isValid rom dt = true ->
  operator_minus rom (operator_plus rom dt span) span = dt /\
  operator_plus rom (operator_minus rom dt span) span = dt /\
  operator_plus rom b (operator_diff rom dt b) = dt.
Proof.
  intros V. apply isValid_inv in V.
  pose proof (roundtrip_canonical rom dt V) as Hrt.
  pose proof (unixtime_range rom dt) as Hu.
  pose proof (unixtime_range rom b) as Hub.
  unfold operator_minus, operator_plus, operator_diff. cbn [_seconds].
  rewrite !unixtime_of_unixtime by apply to_uint32_range.
  split; [| split].
  - rewrite to_uint32_idem_sub.
    replace (unixtime rom dt + _seconds span - _seconds span) with (unixtime rom dt) by lia.
    rewrite to_uint32_small by lia. exact Hrt.
  - rewrite to_uint32_idem_add.
    replace (unixtime rom dt - _seconds span + _seconds span) with (unixtime rom dt) by lia.
    rewrite to_uint32_small by lia. exact Hrt.
  - rewrite to_uint32_add_int32.
    rewrite (Z.add_comm (unixtime rom b)), to_uint32_idem_add.
    replace (unixtime rom dt - unixtime rom b + unixtime rom b)
      with (unixtime rom dt) by lia.
    rewrite to_uint32_small by lia. exact Hrt.
Qed.

Lemma plus_minus_inverse_witness :
  let dt := mkDateTime 99 12 31 23 59 59 in
  let span := TimeSpan.of_components 400 0 0 1 in
  operator_minus (fun _ => 0) (operator_plus (fun _ => 0) dt span) span = dt.
Proof.
  cbv zeta.
  apply (plus_minus_inverse (fun _ => 0) (mkDateTime 99 12 31 23 59 59)
           (mkDateTime 0 1 1 0 0 0) (TimeSpan.of_components 400 0 0 1)).
  reflexivity.
Defined.

(** Adding two spans one after the other is adding their sum, for every
    DateTime, when the sum of the spans fits [int32_t]. *)
Theorem plus_plus (rom : Z -> Z) (dt : DateTime) (s1 s2 : TimeSpan) :
  -2147483648 <= _seconds s1 + _seconds s2 < 2147483648 ->
  TimeSpan.totalseconds (TimeSpan.plus s1 s2) = _seconds s1 + _seconds s2 /\
  operator_plus rom (operator_plus rom dt s1) s2
  = operator_plus rom dt (TimeSpan.plus s1 s2).
Proof.
  intros Hr. unfold TimeSpan.plus, TimeSpan.totalseconds, operator_plus. cbn [_seconds].
  rewrite to_int32_small by exact Hr. split; [reflexivity |].
  rewrite unixtime_of_unixtime by apply to_uint32_range.
  rewrite to_uint32_idem_add. f_equal. f_equal. lia.
Qed.

Lemma plus_plus_witness :
  let dt := mkDateTime 20 4 16 18 34 56 in
  operator_plus (fun _ => 0) (operator_plus (fun _ => 0) dt (TimeSpan.of_seconds 86400))
                (TimeSpan.of_seconds (-60))
  = operator_plus (fun _ => 0) dt
      (TimeSpan.plus (TimeSpan.of_seconds 86400) (TimeSpan.of_seconds (-60))).
Proof.
  cbv zeta.
  apply (plus_plus (fun _ => 0) (mkDateTime 20 4 16 18 34 56)
           (TimeSpan.of_seconds 86400) (TimeSpan.of_seconds (-60))).
  cbn. lia.
Defined.

(** ** Text *)

Lemma strlen_cons c s : c <> NUL -> strlen (c :: s) = S (strlen s).
Proof.
  intros Hc. cbn [strlen]. destruct (Ascii.eqb_spec c NUL); [contradiction | reflexivity].
Qed.

Lemma print_02d_digits x :
  0 <= x < 100 -> print_02d x = [digit (x / 10); digit (x mod 10)].
Proof.
  intros Hx. unfold print_02d, print_u, digit.
  destruct (Z.ltb_spec x 10).
  - rewrite Z.div_small, Z.mod_small by lia. reflexivity.
  - destruct (Z.ltb_spec x 100); [reflexivity | lia].
Qed.

Lemma print_u_year y :
  0 <= y < 100 ->
  print_u (2000 + y) = ["2"%char; "0"%char; digit (y / 10); digit (y mod 10)].
Proof.
  intros Hy. unfold print_u, digit.
  destruct (Z.ltb_spec (2000 + y) 10); [lia |].
  destruct (Z.ltb_spec (2000 + y) 100); [lia |].
  destruct (Z.ltb_spec (2000 + y) 1000); [lia |].
  replace ((2000 + y) / 1000) with 2 by (Z.div_mod_to_equations; lia).
  replace ((2000 + y) / 100 mod 10) with 0 by (Z.div_mod_to_equations; lia).
  replace ((2000 + y) / 10 mod 10) with (y / 10) by (Z.div_mod_to_equations; lia).
  replace ((2000 + y) mod 10) with (y mod 10) by (Z.div_mod_to_equations; lia).
  reflexivity.
Qed.

Lemma conv2d_two_digits x rest :
  0 <= x < 100 -> conv2d (digit (x / 10) :: digit (x mod 10) :: rest) = x.
Proof.
  intros Hx. unfold digit. rewrite conv2d_digits by (Z.div_mod_to_equations; lia).
  Z.div_mod_to_equations; lia.
Qed.

Lemma digit_nonzero x : 0 <= x < 100 -> digit (x / 10) <> NUL /\ digit (x mod 10) <> NUL.
Proof.
  intros Hx. split; apply digit_not_NUL; Z.div_mod_to_equations; lia.
Qed.

(** The strings [timestamp] builds for a date of the calendar. *)
Lemma timestamp_FULL_calendar dt :
  calendar_date dt ->
  timestamp TIMESTAMP_FULL dt
  = ["2"%char; "0"%char; digit (yOff dt / 10); digit (yOff dt mod 10); "-"%char;
     digit (m dt / 10); digit (m dt mod 10); "-"%char;
     digit (d dt / 10); digit (d dt mod 10); "T"%char;
     digit (hh dt / 10); digit (hh dt mod 10); ":"%char;
     digit (mm dt / 10); digit (mm dt mod 10); ":"%char;
     digit (ss dt / 10); digit (ss dt mod 10)].
Proof.
  intros (Hy & Hm & Hd & Hh & Hmi & Hs).
  pose proof (days_in_month_le_31 (2000 + yOff dt) (m dt)).
  unfold timestamp.
  rewrite print_u_year, !print_02d_digits by lia. reflexivity.
Qed.

Lemma timestamp_DATE_calendar dt :
  calendar_date dt ->
  timestamp TIMESTAMP_DATE dt
  = ["2"%char; "0"%char; digit (yOff dt / 10); digit (yOff dt mod 10); "-"%char;
     digit (m dt / 10); digit (m dt mod 10); "-"%char;
     digit (d dt / 10); digit (d dt mod 10)].
Proof.
  intros (Hy & Hm & Hd & Hh & Hmi & Hs).
  pose proof (days_in_month_le_31 (2000 + yOff dt) (m dt)).
  unfold timestamp.
  rewrite print_u_year, !print_02d_digits by lia. reflexivity.
Qed.

Ltac strlen_digits :=
  repeat (rewrite strlen_cons
            by (first [ discriminate
                      | apply digit_nonzero; lia ]));
  cbn [strlen].

(** The ISO-8601 constructor reads back what [timestamp(TIMESTAMP_FULL)]
    writes, a string of 19 characters, for every date of the calendar; from
    the 10 characters of [timestamp(TIMESTAMP_DATE)] it builds midnight of
    that day. *)
Theorem iso8601_of_timestamp (dt : DateTime) :
  calendar_date dt ->
  length (timestamp TIMESTAMP_FULL dt) = 19%nat /\
  DateTime_of_iso8601 (timestamp TIMESTAMP_FULL dt) = dt /\
  DateTime_of_iso8601 (timestamp TIMESTAMP_DATE dt)
  = mkDateTime (yOff dt) (m dt) (d dt) 0 0 0.
Proof.
  intros Hc.
  rewrite (timestamp_FULL_calendar dt Hc), (timestamp_DATE_calendar dt Hc).
  destruct Hc as (Hy & Hm & Hd & Hh & Hmi & Hs).
  pose proof (days_in_month_le_31 (2000 + yOff dt) (m dt)) as H31.
  split; [reflexivity |]. split.
  - unfold DateTime_of_iso8601. cbv zeta.
    rewrite !iso8601_field_input by (strlen_digits; lia).
    cbn [skipn]. rewrite !conv2d_two_digits by lia.
    destruct dt; reflexivity.
  - unfold DateTime_of_iso8601. cbv zeta.
    rewrite (iso8601_field_input _ 2), (iso8601_field_input _ 5), (iso8601_field_input _ 8)
      by (strlen_digits; lia).
    rewrite (iso8601_field_template _ 11), (iso8601_field_template _ 14),
      (iso8601_field_template _ 17)
      by (strlen_digits; lia).
    cbn [skipn]. rewrite !conv2d_two_digits by lia.
    reflexivity.
Qed.

Lemma iso8601_of_timestamp_witness :
  DateTime_of_iso8601 (timestamp TIMESTAMP_FULL (mkDateTime 24 2 29 7 5 9))
  = mkDateTime 24 2 29 7 5 9.
Proof.
  apply (iso8601_of_timestamp (mkDateTime 24 2 29 7 5 9)).
  unfold calendar_date. vm_compute. repeat split; congruence.
Defined.

Lemma conv2d_nondigit (c : ascii) (b : Z) (rest : list ascii) :
  is_digit c = false -> 0 <= b <= 9 ->
  conv2d (c :: digit b :: rest) = b.
Proof.
  intros Hc Hb. unfold conv2d. cbn [rd nth].
  unfold is_digit in Hc. rewrite Hc.
  unfold digit. change (char_code "0"%char) with 48.
  rewrite char_code_char_of by lia.
  replace (10 * 0 + (48 + b) - 48) with b by lia. apply to_uint8_small. lia.
Qed.

(** A character that is no decimal digit in the tens place counts as zero:
    this is how the day of a compiler date such as "Apr  6 2020" is read. *)
Theorem conv2d_padded (c : ascii) (b : Z) (rest : list ascii) :
  is_digit c = false -> 0 <= b <= 9 ->
  conv2d (c :: digit b :: rest) = b.
Proof. apply conv2d_nondigit. Qed.

Lemma conv2d_padded_witness : conv2d (" "%char :: digit 6 :: []) = 6.
Proof. apply (conv2d_padded " "%char 6 []); [reflexivity | lia]. Defined.

Lemma month_of_name_ext u p q :
  rd p 0 = rd q 0 -> rd p 1 = rd q 1 -> rd p 2 = rd q 2 ->
  month_of_name u p = month_of_name u q.
Proof. intros E0 E1 E2. unfold month_of_name. rewrite E0, E1, E2. reflexivity. Qed.

(** The build-time constructor reads back the month abbreviations that
    [toString] writes, with a zero-padded or a space-padded day, and takes
    the last two digits of the year; a date whose first letter begins no
    month name leaves the month as it was. *)
Theorem DateTime_of_build_fields (u mo dy y h mi s : Z) (pad : bool) :
  1 <= mo <= 12 -> 0 <= dy < 100 -> 0 <= y < 100 ->
  0 <= h < 100 -> 0 <= mi < 100 -> 0 <= s < 100 ->
  (pad = true -> dy < 10) ->
  let day_text := if pad then [" "%char; digit dy] else print_02d dy in
  let date := month_abbrev mo ++ [" "%char] ++ day_text ++ [" "%char] ++ print_u (2000 + y) in
  let time := print_02d h ++ [":"%char] ++ print_02d mi ++ [":"%char] ++ print_02d s in
  DateTime_of_build u date time = mkDateTime y mo dy h mi s.
Proof.
  intros Hmo Hdy Hy Hh Hmi Hs Hpad day_text date time. subst date time day_text.
  rewrite print_u_year, !print_02d_digits by lia.
  assert (Hday : exists c1 c2,
             (if pad then [" "%char; digit dy] else [digit (dy / 10); digit (dy mod 10)])
             = [c1; c2] /\ forall rest, conv2d (c1 :: c2 :: rest) = dy).
  { destruct pad.
    - exists " "%char, (digit dy). split; [reflexivity |].
      intros rest. apply conv2d_nondigit; [reflexivity | specialize (Hpad eq_refl); lia].
    - exists (digit (dy / 10)), (digit (dy mod 10)). split; [reflexivity |].
      intros rest. apply conv2d_two_digits. lia. }
  destruct Hday as (c1 & c2 & -> & Hday).
  unfold DateTime_of_build. cbv zeta.
  month_cases mo;
    (f_equal; cbn;
     first [ apply conv2d_two_digits; lia | apply Hday | reflexivity ]).
Qed.

Lemma DateTime_of_build_fields_witness :
  DateTime_of_build 0 (list_ascii_of_string "Apr  6 2020") (list_ascii_of_string "18:34:56")
  = mkDateTime 20 4 6 18 34 56.
Proof.
  apply (DateTime_of_build_fields 0 4 6 20 18 34 56 true); lia.
Defined.



(** The constructor for strings in program memory agrees with the one for
    strings in RAM on every date of at least 11 and time of at least 8
    characters. *)
Theorem DateTime_of_build_P_agrees (u : Z) (date time : list ascii) :
  (11 <= length date)%nat -> (8 <= length time)%nat ->
  DateTime_of_build_P u date time = DateTime_of_build u date time.
Proof.
  intros Hd Ht.
  assert (Rd : forall j, (j < 11)%nat -> rd (firstn 11 date) j = rd date j).
  { intros j Hj. unfold rd. rewrite nth_firstn.
    destruct (Nat.ltb_spec j 11); [reflexivity | lia]. }
  assert (Rt : forall j, (j < 8)%nat -> rd (memcpy (firstn 11 date) time 8) j = rd time j).
  { intros j Hj. rewrite rd_memcpy by (rewrite ?length_firstn; lia).
    destruct (Nat.ltb_spec j 8); [reflexivity | lia]. }
  unfold DateTime_of_build_P, DateTime_of_build. cbv zeta.
  f_equal.
  - apply conv2d_ext; rewrite !rd_skipn; apply Rd; lia.
  - apply month_of_name_ext; apply Rd; lia.
  - apply conv2d_ext; rewrite !rd_skipn; apply Rd; lia.
  - apply conv2d_ext; apply Rt; lia.
  - apply conv2d_ext; rewrite !rd_skipn; apply Rt; lia.
  - apply conv2d_ext; rewrite !rd_skipn; apply Rt; lia.
Qed.

Lemma DateTime_of_build_P_agrees_witness :
  DateTime_of_build_P 0 (list_ascii_of_string "Apr 16 2020") (list_ascii_of_string "18:34:56")
  = DateTime_of_build 0 (list_ascii_of_string "Apr 16 2020") (list_ascii_of_string "18:34:56").
Proof.
  apply (DateTime_of_build_P_agrees 0 (list_ascii_of_string "Apr 16 2020")
           (list_ascii_of_string "18:34:56")); cbn; lia.
Defined.

(** ** Formatting: what the scan keeps *)

Lemma strlen_wr buffer k c :
  rd buffer k <> NUL -> c <> NUL -> strlen (wr buffer k c) = strlen buffer.
Proof.
  unfold rd. revert k; induction buffer as [| x rest IH]; intros [| k] Hk Hc;
    cbn [wr strlen nth] in *; try reflexivity.
  - destruct (Ascii.eqb_spec c NUL); [contradiction |].
    destruct (Ascii.eqb_spec x NUL); [contradiction | reflexivity].
  - destruct (x =? NUL)%char; [reflexivity |]. rewrite IH by assumption. reflexivity.
Qed.

Lemma day_names_not_NUL w k :
  0 <= w <= 6 -> 0 <= k <= 2 -> day_names_read (3 * w + k) <> NUL.
Proof.
  intros Hw Hk.
  assert (Ew : w = 0 \/ w = 1 \/ w = 2 \/ w = 3 \/ w = 4 \/ w = 5 \/ w = 6) by lia.
  assert (Ek : k = 0 \/ k = 1 \/ k = 2) by lia.
  repeat (destruct Ew as [Ew | Ew]; [subst w | ]); [.. | subst w];
    repeat (destruct Ek as [Ek | Ek]; [subst k | ]); try subst k; discriminate.
Qed.

Lemma month_names_not_NUL oob mo k :
  1 <= mo <= 12 -> 0 <= k <= 2 -> month_names_read oob (3 * (mo - 1) + k) <> NUL.
Proof.
  intros Hmo Hk.
  assert (Ek : k = 0 \/ k = 1 \/ k = 2) by lia.
  month_cases mo;
    repeat (destruct Ek as [Ek | Ek]; [subst k | ]); try subst k; discriminate.
Qed.

Lemma dayOfTheWeek_range rom tg dt : 0 <= dayOfTheWeek rom tg dt <= 6.
Proof.
  unfold dayOfTheWeek.
  set (x := add_promoted tg (date2days rom (yOff dt) (m dt) (d dt)) 6).
  pose proof (Z.mod_pos_bound x 7 ltac:(lia)).
  rewrite to_uint8_small by lia. lia.
Qed.

Lemma digit_tens_not_NUL x : 0 <= x < 256 -> digit (x / 10) <> NUL.
Proof. intros Hx. apply digit_not_NUL. Z.div_mod_to_equations; lia. Qed.

Lemma digit_units_not_NUL x : digit (x mod 10) <> NUL.
Proof. apply digit_not_NUL. pose proof (Z.mod_pos_bound x 10 ltac:(lia)). lia. Qed.

Section KeptByScan.
Variable rom : Z -> Z.
Variable names_oob : Z -> ascii.
Variable tg : target.
Variable dt : DateTime.
Variable apTag : bool.
Variable hr : Z.
Variable pm : bool.

(** The stored fields are bytes and the month is one of the twelve. *)
Hypothesis Hbytes :
  0 <= yOff dt < 256 /\ 1 <= m dt <= 12 /\ 0 <= d dt < 256 /\
  0 <= hh dt < 256 /\ 0 <= mm dt < 256 /\ 0 <= ss dt < 256.
Hypothesis Hhr : 0 <= hr < 256.

Local Abbreviation body := (toString_body rom names_oob tg dt apTag hr pm).
Local Abbreviation loop := (toString_loop rom names_oob tg dt apTag hr pm).

(** Split the tests of a statement into the characters they found. *)
Ltac token_tests :=
  repeat match goal with
         | |- context [(rd ?b ?i =? ?c)%char] =>
             destruct (Ascii.eqb_spec (rd b i) c); cbn [andb]
         end.

(** A character written over a token character keeps the string's length. *)
Ltac kept_length :=
  repeat (rewrite strlen_wr;
          [ | solve [ rewrite ?rd_wr_other by lia;
                      match goal with
                      | E : rd ?b ?k = _ |- rd ?b ?k <> NUL => rewrite E; discriminate
                      end ]
            | solve [ discriminate
                    | apply digit_tens_not_NUL; lia
                    | apply digit_units_not_NUL
                    | apply digit_not_NUL;
                      pose proof (Z.mod_pos_bound (yOff dt / 10) 10 ltac:(lia)); lia
                    | apply day_names_not_NUL; [apply dayOfTheWeek_range | lia]
                    | apply month_names_not_NUL; lia
                    | replace (3 * dayOfTheWeek rom tg dt)
                        with (3 * dayOfTheWeek rom tg dt + 0) by lia;
                      apply day_names_not_NUL; [apply dayOfTheWeek_range | lia]
                    | replace (3 * (m dt - 1)) with (3 * (m dt - 1) + 0) by lia;
                      apply month_names_not_NUL; lia ] ]);
  reflexivity.

Lemma strlen_fmt_hh i b : strlen (fmt_hh dt apTag hr i b) = strlen b.
Proof using Hbytes Hhr.
  unfold fmt_hh. token_tests; try reflexivity.
  destruct (negb apTag); cbv zeta; kept_length.
Qed.

Lemma strlen_fmt_mm i b : strlen (fmt_mm dt i b) = strlen b.
Proof using Hbytes. unfold fmt_mm. token_tests; try reflexivity. cbv zeta; kept_length. Qed.

Lemma strlen_fmt_ss i b : strlen (fmt_ss dt i b) = strlen b.
Proof using Hbytes. unfold fmt_ss. token_tests; try reflexivity. cbv zeta; kept_length. Qed.

Lemma strlen_fmt_D i b : strlen (fmt_D rom tg dt i b) = strlen b.
Proof using Hbytes.
  unfold fmt_D. token_tests; try reflexivity; cbv zeta; kept_length.
Qed.

Lemma strlen_fmt_M i b : strlen (fmt_M names_oob dt i b) = strlen b.
Proof using Hbytes.
  unfold fmt_M. token_tests; try reflexivity; cbv zeta; kept_length.
Qed.

Lemma strlen_fmt_Y i b : strlen (fmt_Y dt i b) = strlen b.
Proof using Hbytes.
  unfold fmt_Y. token_tests; try reflexivity; cbv zeta; kept_length.
Qed.

Lemma strlen_fmt_AP i b : strlen (fmt_AP pm i b) = strlen b.
Proof using Type.
  unfold fmt_AP. token_tests; try reflexivity; destruct pm; kept_length.
Qed.

Lemma strlen_body i b : strlen (body i b) = strlen b.
Proof using Hbytes Hhr.
  unfold toString_body.
  rewrite strlen_fmt_AP, strlen_fmt_Y, strlen_fmt_M, strlen_fmt_D, strlen_fmt_ss,
    strlen_fmt_mm, strlen_fmt_hh.
  reflexivity.
Qed.

Lemma loop_keeps_strlen (n : nat) : forall i b,
  (length b - i <= n)%nat -> strlen b <> O ->
  exists out, loop i b = Some out /\ strlen out = strlen b /\ length out = length b.
Proof using Hbytes Hhr.
  induction n as [| n IH]; intros i b Hn H0; rewrite toString_loop_step;
    pose proof (strlen_le_length b) as Hs;
    destruct (strlen b) as [| k] eqn:Ek; try congruence;
    destruct (Nat.ltb_spec i k) as [Hlt | Hge]; try lia; eauto.
  destruct (IH (S i) (toString_body rom names_oob tg dt apTag hr pm i b))
    as (out & Ho & Hso & Hlo).
  - rewrite length_toString_body. lia.
  - rewrite strlen_body, Ek. discriminate.
  - exists out. rewrite strlen_body, length_toString_body in *.
    split; [exact Ho |]. split; congruence.
Qed.

End KeptByScan.

Section LiteralText.
Variable rom : Z -> Z.
Variable names_oob : Z -> ascii.
Variable tg : target.
Variable dt : DateTime.
Variable apTag : bool.
Variable hr : Z.
Variable pm : bool.

Lemma loop_literal (n : nat) : forall i b,
  (length b - i <= n)%nat -> strlen b <> O ->
  (forall j, (i <= j)%nat -> (j < strlen b - 1)%nat -> starts_token (rd b j) = false) ->
  toString_loop rom names_oob tg dt apTag hr pm i b = Some b.
Proof using Type.
  induction n as [| n IH]; intros i b Hn H0 Hlit; rewrite toString_loop_step;
    pose proof (strlen_le_length b) as Hs;
    destruct (strlen b) as [| k] eqn:Ek; try congruence;
    destruct (Nat.ltb_spec i k) as [Hlt | Hge]; try lia; try reflexivity.
  rewrite body_inert by (apply Hlit; cbn; lia).
  apply IH; [lia | congruence |].
  intros j Hj1 Hj2. apply Hlit; [lia |]. rewrite Ek in Hj2. cbn in *. lia.
Qed.

End LiteralText.

Lemma hourReformatted_byte dt apTag :
  0 <= hh dt < 256 -> 0 <= hourReformatted_of dt apTag < 256.
Proof.
  intros Hh. unfold hourReformatted_of.
  destruct apTag; [| lia].
  destruct (hh dt =? 0); [lia |]. destruct (hh dt =? 12); [lia |].
  destruct (hh dt <? 12); [lia | apply to_uint8_range].
Qed.

(** On a non-empty buffer, with the month one of the twelve, [toString]
    returns, and the buffer it returns holds a string of the same length
    in an array of the same size: nothing is appended and the terminator
    does not move. *)
Theorem toString_keeps_length
        (rom : Z -> Z) (names_oob : Z -> ascii) (tg : target)
        (dt : DateTime) (buffer : list ascii) :
  0 <= yOff dt < 256 -> 1 <= m dt <= 12 -> 0 <= d dt < 256 ->
  0 <= hh dt < 256 -> 0 <= mm dt < 256 -> 0 <= ss dt < 256 ->
  strlen buffer <> O ->
  exists out,
    toString rom names_oob tg dt buffer = Some out /\
    strlen out = strlen buffer /\ length out = length buffer.
Proof.
  intros Hy Hm Hd Hh Hmi Hs H0.
  rewrite toString_loop_form.
  assert (Hb : 0 <= yOff dt < 256 /\ 1 <= m dt <= 12 /\ 0 <= d dt < 256 /\
               0 <= hh dt < 256 /\ 0 <= mm dt < 256 /\ 0 <= ss dt < 256)
    by (repeat split; lia).
  apply (loop_keeps_strlen rom names_oob tg dt _ _ _ Hb
           (hourReformatted_byte dt _ Hh) (length buffer) O buffer); [lia | exact H0].
Qed.

Lemma toString_keeps_length_witness :
  exists out,
    toString (fun _ => 0) (fun _ => NUL) Int32 (mkDateTime 20 4 16 18 34 56)
             (list_ascii_of_string "DDD, DD MMM YYYY hh:mm:ss") = Some out /\
    strlen out = 25%nat /\ length out = 25%nat.
Proof.
  apply (toString_keeps_length (fun _ => 0) (fun _ => NUL) Int32
           (mkDateTime 20 4 16 18 34 56)
           (list_ascii_of_string "DDD, DD MMM YYYY hh:mm:ss")); cbn; lia.
Defined.

(** Text without a character that can begin a token passes through
    unchanged, whatever the DateTime; the last character of the string is
    never looked at as the start of a token. *)
Theorem toString_literal_text
        (rom : Z -> Z) (names_oob : Z -> ascii) (tg : target)
        (dt : DateTime) (buffer : list ascii) :
  strlen buffer <> O ->
  (forall j, (j < strlen buffer - 1)%nat -> starts_token (rd buffer j) = false) ->
  toString rom names_oob tg dt buffer = Some buffer.
Proof.
  intros H0 Hlit. rewrite toString_loop_form.
  apply (loop_literal rom names_oob tg dt _ _ _ (length buffer)); [lia | exact H0 |].
  intros j _ Hj. apply Hlit. exact Hj.
Qed.

Lemma toString_literal_text_witness :
  toString (fun _ => 0) (fun _ => NUL) Int32 (mkDateTime 20 4 16 18 34 56)
           (list_ascii_of_string "10:15 pm")
  = Some (list_ascii_of_string "10:15 pm").
Proof.
  apply (toString_literal_text (fun _ => 0) (fun _ => NUL) Int32
           (mkDateTime 20 4 16 18 34 56) (list_ascii_of_string "10:15 pm")).
  - discriminate.
  - intros j Hj. cbn in Hj.
    do 7 (destruct j as [| j]; [reflexivity |]). lia.
Defined.


